(** * Synbols benchmarks: backbone factory, episodic ProtoNet trainer and
      the resumable train/validate driver.

    Shallow embedding of
      - [classification/backbones/__init__.py]  (module [Backbones]),
      - [few_shot/models/ProtoNet.py]           (module [ProtoNet]),
      - [generation/trainval.py]                (module [Trainval]).

    Python integers are [Z] (sizes and shapes, which are never negative,
    are [nat]); Python floats are modelled by exact rationals [Q], so
    rounding, infinities and NaN are outside the model; dictionaries with
    string keys are [gmap string _]; exceptions are values of [exn]. *)

From Stdlib Require Import ZArith QArith Qfield Lqa String Ascii List Lia.
From stdpp Require Import gmap strings list fin_maps pretty.

Local Open Scope string_scope.
Local Open Scope list_scope.
Local Open Scope Z_scope.

(** * Definitions *)

(** ** Python values and exceptions *)

Module Py.

(** The exceptions the modelled code can raise.  [RuntimeError] carries its
    message: the trainer raises one of its own and torch raises others. *)
Inductive exn : Type :=
| RuntimeError (msg : string)
| ZeroDivisionError
| AssertionError
| ValueError
| IndexError
| KeyError (key : string)
| TypeError
| AttributeError
| FileNotFoundError.

Inductive result (A : Type) : Type :=
| Ok (a : A)
| Raise (e : exn).
Arguments Ok {A} a.
Arguments Raise {A} e.

Definition bind {A B} (r : result A) (k : A -> result B) : result B :=
  match r with
  | Ok a => k a
  | Raise e => Raise e
  end.

(** A number stored in a metric dictionary: [int] or [float]. *)
Inductive pyval : Type :=
| PyInt (z : Z)
| PyFloat (q : Q).

(** [x + 1] for a Python number. *)
Definition add_one (v : pyval) : pyval :=
  match v with
  | PyInt z => PyInt (z + 1)
  | PyFloat q => PyFloat (q + 1)
  end.

(** [range(lo, hi)]: the integers [lo, lo+1, ..., hi-1]. *)
Definition range (lo hi : Z) : list Z :=
  List.map (fun i => lo + Z.of_nat i) (List.seq 0 (Z.to_nat (hi - lo))).

(** [x / n] with [x] a float and [n] an int: true division, raising on a
    zero divisor. *)
Definition truediv (x : Q) (n : Z) : result Q :=
  if n =? 0 then Raise ZeroDivisionError else Ok (x / inject_Z n)%Q.

(** [s.lower()] on ASCII text. *)
Definition lower_ascii (c : ascii) : ascii :=
  let n := nat_of_ascii c in
  if ((65 <=? n)%nat && (n <=? 90)%nat)%bool then ascii_of_nat (n + 32) else c.

Fixpoint lower (s : string) : string :=
  match s with
  | EmptyString => EmptyString
  | String c s' => String (lower_ascii c) (lower s')
  end.

End Py.

Import Py.

#[global] Instance result_ret : MRet result := @Ok.
#[global] Instance result_bind : MBind result := fun A B k r => Py.bind r k.

(** ** classification/backbones/__init__.py *)

Module Backbones.

(** *** Conv4 *)

(** The stride schedule chosen in [Conv4.__init__]. *)
Definition conv4_strides (in_h in_w : Z) : list Z :=
  let in_size := Z.min in_w in_h in
  let ratio := in_size / 4 in
  if 16 <=? ratio then [2; 2; 2; 2]
  else if 8 <=? ratio then [1; 2; 2; 2]
  else if 4 <=? ratio then [1; 2; 2; 1]
  else if 2 <=? ratio then [1; 2; 1; 1]
  else [1; 1; 1; 1].

(** *** Modules and the factory *)

Local Set Warnings "-register-all".

(** Whether a layer carries ImageNet weights or a fresh initialisation. *)
Inductive weights : Type := ImageNet | Fresh.

Definition weights_of (pretrained : bool) : weights :=
  if pretrained then ImageNet else Fresh.

(** A torch module, as far as the factory looks into it.  [Net] is a module
    with named children, in the order of its [_modules] dictionary; [Layer]
    is any module the factory never opens (batch norm, pooling, a residual
    stage). *)
Inductive module : Type :=
| Conv2d (in_channels out_channels : Z) (kernel_size stride padding : Z * Z)
         (bias : bool) (init : weights)
| Linear (in_features out_features : Z) (init : weights)
| ReLU (inplace : bool)
| GAP
| Layer (description : string) (init : weights)
| Net (cls : string) (_modules : list (string * module)).

(** [d[key] = m] on an ordered dictionary: an existing key keeps its place. *)
Fixpoint set_item (key : string) (m : module) (d : list (string * module))
  : list (string * module) :=
  match d with
  | [] => [(key, m)]
  | (k, x) :: d' =>
      if String.eqb k key then (k, m) :: d' else (k, x) :: set_item key m d'
  end.

Fixpoint get_item (key : string) (d : list (string * module)) : option module :=
  match d with
  | [] => None
  | (k, x) :: d' => if String.eqb k key then Some x else get_item key d'
  end.

(** [net._modules[key]]. *)
Definition child (key : string) (net : module) : result module :=
  match net with
  | Net _ d =>
      match get_item key d with
      | Some x => Ok x
      | None => Raise (KeyError key)
      end
  | _ => Raise AttributeError
  end.

(** [net._modules[key] = m] (also what [net.key = m] does for a module). *)
Definition set_child (key : string) (m : module) (net : module) : result module :=
  match net with
  | Net cls d => Ok (Net cls (set_item key m d))
  | _ => Raise AttributeError
  end.

(** [seq[i] = m] on a [Sequential]: the child named [str(i)], which must exist. *)
Definition set_index (i : nat) (m : module) (seq : module) : result module :=
  match seq with
  | Net cls d =>
      match get_item (pretty i) d with
      | Some _ => Ok (Net cls (set_item (pretty i) m d))
      | None => Raise IndexError
      end
  | _ => Raise TypeError
  end.

(** [list(net.children())]. *)
Definition children (net : module) : list module :=
  match net with
  | Net _ d => List.map snd d
  | _ => []
  end.

(** [torch.nn.Sequential( *ms )]: children named "0", "1", ... *)
Definition Sequential (ms : list module) : module :=
  Net "Sequential" (List.map (fun '(i, m) => (pretty i, m))
                             (List.combine (List.seq 0 (List.length ms)) ms)).

Definition in_features (m : module) : result Z :=
  match m with
  | Linear i _ _ => Ok i
  | _ => Raise AttributeError
  end.

(** torchvision's residual networks: the named children of [ResNet], with
    the stem convolution and the classifier spelled out. *)
Definition torchvision_resnet (fc_in : Z) (pretrained : bool) : module :=
  let w := weights_of pretrained in
  Net "ResNet"
    [("conv1", Conv2d 3 64 (7, 7) (2, 2) (3, 3) false w);
     ("bn1", Layer "BatchNorm2d" w);
     ("relu", ReLU true);
     ("maxpool", Layer "MaxPool2d" w);
     ("layer1", Layer "layer1" w);
     ("layer2", Layer "layer2" w);
     ("layer3", Layer "layer3" w);
     ("layer4", Layer "layer4" w);
     ("avgpool", Layer "AdaptiveAvgPool2d" w);
     ("fc", Linear fc_in 1000 w)].

Definition resnet18 := torchvision_resnet 512.
Definition resnet50 := torchvision_resnet 2048.

(** torchvision's [make_layers(cfg, batch_norm=True)]; [None] is 'M'. *)
Fixpoint make_layers (w : weights) (in_ch : Z) (cfg : list (option Z)) : list module :=
  match cfg with
  | [] => []
  | None :: cfg' => Layer "MaxPool2d" w :: make_layers w in_ch cfg'
  | Some v :: cfg' =>
      Conv2d in_ch v (3, 3) (1, 1) (1, 1) true w
        :: Layer "BatchNorm2d" w :: ReLU true :: make_layers w v cfg'
  end.

Definition vgg16_cfg : list (option Z) :=
  [Some 64; Some 64; None; Some 128; Some 128; None;
   Some 256; Some 256; Some 256; None; Some 512; Some 512; Some 512; None;
   Some 512; Some 512; Some 512; None].

Definition vgg16_bn (pretrained : bool) : module :=
  let w := weights_of pretrained in
  Net "VGG"
    [("features", Sequential (make_layers w 3 vgg16_cfg));
     ("avgpool", Layer "AdaptiveAvgPool2d" w);
     ("classifier", Layer "classifier" w)].

(** The configuration dictionary.  Keys that only some architectures read
    are optional; reading a missing one raises [KeyError]. *)
Record backbone_cfg : Type := {
  name : string;
  imagenet_pretraining : option bool;
  gap : option bool;
  hidden_size : option Z;
  depth : option Z;
  width : option Z
}.

Record dataset_cfg : Type := {
  channels : Z;
  height : Z;
  ds_width : Z
}.

Record exp_dict : Type := {
  num_classes : Z;
  backbone : backbone_cfg;
  dataset : dataset_cfg
}.

Definition item {A} (key : string) (o : option A) : result A :=
  match o with
  | Some a => Ok a
  | None => Raise (KeyError key)
  end.

(** [assert(c)]. *)
Definition assert (c : bool) : result unit :=
  if c then Ok tt else Raise AssertionError.

(** [children[:-2]]. *)
Definition drop_last2 {A} (l : list A) : list A :=
  List.firstn (List.length l - 2)%nat l.

(** [Conv4.__init__]: four convolution/batch-norm pairs and the projection
    (sizes taken as they come, as for [MLP] below). *)
Fixpoint conv4_stages (i : nat) (in_ch : Z) (chans strides : list Z)
  : list (string * module) :=
  match chans, strides with
  | ch :: chans', st :: strides' =>
      ("conv" +:+ pretty i, Conv2d in_ch ch (3, 3) (st, st) (1, 1) false Fresh)
        :: ("bn" +:+ pretty i, Layer "BatchNorm2d" Fresh)
        :: conv4_stages (S i) ch chans' strides'
  | _, _ => []
  end.

Definition Conv4 (in_h in_w chans output_size : Z) (gap : bool) : module :=
  let strides := conv4_strides in_h in_w in
  let channels := [32; 64; 128; 256] in
  let out :=
    if gap then Linear 256 output_size Fresh
    else Linear (256 * 4 * 4) output_size Fresh in
  Net "Conv4" (conv4_stages 0 chans channels strides ++ [("out", out)]).

(** [MLP.__init__].  The sizes are taken as they come: that torch refuses
    to build a layer of negative size is not modelled. *)
Definition MLP (ni no nhidden depth : Z) : module :=
  let linears :=
    List.map (fun i : nat =>
                ("linear" +:+ pretty i,
                 if (i =? 0)%nat then Linear ni nhidden Fresh
                 else Linear nhidden nhidden Fresh))
             (List.seq 0 (Z.to_nat depth)) in
  let nhidden := if depth =? 0 then ni else nhidden in
  Net "MLP" (linears ++ [("out", Linear nhidden no Fresh)]).

(** The two networks of this repository that live in other files. *)
Class Networks : Type := {
  WideResNet : Z -> Z -> Z -> module;
  Resnet12 : Z -> Z -> Z -> module
}.

Definition get_backbone `{N : Networks} (exp_dict : exp_dict) : result module :=
  let nclasses := num_classes exp_dict in
  let backbone_name := lower (name (backbone exp_dict)) in
  let chans := channels (dataset exp_dict) in
  if String.eqb backbone_name "resnet18" then
    pre ← item "imagenet_pretraining" (imagenet_pretraining (backbone exp_dict));
    let net := resnet18 pre in
    num_ftrs ← child "fc" net ≫= in_features;
    net ← set_child "fc" (Linear num_ftrs nclasses Fresh) net;
    if negb (chans =? 3) then
      _ ← assert (negb pre);
      set_child "conv1" (Conv2d chans 64 (7, 7) (2, 2) (3, 3) false Fresh) net
    else Ok net
  else if String.eqb backbone_name "resnet50" then
    pre ← item "imagenet_pretraining" (imagenet_pretraining (backbone exp_dict));
    let net := resnet50 pre in
    num_ftrs ← child "fc" net ≫= in_features;
    net ← set_child "fc" (Linear num_ftrs nclasses Fresh) net;
    if negb (chans =? 3) then
      _ ← assert (negb pre);
      set_child "conv1" (Conv2d chans 64 (7, 7) (2, 2) (3, 3) false Fresh) net
    else Ok net
  else if String.eqb backbone_name "wrn" then
    let net := WideResNet (default 28 (depth (backbone exp_dict)))
                          (default 10 (width (backbone exp_dict))) nclasses in
    if negb (chans =? 3) then
      set_child "conv0" (Conv2d chans 16 (3, 3) (1, 1) (1, 1) false Fresh) net
    else Ok net
  else if String.eqb backbone_name "resnet12" then
    Ok (Resnet12 1 chans nclasses)
  else if String.eqb backbone_name "vgg16" then
    pre ← item "imagenet_pretraining" (imagenet_pretraining (backbone exp_dict));
    let net := vgg16_bn pre in
    net ← (if negb (chans =? 3) then
             _ ← assert (negb pre);
             features ← child "features" net;
             features ← set_index 0 (Conv2d chans 64 (3, 3) (1, 1) (1, 1) true Fresh)
                                  features;
             set_child "features" features net
           else Ok net);
    let children := drop_last2 (children net) in
    let output :=
      Sequential [GAP; Linear 512 4096 Fresh; ReLU true;
                  Linear 4096 4096 Fresh; ReLU true;
                  Linear 4096 nclasses Fresh] in
    Ok (Sequential (children ++ [output]))
  else if String.eqb backbone_name "conv4" then
    gap ← item "gap" (gap (backbone exp_dict));
    Ok (Conv4 (height (dataset exp_dict)) (ds_width (dataset exp_dict)) chans
              nclasses gap)
  else if String.eqb backbone_name "mlp" then
    hidden ← item "hidden_size" (hidden_size (backbone exp_dict));
    depth ← item "depth" (depth (backbone exp_dict));
    Ok (MLP (height (dataset exp_dict) * ds_width (dataset exp_dict) * chans)
            nclasses hidden depth)
  else Raise ValueError.

(** *** Vocabulary for the statements about the factory *)

(** The first convolution met when walking the children in order. *)
Fixpoint first_conv (m : module) : option module :=
  match m with
  | Conv2d _ _ _ _ _ _ _ => Some m
  | Net _ d =>
      (fix walk (l : list (string * module)) : option module :=
         match l with
         | [] => None
         | (_, x) :: l' =>
             match first_conv x with
             | Some c => Some c
             | None => walk l'
             end
         end) d
  | _ => None
  end.

(** The layers of a module, in the order the data flows through them. *)
Fixpoint leaves (m : module) : list module :=
  match m with
  | Net _ d =>
      (fix walk (l : list (string * module)) : list module :=
         match l with
         | [] => []
         | (_, x) :: l' => leaves x ++ walk l'
         end) d
  | _ => [m]
  end.

(** The module found by following child names, and the module obtained by
    putting [new] at that place and touching nothing else. *)
Fixpoint get_at (path : list string) (m : module) : option module :=
  match path with
  | [] => Some m
  | k :: path' =>
      match m with
      | Net _ d => get_item k d ≫= get_at path'
      | _ => None
      end
  end.

Fixpoint set_at (path : list string) (new m : module) : module :=
  match path with
  | [] => new
  | k :: path' =>
      match m with
      | Net cls d =>
          Net cls (List.map (fun '(k', x) =>
                               if String.eqb k' k then (k', set_at path' new x)
                               else (k', x)) d)
      | _ => m
      end
  end.

(** The architectures that torchvision ships with 3-channel ImageNet
    weights, and the network each name stands for. *)
Inductive rgb_arch : Type := Resnet18 | Resnet50 | Vgg16.

Definition arch_name (a : rgb_arch) : string :=
  match a with
  | Resnet18 => "resnet18"
  | Resnet50 => "resnet50"
  | Vgg16 => "vgg16"
  end.

Definition torchvision_model (a : rgb_arch) (pretrained : bool) : module :=
  match a with
  | Resnet18 => resnet18 pretrained
  | Resnet50 => resnet50 pretrained
  | Vgg16 => vgg16_bn pretrained
  end.

(** How many leading layers of torchvision's network the factory keeps: all
    that come before the classification head (and, for vgg16, before the
    pooling in front of it), which it rebuilds for every request. *)
Definition body_size (a : rgb_arch) : nat :=
  match a with
  | Resnet18 | Resnet50 => 9
  | Vgg16 => 44
  end.

(** Where the first convolution sits in what the factory returns. *)
Definition stem_path (a : rgb_arch) : list string :=
  match a with
  | Resnet18 | Resnet50 => ["conv1"]
  | Vgg16 => ["0"; "0"]
  end.

(** The layer the factory builds for a request of [ch] input channels. *)
Definition fresh_stem (a : rgb_arch) (ch : Z) : module :=
  match a with
  | Resnet18 | Resnet50 => Conv2d ch 64 (7, 7) (2, 2) (3, 3) false Fresh
  | Vgg16 => Conv2d ch 64 (3, 3) (1, 1) (1, 1) true Fresh
  end.

Definition input_channels (m : module) : option Z :=
  match m with
  | Conv2d i _ _ _ _ _ _ => Some i
  | _ => None
  end.

Definition initialisation (m : module) : option weights :=
  match m with
  | Conv2d _ _ _ _ _ _ w | Linear _ _ w | Layer _ w => Some w
  | _ => None
  end.

(** The same configuration asking for [ch] input channels. *)
Definition with_channels (ch : Z) (e : exp_dict) : exp_dict :=
  {| num_classes := num_classes e;
     backbone := backbone e;
     dataset := {| channels := ch;
                   height := height (dataset e);
                   ds_width := ds_width (dataset e) |} |}.

(** A grey-scale request for an untrained resnet18, used to exercise the
    factory on a concrete configuration. *)
Definition grey_resnet18 : exp_dict :=
  {| num_classes := 10;
     backbone := {| name := "ResNet18"; imagenet_pretraining := Some false;
                    gap := None; hidden_size := None; depth := None;
                    width := None |};
     dataset := {| channels := 1; height := 32; ds_width := 32 |} |}.

(** Stand-ins for the two networks defined elsewhere. *)
Definition no_networks : Networks :=
  {| WideResNet := fun _ _ _ => Layer "WideResNet" Fresh;
     Resnet12 := fun _ _ _ => Layer "Resnet12" Fresh |}.

(** *** Forward passes, as far as shapes go *)

(** The names [get_backbone] knows, after lower-casing. *)
Definition known_backbones : list string :=
  ["resnet18"; "resnet50"; "wrn"; "resnet12"; "vgg16"; "conv4"; "mlp"].

(** Messages of the errors torch raises on an input it cannot take. *)
Definition channels_msg : string :=
  "expected input to have the number of channels of the weight".
Definition kernel_msg : string :=
  "Kernel size can't be greater than actual input size".
Definition input_dim_msg : string := "Expected 4-dimensional input".
Definition size_mismatch_msg : string := "size mismatch".
Definition ambiguous_view_msg : string :=
  "cannot reshape tensor of 0 elements: the unspecified dimension size -1 can be any value and is ambiguous".

(** [getattr(self, name)] for a child module. *)
Definition getattr (key : string) (net : module) : result module :=
  match net with
  | Net _ d =>
      match get_item key d with
      | Some x => Ok x
      | None => Raise AttributeError
      end
  | _ => Raise AttributeError
  end.

(** The shape of [conv(x)] for [x] of shape [x] (dilation 1, floor mode). *)
Definition conv2d_shape (conv : module) (x : list Z) : result (list Z) :=
  match conv with
  | Conv2d cin cout (kh, kw) (sh, sw) (ph, pw) _ _ =>
      match x with
      | [n; c; h; w] =>
          if negb (c =? cin) then Raise (RuntimeError channels_msg)
          else if (h + 2 * ph <? kh) || (w + 2 * pw <? kw)
          then Raise (RuntimeError kernel_msg)
          else Ok [n; cout; (h + 2 * ph - kh) / sh + 1; (w + 2 * pw - kw) / sw + 1]
      | _ => Raise (RuntimeError input_dim_msg)
      end
  | _ => Raise TypeError
  end.

(** The shape of [linear(x)]: the last dimension must be [in_features]. *)
Definition linear_shape (lin : module) (x : list Z) : result (list Z) :=
  match lin with
  | Linear fin fout _ =>
      match last x with
      | Some f =>
          if f =? fin then Ok (removelast x ++ [fout])
          else Raise (RuntimeError size_mismatch_msg)
      | None => Raise (RuntimeError size_mismatch_msg)
      end
  | _ => Raise TypeError
  end.

(** The shape of [x.mean(3).mean(2)], the body of [GAP.forward]. *)
Definition gap_shape (x : list Z) : result (list Z) :=
  if (List.length x <? 4)%nat then Raise IndexError
  else Ok (delete 2%nat (delete 3%nat x)).

(** The shape of [x.view(x.size(0), -1)]. *)
Definition flat_shape (x : list Z) : result (list Z) :=
  match x with
  | [] => Raise IndexError
  | n :: rest =>
      if n =? 0 then Raise (RuntimeError ambiguous_view_msg)
      else Ok [n; List.fold_right Z.mul 1 rest]
  end.

(** The shape of [bn(x)] for a [BatchNorm2d]: that of [x], which must have
    four dimensions.  In training mode batch norm refuses an input with a
    single value per channel (batch size times height times width). *)
Definition batch_norm_shape (training : bool) (bn : module) (x : list Z)
  : result (list Z) :=
  match x with
  | [n; c; h; w] =>
      if training && (n * h * w =? 1) then Raise ValueError else Ok x
  | _ => Raise ValueError
  end.

(** The loop of [Conv4.forward] over the stages [idx], with the network in
    training mode or not; [leaky_relu] keeps the shape. *)
Fixpoint conv4_stack (training : bool) (net : module) (idx : list nat) (x : list Z)
  : result (list Z) :=
  match idx with
  | [] => Ok x
  | i :: idx' =>
      conv ← getattr ("conv" +:+ pretty i) net;
      bn ← getattr ("bn" +:+ pretty i) net;
      x ← conv2d_shape conv x;
      x ← batch_norm_shape training bn x;
      conv4_stack training net idx' x
  end.

(** [Conv4.forward], on shapes; [gap] is [self.gap]. *)
Definition conv4_forward (training gap : bool) (net : module) (x : list Z)
  : result (list Z) :=
  x ← conv4_stack training net (List.seq 0 4) x;
  out ← getattr "out" net;
  if gap then x ← gap_shape x; linear_shape out x
  else x ← flat_shape x; linear_shape out x.

(** [Conv4(in_h, in_w, channels, output_size, gap)(x)], the network put in
    training mode (as it is when constructed) or in evaluation mode. *)
Definition conv4_call (training : bool) (in_h in_w chans output_size : Z)
    (gap : bool) (x : list Z) : result (list Z) :=
  conv4_forward training gap (Conv4 in_h in_w chans output_size gap) x.

(** The loop of [MLP.forward] over the layers [idx]. *)
Fixpoint mlp_stack (net : module) (idx : list nat) (x : list Z)
  : result (list Z) :=
  match idx with
  | [] => Ok x
  | i :: idx' =>
      linear ← getattr ("linear" +:+ pretty i) net;
      x ← linear_shape linear x;
      mlp_stack net idx' x
  end.

(** [MLP.forward], on shapes; [depth] is [self.depth]. *)
Definition mlp_forward (depth : Z) (net : module) (x : list Z) : result (list Z) :=
  x ← flat_shape x;
  x ← mlp_stack net (List.seq 0 (Z.to_nat depth)) x;
  out ← getattr "out" net;
  linear_shape out x.

(** [MLP(ni, no, nhidden, depth)(x)]. *)
Definition mlp_call (ni no nhidden depth : Z) (x : list Z) : result (list Z) :=
  mlp_forward depth (MLP ni no nhidden depth) x.

(** The side of a feature map after one stage of stride [s]. *)
Definition stage_side (s side : Z) : Z := (side + 2 * 1 - 3) / s + 1.

(** Its side after the four stages chosen for [in_h] by [in_w]. *)
Definition final_side (in_h in_w side : Z) : Z :=
  List.fold_left (fun x s => stage_side s x) (conv4_strides in_h in_w) side.

(** A wide residual network with a stem and a classifier, to stand for the
    one defined elsewhere. *)
Definition toy_networks : Networks :=
  {| WideResNet := fun depth width nclasses =>
       Net "WideResNet"
         [("conv0", Conv2d 3 16 (3, 3) (1, 1) (1, 1) false Fresh);
          ("block1", Layer "NetworkBlock" Fresh);
          ("fc", Linear (64 * width) nclasses Fresh)];
     Resnet12 := fun _ _ _ => Layer "Resnet12" Fresh |}.

(** A wide residual network request for grey-scale input that leaves depth
    and width to their defaults and asks for pretrained weights. *)
Definition grey_wrn : exp_dict :=
  {| num_classes := 5;
     backbone := {| name := "WRN"; imagenet_pretraining := Some true;
                    gap := None; hidden_size := None; depth := None;
                    width := None |};
     dataset := {| channels := 1; height := 32; ds_width := 32 |} |}.

End Backbones.

(** ** few_shot/models/ProtoNet.py *)

Module ProtoNet.

Import Py.

Local Open Scope nat_scope.

(** *** Tensors *)

(** A dense tensor: its shape and its entries in row-major order. *)
Record tensor : Type := { shape : list nat; data : list Q }.

Definition prod (dims : list nat) : nat := List.fold_right Nat.mul 1 dims.

Definition numel (t : tensor) : nat := prod (shape t).

(** Messages of the errors torch raises from [view]. *)
Definition invalid_shape_msg : string := "shape is invalid for input size".
Definition ambiguous_shape_msg : string :=
  "cannot reshape tensor of 0 elements: the unspecified dimension size -1 can be any value and is ambiguous".

(** [t.view(d0, d1, ...)]: same entries, new shape, when the sizes agree. *)
Definition view (dims : list nat) (t : tensor) : result tensor :=
  if numel t =? prod dims then Ok {| shape := dims; data := data t |}
  else Raise (RuntimeError invalid_shape_msg).

(** [t.view(n, -1)]: the second dimension is inferred, which torch refuses
    when [n] is zero. *)
Definition view_rows (n : nat) (t : tensor) : result tensor :=
  if n =? 0 then
    Raise (RuntimeError (if numel t =? 0 then ambiguous_shape_msg
                         else invalid_shape_msg))
  else if numel t mod n =? 0 then
    Ok {| shape := [n; numel t / n]; data := data t |}
  else Raise (RuntimeError invalid_shape_msg).

(** [a, b, c, d, e = t.size()]. *)
Definition size5 (t : tensor) : result (nat * nat * nat * nat * nat) :=
  match shape t with
  | [a; b; c; d; e] => Ok (a, b, c, d, e)
  | _ => Raise ValueError
  end.

(** [t[i]]: the [i]-th slice along the first dimension. *)
Definition select (i : nat) (t : tensor) : tensor :=
  match shape t with
  | [] => t
  | _ :: dims =>
      {| shape := dims; data := take (prod dims) (drop (i * prod dims) (data t)) |}
  end.

(** The rows of a matrix. *)
Definition rows (t : tensor) : list (list Q) :=
  List.map (fun i => data (select i t)) (List.seq 0 (hd 0 (shape t))).

(** *** Relative labels *)

(** [torch.arange(n)]. *)
Definition arange (n : nat) : list nat := List.seq 0 n.

(** [x.view(1, -1)] on a vector: a matrix of one row. *)
Definition as_row (x : list nat) : list (list nat) := [x].

(** [x.repeat(k, 1)]: the rows of [x], [k] times over. *)
Definition repeat_rows (k : nat) (x : list (list nat)) : list (list nat) :=
  concat (replicate k x).

(** [x.view(-1)] on a matrix: its rows one after the other. *)
Definition flatten (x : list (list nat)) : list nat := concat x.

(** [torch.arange(nclasses).view(1, -1).repeat(size, 1).cuda().view(-1)]. *)
Definition relative_labels (nclasses size : nat) : list nat :=
  flatten (repeat_rows size (as_row (arange nclasses))).

(** *** Episodes *)

Record episode : Type := {
  support_set : tensor;
  query_set : tensor;
  targets : list Z;
  nclasses : nat;
  support_size : nat;
  query_size : nat
}.

(** [episode = episode[0]], undoing the collate of the loader. *)
Definition undo_collate (batch : list episode) : result episode :=
  match batch with
  | ep :: _ => Ok ep
  | [] => Raise IndexError
  end.

(** The two [size()] lines: the second overwrites [nclasses, c, h, w]. *)
Definition episode_sizes (ep : episode)
  : result (nat * nat * nat * nat * nat * nat) :=
  '(ss, nclasses, c, h, w) ← size5 (support_set ep);
  '(qs, nclasses, c, h, w) ← size5 (query_set ep);
  mret (ss, qs, nclasses, c, h, w).

(** *** Metrics *)

Definition sumQ (l : list Q) : Q := List.fold_right Qplus 0%Q l.

Definition ofnat (n : nat) : Q := inject_Z (Z.of_nat n).

(** [(preds == labels).float()]. *)
Definition matches (preds labels : list nat) : list Q :=
  zip_with (fun p l => if p =? l then 1%Q else 0%Q) preds labels.

(** [x.sum()] is [sumQ x]; [x.mean()]: *)
Definition mean (x : list Q) : Q := (sumQ x / ofnat (List.length x))%Q.

Definition too_small_msg : string :=
  "The dataset is too small for the current support and query sizes".

(** *** The trainer *)

(** What the trainer takes from torch and from [modules/ProtoNet.py]. *)
Class Torch : Type := {
  params : Type;
  grads : Type;
  opt_state : Type;
  sched_state : Type;
  (** [self.backbone(x)], in training or evaluation mode *)
  backbone : bool -> params -> tensor -> tensor;
  prototype_distance : tensor -> tensor -> list nat -> tensor;
  (** the value of [F.cross_entropy(logits, labels)] *)
  cross_entropy_value : tensor -> list nat -> Q;
  (** the index [row.max(-1)[1]] picks in one row of logits *)
  max_index : list Q -> nat;
  (** [loss.backward()]: gradients of the episode loss *)
  backward : bool -> params -> tensor -> tensor -> list nat -> list nat -> grads;
  (** [optimizer.step()] *)
  optimizer_step : opt_state -> params -> grads -> opt_state * params;
  (** [scheduler.step(metric)], which may lower the optimizer's rate *)
  scheduler_step : sched_state -> opt_state -> Q -> sched_state * opt_state
}.

Section Trainer.

Context `{T : Torch}.

(** The mutable attributes of a [ProtoNet] object. *)
Record model : Type := {
  backbone_params : params;
  training : bool;
  optimizer : opt_state;
  scheduler : sched_state
}.

(** Computations that read and write the model and may raise. *)
Definition M (A : Type) : Type := model -> result A * model.

#[global] Instance M_ret : MRet M := fun A a m => (Ok a, m).
#[global] Instance M_bind : MBind M := fun A B k c m =>
  match c m with
  | (Ok a, m') => k a m'
  | (Raise e, m') => (Raise e, m')
  end.

Definition lift {A} (r : result A) : M A := fun m => (r, m).
Definition get : M model := fun m => (Ok m, m).
Definition put (m : model) : M unit := fun _ => (Ok tt, m).

(** [self.backbone.train()] and [self.backbone.eval()]. *)
Definition set_training (b : bool) : M unit := fun m =>
  (Ok tt, {| backbone_params := backbone_params m; training := b;
             optimizer := optimizer m; scheduler := scheduler m |}).

(** [F.cross_entropy]: the batch sizes of logits and labels must agree. *)
Definition cross_entropy (logits : tensor) (labels : list nat) : result Q :=
  if hd 0 (shape logits) =? List.length labels
  then Ok (cross_entropy_value logits labels)
  else Raise ValueError.

(** [logits.max(-1)[1]]. *)
Definition preds_of (logits : tensor) : list nat := List.map max_index (rows logits).

Record forward_out : Type := {
  support_batch : tensor;
  query_batch : tensor;
  support_relative_labels : list nat;
  query_relative_labels : list nat;
  logits : tensor;
  loss : Q
}.

(** The statements both loops share, from the label construction to the
    loss: lines 52-66 of [train_on_loader], 100-112 of [val_on_loader]. *)
Definition episode_forward (m : model) (ep : episode)
    (ss qs nclasses_ c h w : nat) : result forward_out :=
  let absolute_labels := targets ep in
  let relative_labels_ := absolute_labels in
  let support_relative_labels := relative_labels (nclasses ep) (support_size ep) in
  let query_relative_labels := relative_labels (nclasses ep) (query_size ep) in
  sb ← view [ss * nclasses_; c; h; w] (support_set ep);
  support_embeddings ←
    view_rows (ss * nclasses_) (backbone (training m) (backbone_params m) sb);
  qb ← view [qs * nclasses_; c; h; w] (query_set ep);
  query_embeddings ←
    view_rows (qs * nclasses_) (backbone (training m) (backbone_params m) qb);
  let logits :=
    prototype_distance support_embeddings query_embeddings support_relative_labels in
  loss ← cross_entropy logits query_relative_labels;
  mret {| support_batch := sb; query_batch := qb;
          support_relative_labels := support_relative_labels;
          query_relative_labels := query_relative_labels;
          logits := logits; loss := loss |}.

(** One pass of the training loop body: the episode's loss and accuracy.
    Gradients do not outlive the pass ([optimizer.zero_grad()] opens it), so
    [backward] hands them straight to [optimizer.step()].  What a forward
    pass in training mode writes into the backbone (the running statistics
    of batch norm) is part of what [optimizer_step] returns for a pass that
    succeeds; for a pass that raises it is not modelled, so nothing should
    be read into the model such a pass leaves. *)
Definition train_episode (batch : list episode) : M (Q * Q) :=
  episode ← lift (undo_collate batch);
  '(ss, qs, nclasses_, c, h, w) ← lift (episode_sizes episode);
  m ← get;
  out ← lift (episode_forward m episode ss qs nclasses_ c h w);
  let g := backward (training m) (backbone_params m)
             (support_batch out) (query_batch out)
             (support_relative_labels out) (query_relative_labels out) in
  let '(o, p) := optimizer_step (optimizer m) (backbone_params m) g in
  _ ← put {| backbone_params := p; training := training m;
             optimizer := o; scheduler := scheduler m |};
  let preds := preds_of (logits out) in
  mret (loss out, mean (matches preds (query_relative_labels out))).

Fixpoint train_loop (loader : list (list episode))
    (_loss _accuracy : Q) (_total : Z) : M (Q * Q * Z) :=
  match loader with
  | [] => mret (_loss, _accuracy, _total)
  | batch :: loader' =>
      '(loss, acc) ← train_episode batch;
      train_loop loader' (_loss + loss)%Q (_accuracy + acc)%Q (_total + 1)%Z
  end.

Definition train_on_loader (loader : list (list episode))
  : M (gmap string pyval) :=
  _ ← set_training true;
  '(_loss, _accuracy, _total) ← train_loop loader 0%Q 0%Q 0%Z;
  train_loss ← lift (truediv _loss _total);
  train_accuracy ← lift (truediv (100 * _accuracy)%Q _total);
  mret (<["train_accuracy" := PyFloat train_accuracy]>
          {["train_loss" := PyFloat train_loss]}).

(** One pass of the evaluation loop body: the episode's loss, its number
    of correct predictions and the two factors of its query count. *)
Definition val_episode (batch : list episode) : M (Q * Q * nat * nat) :=
  episode ← lift (undo_collate batch);
  '(ss, qs, nclasses_, c, h, w) ← lift (episode_sizes episode);
  _ ← lift (if negb (ss =? support_size episode) || negb (qs =? query_size episode)
            then Raise (RuntimeError too_small_msg) else Ok tt);
  m ← get;
  out ← lift (episode_forward m episode ss qs nclasses_ c h w);
  let preds := preds_of (logits out) in
  mret (loss out, sumQ (matches preds (query_relative_labels out)), qs, nclasses_).

Fixpoint val_loop (loader : list (list episode))
    (_accuracy : Q) (_total : Z) (_loss : Q) : M (Q * Z * Q) :=
  match loader with
  | [] => mret (_accuracy, _total, _loss)
  | batch :: loader' =>
      '(loss, correct, qs, nclasses_) ← val_episode batch;
      val_loop loader'
        (_accuracy + correct)%Q
        (_total + Z.of_nat qs * Z.of_nat nclasses_)%Z
        (_loss + loss * ofnat qs * ofnat nclasses_)%Q
  end.

Definition val_on_loader (loader : list (list episode)) (mode : string)
  : M (gmap string pyval) :=
  _ ← set_training false;
  '(_accuracy, _total, _loss) ← val_loop loader 0%Q 0%Z 0%Q;
  metric ← lift (truediv _loss _total);
  m ← get;
  let '(s, o) := scheduler_step (scheduler m) (optimizer m) metric in
  _ ← put {| backbone_params := backbone_params m; training := training m;
             optimizer := o; scheduler := s |};
  val_loss ← lift (truediv _loss _total);
  ratio ← lift (truediv _accuracy _total);
  mret (<[mode +:+ "_accuracy" := PyFloat (100 * ratio)%Q]>
          {[mode +:+ "_loss" := PyFloat val_loss]}).


(** **** Vocabulary for the statements about the trainer *)

(** The outcomes of the loop body over a loader, episode by episode, with
    the model threaded through as the loops do. *)
Fixpoint episodes {A} (body : list episode -> M A) (loader : list (list episode))
  : M (list A) :=
  match loader with
  | [] => mret []
  | batch :: loader' =>
      a ← body batch;
      rest ← episodes body loader';
      mret (a :: rest)
  end.

(** Two episodes that agree on everything but their absolute labels. *)
Definition same_but_targets (e1 e2 : episode) : Prop :=
  support_set e1 = support_set e2 /\ query_set e1 = query_set e2 /\
  nclasses e1 = nclasses e2 /\ support_size e1 = support_size e2 /\
  query_size e1 = query_size e2.

(** The support and query counts read off the tensors, against the ones
    the episode declares. *)
Definition realized_support (ep : episode) : nat := hd 0 (shape (support_set ep)).
Definition realized_query (ep : episode) : nat := hd 0 (shape (query_set ep)).

Definition sizes_as_declared (ep : episode) : Prop :=
  realized_support ep = support_size ep /\ realized_query ep = query_size ep.

(** The errors that come out of torch in the loop bodies. *)
Definition torch_error (e : exn) : Prop :=
  e = IndexError \/ e = ValueError \/
  e = RuntimeError invalid_shape_msg \/ e = RuntimeError ambiguous_shape_msg.

(** The loss, the number of correct predictions and the number of query
    samples of an evaluated episode. *)
Definition episode_loss (o : Q * Q * nat * nat) : Q :=
  let '(l, _, _, _) := o in l.
Definition episode_correct (o : Q * Q * nat * nat) : Q :=
  let '(_, k, _, _) := o in k.
Definition query_count (o : Q * Q * nat * nat) : nat :=
  let '(_, _, qs, n) := o in qs * n.

(** The model as the loops see it once the mode is set. *)
Definition in_mode (b : bool) (m : model) : model := snd (set_training b m).

(** What torch computes in a pass once the batches are flattened and the
    label vectors are built: embeddings, logits and loss. *)
Definition classify (m : model) (sb qb : tensor) (slabels qlabels : list nat)
  : result forward_out :=
  support_embeddings ←
    view_rows (hd 0 (shape sb)) (backbone (training m) (backbone_params m) sb);
  query_embeddings ←
    view_rows (hd 0 (shape qb)) (backbone (training m) (backbone_params m) qb);
  let logits := prototype_distance support_embeddings query_embeddings slabels in
  loss ← cross_entropy logits qlabels;
  mret {| support_batch := sb; query_batch := qb;
          support_relative_labels := slabels;
          query_relative_labels := qlabels;
          logits := logits; loss := loss |}.

(** One forward pass on an episode, the sizes read off its tensors. *)
Definition forward (m : model) (ep : episode) : result forward_out :=
  '(ss, qs, nclasses_, c, h, w) ← episode_sizes ep;
  episode_forward m ep ss qs nclasses_ c h w.

(** The model after the optimizer step that follows a forward pass. *)
Definition trained (m : model) (out : forward_out) : model :=
  let g := backward (training m) (backbone_params m)
             (support_batch out) (query_batch out)
             (support_relative_labels out) (query_relative_labels out) in
  let op := optimizer_step (optimizer m) (backbone_params m) g in
  {| backbone_params := op.2; training := training m;
     optimizer := op.1; scheduler := scheduler m |}.

(** The number of query samples of an episode, read off its query tensor:
    samples per class times classes. *)
Definition query_samples (ep : episode) : nat :=
  match shape (query_set ep) with
  | qs :: n :: _ => qs * n
  | _ => 0
  end.

(** The number of query samples whose predicted class is their relative
    label, and the fraction they make. *)
Definition correct_count (out : forward_out) : nat :=
  List.length (List.filter (fun pl => fst pl =? snd pl)
                 (List.combine (preds_of (logits out)) (query_relative_labels out))).

Definition episode_accuracy (out : forward_out) : Q :=
  (ofnat (correct_count out) / ofnat (List.length (query_relative_labels out)))%Q.

Definition declared_sizes (ep : episode) : bool :=
  (realized_support ep =? support_size ep) && (realized_query ep =? query_size ep).

(** The forward passes of an epoch, episode by episode, each on the model
    as the passes before left it; [None] when an episode is missing from
    its batch, fails [check] or fails in the forward pass. *)
Fixpoint passes (check : episode -> bool) (step : model -> forward_out -> model)
    (loader : list (list episode)) (m : model)
  : option (list (episode * forward_out) * model) :=
  match loader with
  | [] => Some ([], m)
  | [] :: _ => None
  | (ep :: _) :: loader' =>
      if check ep then
        match forward m ep with
        | Ok out =>
            match passes check step loader' (step m out) with
            | Some (rest, m') => Some ((ep, out) :: rest, m')
            | None => None
            end
        | Raise _ => None
        end
      else None
  end.

(** A training epoch steps the optimizer after every pass; an evaluation
    epoch checks the declared sizes and leaves the model alone. *)
Definition train_passes : list (list episode) -> model
                          -> option (list (episode * forward_out) * model) :=
  passes (fun _ => true) trained.

Definition val_passes : list (list episode) -> model
                        -> option (list (episode * forward_out) * model) :=
  passes declared_sizes (fun m _ => m).

(** What the training body and the evaluation body hand to their loop
    for a pass. *)
Definition train_outcome (p : episode * forward_out) : Q * Q :=
  (loss p.2, mean (matches (preds_of (logits p.2)) (query_relative_labels p.2))).

Definition val_outcome (p : episode * forward_out) : Q * Q * nat * nat :=
  (loss p.2,
   sumQ (matches (preds_of (logits p.2)) (query_relative_labels p.2)),
   hd 0 (shape (query_set p.1)), nth 1 (shape (query_set p.1)) 0).

End Trainer.

(** *** A small instance, to run the trainer on concrete episodes *)

Definition first_max (row : list Q) : nat :=
  (fix go (l : list Q) (i best : nat) (top : Q) : nat :=
     match l with
     | [] => best
     | x :: l' => if Qle_bool x top then go l' (S i) best top
                  else go l' (S i) i x
     end) (tl row) 1 0 (hd 0%Q row).

Definition sqdist (x y : list Q) : Q :=
  sumQ (zip_with (fun a b => (a - b) * (a - b))%Q x y).

(** Class means of the support rows, and minus the squared distance of
    every query row to every class mean. *)
Definition class_mean (srows : list (list Q)) (labels : list nat) (k : nat) : list Q :=
  let members :=
    List.map fst (List.filter (fun p => snd p =? k) (List.combine srows labels)) in
  let total :=
    List.fold_right (zip_with Qplus)
                    (List.repeat 0%Q (List.length (hd [] srows))) members in
  List.map (fun x => Qred (x / ofnat (List.length members))) total.

Definition mean_distance (s q : tensor) (labels : list nat) : tensor :=
  let C := S (list_max labels) in
  let protos := List.map (class_mean (rows s) labels) (List.seq 0 C) in
  {| shape := [hd 0 (shape q); C];
     data := concat (List.map (fun r => List.map (fun p => Qred (- sqdist r p)) protos)
                              (rows q)) |}.

(** A rational stand-in for the cross entropy: how far, on average, the
    score of the right class is below the best score of its row. *)
Definition margin_loss (logits : tensor) (labels : list nat) : Q :=
  Qred (mean (zip_with (fun row l => nth (first_max row) row 0 - nth l row 0)%Q
                       (rows logits) labels)).

Definition small_torch : Torch := {|
  params := Z;
  grads := Z;
  opt_state := Z;
  sched_state := list Q;
  backbone := fun _ _ x => x;
  prototype_distance := mean_distance;
  cross_entropy_value := margin_loss;
  max_index := first_max;
  backward := fun _ _ _ _ _ _ => 1%Z;
  optimizer_step := fun o p g => ((o + 1)%Z, (p - g)%Z);
  scheduler_step := fun s o metric => (metric :: s, o)
|}.

Definition small_model : @model small_torch :=
  @Build_model small_torch 0%Z false 0%Z [].

Definition scalars (l : list Z) : list Q := List.map inject_Z l.

(** Two classes around 0 and 10; one support and two query samples each,
    all of them nearest to their own class. *)
Definition easy_episode : episode :=
  {| support_set := {| shape := [1; 2; 1; 1; 1]; data := scalars [0; 10]%Z |};
     query_set := {| shape := [2; 2; 1; 1; 1]; data := scalars [1; 9; 2; 12]%Z |};
     targets := [7; 3]%Z;
     nclasses := 2; support_size := 1; query_size := 2 |}.

(** The same classes with one query sample each; the sample of class 0 is
    nearer to class 1. *)
Definition hard_episode : episode :=
  {| support_set := {| shape := [1; 2; 1; 1; 1]; data := scalars [0; 10]%Z |};
     query_set := {| shape := [1; 2; 1; 1; 1]; data := scalars [8; 9]%Z |};
     targets := [4; 5]%Z;
     nclasses := 2; support_size := 1; query_size := 1 |}.

(** [easy_episode] under other absolute labels. *)
Definition relabelled_episode : episode :=
  {| support_set := support_set easy_episode;
     query_set := query_set easy_episode;
     targets := [0; 1]%Z;
     nclasses := 2; support_size := 1; query_size := 2 |}.

(** [easy_episode] declaring three query samples per class. *)
Definition short_episode : episode :=
  {| support_set := support_set easy_episode;
     query_set := query_set easy_episode;
     targets := targets easy_episode;
     nclasses := 2; support_size := 1; query_size := 3 |}.

Definition small_loader : list (list episode) := [[easy_episode]; [hard_episode]].

Definition small_train_run :=
  Eval vm_compute in
    episodes (T := small_torch) train_episode small_loader (in_mode true small_model).

Definition small_val_run :=
  Eval vm_compute in
    episodes (T := small_torch) val_episode small_loader (in_mode false small_model).

(** Outcomes and final models of the two runs above. *)
Definition small_touts : list (Q * Q) :=
  match fst small_train_run with Ok o => o | Raise _ => [] end.
Definition small_trained : @model small_torch := snd small_train_run.
Definition small_vouts : list (Q * Q * nat * nat) :=
  match fst small_val_run with Ok o => o | Raise _ => [] end.
Definition small_evaluated : @model small_torch := snd small_val_run.

(** The forward passes of the same two runs. *)
Definition small_train_passes : list (episode * forward_out) :=
  Eval vm_compute in
    match train_passes (T := small_torch) small_loader (in_mode true small_model) with
    | Some (ps, _) => ps
    | None => []
    end.

Definition small_val_passes : list (episode * forward_out) :=
  Eval vm_compute in
    match val_passes (T := small_torch) small_loader (in_mode false small_model) with
    | Some (ps, _) => ps
    | None => []
    end.

(** The metric a call reports under a key, if it returned. *)
Definition reported (key : string) (r : result (gmap string pyval)) : option pyval :=
  match r with
  | Ok d => d !! key
  | Raise _ => None
  end.

(** *** Construction *)

(** The optimizer and the scheduler [ProtoNet.__init__] asks torch for. *)
Inductive optimizer_spec : Type :=
| SGD (lr weight_decay momentum : Q) (nesterov : bool)
| Adam (lr : Q).

Record scheduler_spec : Type := ReduceLROnPlateau {
  over : optimizer_spec;
  sched_mode : string;
  factor : Q;
  patience : Z;
  verbose : bool
}.

(** The attributes [__init__] sets, next to the backbone. *)
Record protonet : Type := {
  the_optimizer : optimizer_spec;
  the_scheduler : scheduler_spec;
  best_val : Z
}.

(** The keys of [exp_dict] that [__init__] reads itself; each may be
    missing. *)
Record trainer_cfg : Type := {
  cfg_optimizer : option string;
  cfg_lr : option Q;
  cfg_patience : option Z
}.

(** [d[key]]. *)
Definition getitem {A} (key : string) (o : option A) : result A :=
  match o with
  | Some a => Ok a
  | None => Raise (KeyError key)
  end.

(** [torch.optim.SGD(params, lr, weight_decay, momentum, nesterov)], with
    the checks its constructor makes on the numbers. *)
Definition torch_SGD (lr weight_decay momentum : Q) (nesterov : bool)
  : result optimizer_spec :=
  if negb (Qle_bool 0 lr) then Raise ValueError
  else if negb (Qle_bool 0 momentum) then Raise ValueError
  else if negb (Qle_bool 0 weight_decay) then Raise ValueError
  else if nesterov && Qle_bool momentum 0 then Raise ValueError
  else Ok (SGD lr weight_decay momentum nesterov).

(** [torch.optim.Adam(params, lr)]. *)
Definition torch_Adam (lr : Q) : result optimizer_spec :=
  if negb (Qle_bool 0 lr) then Raise ValueError else Ok (Adam lr).

(** [ReduceLROnPlateau(optimizer, mode, factor, patience, verbose)]: the
    factor must be below 1, the mode "min" or "max". *)
Definition torch_ReduceLROnPlateau (o : optimizer_spec) (mode : string)
    (factor : Q) (patience : Z) (verbose : bool) : result scheduler_spec :=
  if Qle_bool 1 factor then Raise ValueError
  else if negb (String.eqb mode "min" || String.eqb mode "max") then Raise ValueError
  else Ok (ReduceLROnPlateau o mode factor patience verbose).

(** [ProtoNet.__init__], given how [get_backbone(exp_dict, classify=False)]
    (defined elsewhere) ended.  An optimizer name that is neither "sgd" nor
    "adam" sets no [self.optimizer], which the next statement then misses. *)
Definition init (built : result unit) (exp_dict : trainer_cfg) : result protonet :=
  _ ← built;
  name ← getitem "optimizer" (cfg_optimizer exp_dict);
  optimizer ←
    (if String.eqb name "sgd" then
       lr ← getitem "lr" (cfg_lr exp_dict);
       o ← torch_SGD lr (5 # 10000) (9 # 10) true;
       mret (Some o)
     else
       name ← getitem "optimizer" (cfg_optimizer exp_dict);
       if String.eqb name "adam" then
         lr ← getitem "lr" (cfg_lr exp_dict);
         o ← torch_Adam lr;
         mret (Some o)
       else mret None);
  optimizer ← match optimizer with
              | Some o => Ok o
              | None => Raise AttributeError
              end;
  patience ← getitem "patience" (cfg_patience exp_dict);
  scheduler ← torch_ReduceLROnPlateau optimizer "min" (1 # 10) patience true;
  mret {| the_optimizer := optimizer;
          the_scheduler := scheduler;
          best_val := 0 |}.

(** *** Checkpoints of the trainer *)

Section Checkpoint.

Context `{T : Torch}.

(** The dictionary [get_state_dict] returns and [set_state_dict] reads.
    The state of each part is taken to be what torch's own [state_dict()]
    returns and [load_state_dict] puts back; a key may be missing. *)
Record state_dict : Type := {
  sd_model : option params;
  sd_optimizer : option opt_state;
  sd_scheduler : option sched_state
}.

Definition get_state_dict : M state_dict := fun m =>
  (Ok {| sd_model := Some (backbone_params m);
         sd_optimizer := Some (optimizer m);
         sd_scheduler := Some (scheduler m) |}, m).

Definition set_state_dict (state_dict : state_dict) : M unit :=
  p ← lift (getitem "model" (sd_model state_dict));
  m ← get;
  _ ← put {| backbone_params := p; training := training m;
             optimizer := optimizer m; scheduler := scheduler m |};
  o ← lift (getitem "optimizer" (sd_optimizer state_dict));
  m ← get;
  _ ← put {| backbone_params := backbone_params m; training := training m;
             optimizer := o; scheduler := scheduler m |};
  s ← lift (getitem "scheduler" (sd_scheduler state_dict));
  m ← get;
  put {| backbone_params := backbone_params m; training := training m;
         optimizer := optimizer m; scheduler := s |}.

(** **** Vocabulary for further statements about the trainer *)

(** What the loops rely on in [prototype_distance]: one row of logits per
    query embedding. *)
Definition one_row_per_query : Prop :=
  forall s q labels,
    hd 0 (shape (prototype_distance s q labels)) = hd 0 (shape q).

End Checkpoint.

(** What the two loops report on the small loader, and the model they
    leave. *)
Definition small_train_report : gmap string pyval * @model small_torch :=
  Eval vm_compute in
    let r := train_on_loader (T := small_torch) small_loader small_model in
    (match r.1 with Ok d => d | Raise _ => ∅ end, r.2).

Definition small_val_report : gmap string pyval * @model small_torch :=
  Eval vm_compute in
    let r := val_on_loader (T := small_torch) small_loader "val" small_model in
    (match r.1 with Ok d => d | Raise _ => ∅ end, r.2).

Definition small_test_report : gmap string pyval * @model small_torch :=
  Eval vm_compute in
    let r := val_on_loader (T := small_torch) small_loader "test" small_model in
    (match r.1 with Ok d => d | Raise _ => ∅ end, r.2).

(** The small model after a training pass on the easy episode. *)
Definition easy_trained : @model small_torch :=
  Eval vm_compute in
    (train_episode (T := small_torch) [easy_episode] (in_mode true small_model)).2.

End ProtoNet.

(** ** generation/trainval.py *)

Module Trainval.

Import Py.

(** [d[key]]. *)
Definition getitem {A} (key : string) (d : gmap string A) : result A :=
  match d !! key with
  | Some a => Ok a
  | None => Raise (KeyError key)
  end.

(** [l[-1]]. *)
Definition last_item {A} (l : list A) : result A :=
  match last l with
  | Some a => Ok a
  | None => Raise IndexError
  end.

(** The model object comes from [models.get_model], which is not part of
    these files: its two epoch methods update it and hand back a dictionary
    of metrics. *)
Class Experiment : Type := {
  model : Type;
  state_dict : Type;
  train_on_loader : Z -> model -> model * gmap string pyval;
  val_on_loader : Z -> model -> model * gmap string pyval;
  get_state_dict : model -> state_dict;
  load_state_dict : model -> state_dict -> model
}.

Section Driver.

Context `{X : Experiment}.

(** The experiment directory as the driver uses it: [model.pth] and
    [score_list.pkl], and the temporary file haven's helpers write next to
    each ([model.pth.tmp], [score_list.pkl_tmp.pth]).  A file is absent or
    holds one complete payload. *)
Record disk : Type := {
  model_pth : option state_dict;
  score_list_pkl : option (list (gmap string pyval));
  model_pth_tmp : option state_dict;
  score_list_pkl_tmp : option (list (gmap string pyval))
}.

(** [hu.torch_load(model_path)]. *)
Definition torch_load (d : disk) : result state_dict :=
  match model_pth d with
  | Some sd => Ok sd
  | None => Raise FileNotFoundError
  end.

(** The checkpoint block: the model, the score list and [s_epoch]. *)
Definition resume (d : disk) (m : model)
  : result (model * list (gmap string pyval) * pyval) :=
  match score_list_pkl d with
  | Some saved =>
      sd ← torch_load d;
      let m := load_state_dict m sd in
      let score_list := saved in
      final ← last_item score_list;
      epoch ← getitem "epoch" final;
      mret (m, score_list, add_one epoch)
  | None => mret (m, [], PyInt 0)
  end.

(** What an epoch saves, in order: [hu.torch_save(model_path, ...)] and
    [hu.save_pkl(score_list_path, ...)]. *)
Inductive write : Type :=
| TorchSave (payload : state_dict)
| SavePkl (payload : list (gmap string pyval)).

(** Either helper of haven (an outside library) goes through three file
    operations: it dumps the payload into the temporary file, removes the
    file of that name if there is one, and renames the temporary file.  A
    temporary file cut short while being written is not modelled: nothing
    reads it, and the next save writes it anew. *)
Inductive file : Type := ModelPth | ScoreListPkl.

Inductive file_op : Type :=
| Dump (w : write)
| Remove (f : file)
| Rename (f : file).

Definition file_of (w : write) : file :=
  match w with
  | TorchSave _ => ModelPth
  | SavePkl _ => ScoreListPkl
  end.

Definition file_ops (w : write) : list file_op :=
  [Dump w; Remove (file_of w); Rename (file_of w)].

Definition apply_op (d : disk) (o : file_op) : disk :=
  match o with
  | Dump (TorchSave sd) =>
      {| model_pth := model_pth d; score_list_pkl := score_list_pkl d;
         model_pth_tmp := Some sd; score_list_pkl_tmp := score_list_pkl_tmp d |}
  | Dump (SavePkl sl) =>
      {| model_pth := model_pth d; score_list_pkl := score_list_pkl d;
         model_pth_tmp := model_pth_tmp d; score_list_pkl_tmp := Some sl |}
  | Remove ModelPth =>
      {| model_pth := None; score_list_pkl := score_list_pkl d;
         model_pth_tmp := model_pth_tmp d;
         score_list_pkl_tmp := score_list_pkl_tmp d |}
  | Remove ScoreListPkl =>
      {| model_pth := model_pth d; score_list_pkl := None;
         model_pth_tmp := model_pth_tmp d;
         score_list_pkl_tmp := score_list_pkl_tmp d |}
  | Rename ModelPth =>
      {| model_pth := model_pth_tmp d; score_list_pkl := score_list_pkl d;
         model_pth_tmp := None; score_list_pkl_tmp := score_list_pkl_tmp d |}
  | Rename ScoreListPkl =>
      {| model_pth := model_pth d; score_list_pkl := score_list_pkl_tmp d;
         model_pth_tmp := model_pth_tmp d; score_list_pkl_tmp := None |}
  end.

Definition run_ops (os : list file_op) (d : disk) : disk :=
  fold_left apply_op os d.

(** One save, carried through. *)
Definition apply_write (d : disk) (w : write) : disk :=
  run_ops (file_ops w) d.

Definition run_writes (ws : list write) (d : disk) : disk :=
  fold_left apply_write ws d.

(** The body of the epoch loop: the model and the score list after it, and
    the two saves it ends with. *)
Definition epoch (e : Z) (m : model) (score_list : list (gmap string pyval))
  : model * list (gmap string pyval) * list write :=
  let score_dict : gmap string pyval := ∅ in
  let '(m, train_scores) := train_on_loader e m in
  let score_dict := train_scores ∪ score_dict in
  let '(m, val_scores) := val_on_loader e m in
  let score_dict := val_scores ∪ score_dict in
  let score_dict := <["epoch" := PyInt e]> score_dict in
  let score_list := score_list ++ [score_dict] in
  (m, score_list, [TorchSave (get_state_dict m); SavePkl score_list]).

Fixpoint epochs (es : list Z) (m : model) (score_list : list (gmap string pyval))
  : model * list (gmap string pyval) * list write :=
  match es with
  | [] => (m, score_list, [])
  | e :: es' =>
      let '(m, score_list, ws) := epoch e m score_list in
      let '(m, score_list, ws') := epochs es' m score_list in
      (m, score_list, ws ++ ws')
  end.

(** [trainval], from the checkpoint block on: the final model and score
    list, and every save in the order it happens. *)
Definition trainval (d : disk) (m : model) (max_epoch : Z)
  : result (model * list (gmap string pyval) * list write) :=
  '(m, score_list, s_epoch) ← resume d m;
  es ← match s_epoch with
       | PyInt z => Ok (range z max_epoch)
       | PyFloat _ => Raise TypeError
       end;
  mret (epochs es m score_list).

(** **** Vocabulary for the statements about checkpoints *)

(** The disk an interruption leaves behind when it strikes after the first
    [k] file operations of a run's saves. *)
Definition interrupted (k : nat) (ws : list write) (d : disk) : disk :=
  run_ops (take k (concat (List.map file_ops ws))) d.

(** The two files the next run reads. *)
Definition checkpoint_files (d : disk)
  : option state_dict * option (list (gmap string pyval)) :=
  (model_pth d, score_list_pkl d).

(** The epoch numbers a score list records. *)
Definition recorded_epochs (score_list : list (gmap string pyval)) : list (option pyval) :=
  List.map (fun s => s !! "epoch") score_list.

(** Saving epoch [e] is atomic when every interruption leaves the next run
    either the two files as they were or the two files of epoch [e]. *)
Definition saves_atomically (e : Z) (m : model)
    (score_list : list (gmap string pyval)) (d : disk) : Prop :=
  forall k, let ws := (epoch e m score_list).2 in
            checkpoint_files (interrupted k ws d) = checkpoint_files d \/
            checkpoint_files (interrupted k ws d) = checkpoint_files (run_writes ws d).

End Driver.

(** *** A model that counts the epochs it was trained for *)

Definition counting : Experiment :=
  {| model := nat;
     state_dict := nat;
     train_on_loader := fun _ m => (S m, {["train_loss" := PyFloat 0]});
     val_on_loader := fun _ m => (m, {["val_loss" := PyFloat 0]});
     get_state_dict := fun m => m;
     load_state_dict := fun _ sd => sd |}.

Definition empty_disk : @disk counting :=
  @Build_disk counting None None None None.

(** Epoch 0 from scratch, and the disk once it is saved. *)
Definition epoch0 : nat * list (gmap string pyval) * list (@write counting) :=
  epoch (X := counting) 0 0%nat [].
Definition history0 : list (gmap string pyval) := epoch0.1.2.
Definition disk0 : @disk counting := run_writes epoch0.2 empty_disk.

(** The saves of epoch 1 after epoch 0, and the disks an interruption
    leaves after 2, 3 and 5 of their file operations: the model file
    removed, the model file renamed, the score list removed. *)
Definition saves1 : list (@write counting) :=
  (epoch (X := counting) 1 1%nat history0).2.
Definition headless_disk : @disk counting := interrupted 2 saves1 disk0.
Definition torn_disk : @disk counting := interrupted 3 saves1 disk0.
Definition amnesic_disk : @disk counting := interrupted 5 saves1 disk0.

End Trainval.

(** * Theorems *)

(** ** The backbone factory *)

Module BackbonesFacts.

Import Backbones.

(** C5.  The four stage strides of Conv4 are a function of
    [ratio = min(height, width) // 4] alone: [2,2,2,2] when [ratio >= 16],
    [1,2,2,2] when [8 <= ratio < 16], [1,2,2,1] when [4 <= ratio < 8],
    [1,2,1,1] when [2 <= ratio < 4] and [1,1,1,1] below that. *)
Theorem conv4_strides_table (height width : Z) :
  let ratio := Z.min height width / 4 in
  (16 <= ratio -> conv4_strides height width = [2; 2; 2; 2]) /\
  (8 <= ratio < 16 -> conv4_strides height width = [1; 2; 2; 2]) /\
  (4 <= ratio < 8 -> conv4_strides height width = [1; 2; 2; 1]) /\
  (2 <= ratio < 4 -> conv4_strides height width = [1; 2; 1; 1]) /\
  (ratio < 2 -> conv4_strides height width = [1; 1; 1; 1]).
Proof.
  intros ratio. unfold conv4_strides.
  rewrite (Z.min_comm width height). fold ratio.
  repeat split; intros H;
    repeat (match goal with
            | |- context [?a <=? ?b] => destruct (Z.leb_spec a b)
            end; try lia; try reflexivity).
Qed.


Section Factory.

Context `{N : Networks}.

Lemma get_backbone_rgb_arch (a : rgb_arch) (e : exp_dict) (pre : bool) :
  lower (name (backbone e)) = arch_name a ->
  imagenet_pretraining (backbone e) = Some pre ->
  exists base,
    get_backbone (with_channels 3 e) = Ok base /\
    get_backbone e =
      (if channels (dataset e) =? 3 then Ok base
       else if pre then Raise AssertionError
       else Ok (set_at (stem_path a) (fresh_stem a (channels (dataset e))) base)) /\
    first_conv base = first_conv (torchvision_model a pre) /\
    get_at (stem_path a) base = first_conv base /\
    take (body_size a) (leaves base)
    = take (body_size a) (leaves (torchvision_model a pre)) /\
    forall ch,
      first_conv (set_at (stem_path a) (fresh_stem a ch) base)
      = Some (fresh_stem a ch) /\
      leaves (set_at (stem_path a) (fresh_stem a ch) base)
      = fresh_stem a ch :: tl (leaves base).
Proof.
  intros Hname Hpre.
  unfold get_backbone. cbn [with_channels dataset channels backbone num_classes].
  cbv zeta.
  rewrite Hname, Hpre.
  destruct (Z.eqb_spec (channels (dataset e)) 3) as [Heq|Hne];
    destruct a, pre.
  all: eexists; split; [vm_compute; reflexivity|].
  all: repeat split; try intros ch; vm_compute; reflexivity.
Qed.

(** C7.  For resnet18, resnet50 and vgg16: a channel count other than 3
    together with pretrained weights is refused (the [assert] fails); a
    channel count other than 3 without pretraining yields the network built
    for 3 channels with its first layer, the first convolution, replaced by
    a freshly initialised convolution taking the requested channels, and
    every other layer as it is; with 3 channels the first convolution and
    all the layers before the classification head are torchvision's own. *)
Theorem get_backbone_channel_policy (a : rgb_arch) (e : exp_dict) (pre : bool) :
  lower (name (backbone e)) = arch_name a ->
  imagenet_pretraining (backbone e) = Some pre ->
  let ch := channels (dataset e) in
  (ch <> 3 -> pre = true -> get_backbone e = Raise AssertionError) /\
  (ch <> 3 -> pre = false ->
     exists base net stem,
       get_backbone (with_channels 3 e) = Ok base /\
       get_backbone e = Ok net /\
       net = set_at (stem_path a) stem base /\
       get_at (stem_path a) base = first_conv base /\
       first_conv net = Some stem /\
       leaves net = stem :: tl (leaves base) /\
       input_channels stem = Some ch /\
       initialisation stem = Some Fresh) /\
  (ch = 3 ->
     exists net,
       get_backbone e = Ok net /\
       first_conv net = first_conv (torchvision_model a pre) /\
       take (body_size a) (leaves net)
       = take (body_size a) (leaves (torchvision_model a pre)) /\
       (first_conv net ≫= input_channels) = Some 3 /\
       (first_conv net ≫= initialisation) = Some (weights_of pre)).
Proof.
  intros Hname Hpre ch.
  destruct (get_backbone_rgb_arch a e pre Hname Hpre)
    as (base & Hbase & Hrun & Htv & Hat & Hbody & Hset).
  fold ch in Hrun.
  split; [|split].
  - intros Hne ->. rewrite Hrun.
    destruct (Z.eqb_spec ch 3); [contradiction | reflexivity].
  - intros Hne ->.
    exists base, (set_at (stem_path a) (fresh_stem a ch) base), (fresh_stem a ch).
    rewrite Hrun.
    destruct (Z.eqb_spec ch 3); [contradiction |].
    destruct (Hset ch) as [Hfirst Hleaves].
    repeat split; try assumption.
    + destruct a; reflexivity.
    + destruct a; reflexivity.
  - intros Hch. exists base. rewrite Hrun, Hch, Z.eqb_refl.
    repeat split; try assumption.
    + rewrite Htv. destruct a, pre; reflexivity.
    + rewrite Htv. destruct a, pre; reflexivity.
Qed.

End Factory.

Lemma conv4_strides_table_witness :
  conv4_strides 64 100 = [2; 2; 2; 2] /\
  conv4_strides 32 32 = [1; 2; 2; 2] /\
  conv4_strides 20 16 = [1; 2; 2; 1] /\
  conv4_strides 8 11 = [1; 2; 1; 1] /\
  conv4_strides 7 7 = [1; 1; 1; 1].
Proof.
  split; [|split; [|split; [|split]]].
  - apply (proj1 (conv4_strides_table 64 100)). cbv. discriminate.
  - apply (proj1 (proj2 (conv4_strides_table 32 32))). cbv. split; congruence.
  - apply (proj1 (proj2 (proj2 (conv4_strides_table 20 16)))).
    cbv. split; congruence.
  - apply (proj1 (proj2 (proj2 (proj2 (conv4_strides_table 8 11))))).
    cbv. split; congruence.
  - apply (proj2 (proj2 (proj2 (proj2 (conv4_strides_table 7 7))))).
    cbv. reflexivity.
Defined.

Lemma get_backbone_channel_policy_witness :
  lower (name (backbone grey_resnet18)) = arch_name Resnet18 /\
  imagenet_pretraining (backbone grey_resnet18) = Some false /\
  exists base net stem,
    get_backbone (N := no_networks) (with_channels 3 grey_resnet18) = Ok base /\
    get_backbone (N := no_networks) grey_resnet18 = Ok net /\
    net = set_at (stem_path Resnet18) stem base /\
    get_at (stem_path Resnet18) base = first_conv base /\
    first_conv net = Some stem /\
    leaves net = stem :: tl (leaves base) /\
    input_channels stem = Some 1 /\
    initialisation stem = Some Fresh.
Proof.
  split; [reflexivity|]. split; [reflexivity|].
  apply (proj1 (proj2 (get_backbone_channel_policy (N := no_networks)
                         Resnet18 grey_resnet18 false eq_refl eq_refl))).
  - discriminate.
  - reflexivity.
Defined.

(** *** Names and keys *)

(** X1.  A name that is none of the seven the factory knows (after
    lower-casing) is refused with [ValueError], whatever else the
    configuration holds. *)
Theorem get_backbone_unknown_name `{N : Networks} (e : exp_dict) :
  lower (name (backbone e)) ∉ known_backbones ->
  get_backbone e = Raise ValueError.
Proof.
  intros Hname. unfold get_backbone. cbv zeta.
  unfold known_backbones in Hname.
  repeat match goal with
         | |- context [String.eqb ?a ?b] =>
             destruct (String.eqb_spec a b) as [He|_];
             [exfalso; apply Hname; rewrite He; set_solver|]
         end.
  reflexivity.
Qed.

Lemma get_backbone_unknown_name_witness :
  get_backbone (N := no_networks)
    {| num_classes := 10;
       backbone := {| name := "ResNet34"; imagenet_pretraining := Some false;
                      gap := None; hidden_size := None; depth := None;
                      width := None |};
       dataset := {| channels := 3; height := 32; ds_width := 32 |} |}
  = Raise ValueError.
Proof.
  apply (get_backbone_unknown_name (N := no_networks)).
  cbn. unfold known_backbones. intros H.
  repeat (apply elem_of_cons in H as [H|H]; [discriminate H|]).
  by apply elem_of_nil in H.
Defined.

(** X2.  The options an architecture reads with [d[key]] must be there:
    resnet18, resnet50 and vgg16 without [imagenet_pretraining], conv4
    without [gap], mlp without [hidden_size] or without [depth] stop with
    the [KeyError] of that key, even when the channel count is 3. *)
Theorem get_backbone_missing_key `{N : Networks} (e : exp_dict) (key : string) :
  lower (name (backbone e)) ∈ ["resnet18"; "resnet50"; "vgg16"] /\
    imagenet_pretraining (backbone e) = None /\ key = "imagenet_pretraining" \/
  lower (name (backbone e)) = "conv4" /\
    gap (backbone e) = None /\ key = "gap" \/
  lower (name (backbone e)) = "mlp" /\
    hidden_size (backbone e) = None /\ key = "hidden_size" \/
  lower (name (backbone e)) = "mlp" /\
    is_Some (hidden_size (backbone e)) /\ depth (backbone e) = None /\
    key = "depth" ->
  get_backbone e = Raise (KeyError key).
Proof.
  unfold get_backbone. cbv zeta.
  intros [(Hn & Hk & ->)|[(Hn & Hk & ->)|[(Hn & Hk & ->)|(Hn & [h Hh] & Hk & ->)]]].
  - repeat (apply elem_of_cons in Hn as [Hn|Hn];
            [rewrite Hn, Hk; reflexivity|]).
    by apply elem_of_nil in Hn.
  - rewrite Hn, Hk. reflexivity.
  - rewrite Hn, Hk. reflexivity.
  - rewrite Hn, Hh, Hk. reflexivity.
Qed.

Lemma get_backbone_missing_key_witness :
  get_backbone (N := no_networks)
    {| num_classes := 10;
       backbone := {| name := "VGG16"; imagenet_pretraining := None;
                      gap := None; hidden_size := None; depth := None;
                      width := None |};
       dataset := {| channels := 3; height := 32; ds_width := 32 |} |}
  = Raise (KeyError "imagenet_pretraining") /\
  get_backbone (N := no_networks)
    {| num_classes := 10;
       backbone := {| name := "mlp"; imagenet_pretraining := None;
                      gap := None; hidden_size := Some 256; depth := None;
                      width := None |};
       dataset := {| channels := 1; height := 32; ds_width := 32 |} |}
  = Raise (KeyError "depth").
Proof.
  split.
  - apply (get_backbone_missing_key (N := no_networks)).
    left. cbn. split; [set_solver | done].
  - apply (get_backbone_missing_key (N := no_networks)).
    do 3 right. cbn. repeat split; eauto.
Defined.

(** *** Children by name *)

Lemma get_item_set_item_eq (key : string) (m : module) (d : list (string * module)) :
  get_item key (set_item key m d) = Some m.
Proof.
  induction d as [|[k x] d IH]; cbn.
  - by rewrite String.eqb_refl.
  - destruct (String.eqb k key) eqn:Hk; cbn; by rewrite Hk.
Qed.

Lemma get_item_set_item_ne (key key' : string) (m : module)
    (d : list (string * module)) :
  key' <> key -> get_item key' (set_item key m d) = get_item key' d.
Proof.
  intros Hne. induction d as [|[k x] d IH]; cbn.
  - apply String.eqb_neq in Hne. rewrite String.eqb_sym. by rewrite Hne.
  - destruct (String.eqb_spec k key) as [->|Hk]; cbn.
    + apply String.eqb_neq in Hne. rewrite String.eqb_sym. by rewrite Hne.
    + by rewrite IH.
Qed.

Lemma set_item_keys (key : string) (m : module) (d : list (string * module)) :
  is_Some (get_item key d) ->
  List.map fst (set_item key m d) = List.map fst d.
Proof.
  induction d as [|[k x] d IH]; cbn.
  - by intros [? ?].
  - destruct (String.eqb k key); cbn; [done|]. intros H. by rewrite IH.
Qed.

(** X3.  The wide residual network is built with depth 28 and width 10
    when the configuration names neither, and its channel handling has no
    pretraining check: for a channel count other than 3 the child [conv0]
    becomes a fresh 3x3 convolution of that many input channels, whatever
    [imagenet_pretraining] says; every other child, and for 3 channels
    [conv0] too, is left as [WideResNet] built it. *)
Theorem get_backbone_wrn `{N : Networks} (e : exp_dict) (cls : string)
    (mods : list (string * module)) :
  lower (name (backbone e)) = "wrn" ->
  WideResNet (default 28 (depth (backbone e))) (default 10 (width (backbone e)))
             (num_classes e) = Net cls mods ->
  exists mods',
    get_backbone e = Ok (Net cls mods') /\
    (channels (dataset e) = 3 -> mods' = mods) /\
    (channels (dataset e) <> 3 ->
     get_item "conv0" mods'
     = Some (Conv2d (channels (dataset e)) 16 (3, 3) (1, 1) (1, 1) false Fresh)) /\
    (forall key, key <> "conv0" -> get_item key mods' = get_item key mods) /\
    (is_Some (get_item "conv0" mods) -> List.map fst mods' = List.map fst mods).
Proof.
  intros Hn Hnet. unfold get_backbone. cbv zeta. rewrite Hn. cbn -[Z.eqb].
  rewrite Hnet.
  destruct (Z.eqb_spec (channels (dataset e)) 3) as [Hc|Hc]; cbn.
  - exists mods. repeat split; try done.
  - eexists. split; [reflexivity|]. repeat split.
    + done.
    + intros _. apply get_item_set_item_eq.
    + intros key Hk. by apply get_item_set_item_ne.
    + apply set_item_keys.
Qed.

Lemma get_backbone_wrn_witness :
  exists mods',
    get_backbone (N := toy_networks) grey_wrn = Ok (Net "WideResNet" mods') /\
    get_item "conv0" mods' = Some (Conv2d 1 16 (3, 3) (1, 1) (1, 1) false Fresh) /\
    get_item "fc" mods' = Some (Linear 640 5 Fresh) /\
    List.map fst mods' = ["conv0"; "block1"; "fc"].
Proof.
  destruct (get_backbone_wrn (N := toy_networks) grey_wrn "WideResNet"
              _ eq_refl eq_refl) as (mods' & Hrun & _ & Hconv & Hrest & Hkeys).
  exists mods'. split; [exact Hrun|]. split; [|split].
  - apply Hconv. discriminate.
  - rewrite Hrest by discriminate. reflexivity.
  - rewrite Hkeys by (eexists; reflexivity). reflexivity.
Defined.

(** *** The last layer *)

Lemma leaves_Net_cons (cls key : string) (x : module) (d : list (string * module)) :
  leaves (Net cls ((key, x) :: d)) = leaves x ++ leaves (Net cls d).
Proof. reflexivity. Qed.

Lemma leaves_Net_snoc (cls key : string) (x : module) (d : list (string * module)) :
  leaves (Net cls (d ++ [(key, x)])) = leaves (Net cls d) ++ leaves x.
Proof.
  induction d as [|[k y] d IH].
  - cbn. by rewrite app_nil_r.
  - rewrite <- app_comm_cons, !leaves_Net_cons, IH. by rewrite app_assoc.
Qed.

(** X4.  Whatever the five architectures defined with torchvision or in
    this file return, its last layer is a freshly initialised linear layer
    with [num_classes] outputs. *)
Theorem get_backbone_output_size `{N : Networks} (e : exp_dict) (net : module) :
  lower (name (backbone e)) ∈ ["resnet18"; "resnet50"; "vgg16"; "conv4"; "mlp"] ->
  get_backbone e = Ok net ->
  exists fin, last (leaves net) = Some (Linear fin (num_classes e) Fresh).
Proof.
  intros Hn. unfold get_backbone. cbv zeta.
  repeat (apply elem_of_cons in Hn as [Hn|Hn]); [..|by apply elem_of_nil in Hn];
    rewrite Hn; cbn -[Z.eqb Conv4 MLP].
  - destruct (imagenet_pretraining (backbone e)) as [pre|]; [|done]. cbn -[Z.eqb].
    destruct (Z.eqb_spec (channels (dataset e)) 3); destruct pre; cbn;
      intros [= <-]; eexists; reflexivity.
  - destruct (imagenet_pretraining (backbone e)) as [pre|]; [|done]. cbn -[Z.eqb].
    destruct (Z.eqb_spec (channels (dataset e)) 3); destruct pre; cbn;
      intros [= <-]; eexists; reflexivity.
  - destruct (imagenet_pretraining (backbone e)) as [pre|]; [|done]. cbn -[Z.eqb].
    destruct (Z.eqb_spec (channels (dataset e)) 3); destruct pre;
      try discriminate; intros [= <-]; eexists; vm_compute; reflexivity.
  - destruct (gap (backbone e)) as [g|]; [|done]. cbn -[Conv4].
    intros [= <-]. unfold Conv4. cbv zeta. rewrite leaves_Net_snoc.
    destruct g; eexists; apply last_snoc.
  - destruct (hidden_size (backbone e)) as [hs|]; [|done]. cbn -[MLP].
    destruct (depth (backbone e)) as [dp|]; [|done]. cbn -[MLP].
    intros [= <-]. unfold MLP. cbv zeta. rewrite leaves_Net_snoc.
    eexists. apply last_snoc.
Qed.

Lemma get_backbone_output_size_witness :
  exists net fin,
    get_backbone (N := no_networks) grey_resnet18 = Ok net /\
    last (leaves net) = Some (Linear fin 10 Fresh).
Proof.
  destruct (get_backbone (N := no_networks) grey_resnet18) as [net|] eqn:Hrun;
    [|discriminate Hrun].
  destruct (get_backbone_output_size (N := no_networks) grey_resnet18 net)
    as [fin Hfin]; [set_solver | exact Hrun |].
  exists net, fin. split; [reflexivity | exact Hfin].
Defined.

(** *** What Conv4 and MLP make of an input shape *)

Lemma bind_Ok {A B} (a : A) (k : A -> result B) : Ok a ≫= k = k a.
Proof. reflexivity. Qed.

Lemma bind_Raise {A B} (e : exn) (k : A -> result B) : Raise e ≫= k = Raise e.
Proof. reflexivity. Qed.

Lemma conv4_strides_cases (in_h in_w : Z) :
  let ratio := Z.min in_w in_h / 4 in
  16 <= ratio /\ conv4_strides in_h in_w = [2; 2; 2; 2] \/
  8 <= ratio < 16 /\ conv4_strides in_h in_w = [1; 2; 2; 2] \/
  4 <= ratio < 8 /\ conv4_strides in_h in_w = [1; 2; 2; 1] \/
  2 <= ratio < 4 /\ conv4_strides in_h in_w = [1; 2; 1; 1] \/
  ratio < 2 /\ conv4_strides in_h in_w = [1; 1; 1; 1].
Proof.
  intros ratio. unfold conv4_strides. fold ratio.
  repeat (match goal with
          | |- context [?a <=? ?b] => destruct (Z.leb_spec a b)
          end); intuition lia.
Qed.

Lemma conv3_shape (cin cout s n h w : Z) (b : bool) (i : weights) :
  1 <= s -> 1 <= h -> 1 <= w ->
  conv2d_shape (Conv2d cin cout (3, 3) (s, s) (1, 1) b i) [n; cin; h; w]
  = Ok [n; cout; stage_side s h; stage_side s w] /\
  1 <= stage_side s h /\ 1 <= stage_side s w.
Proof.
  intros Hs Hh Hw. unfold conv2d_shape, stage_side.
  rewrite Z.eqb_refl. cbn [negb].
  destruct (Z.ltb_spec (h + 2 * 1) 3); [lia|].
  destruct (Z.ltb_spec (w + 2 * 1) 3); [lia|].
  cbn [orb]. split; [reflexivity|].
  split; apply Z.le_sub_le_add_r; apply Z.div_pos; lia.
Qed.

Lemma stage_side_one (s : Z) : 1 <= s -> stage_side s 1 = 1.
Proof.
  intros Hs. unfold stage_side. change (1 + 2 * 1 - 3) with 0.
  by rewrite Z.div_0_l by lia.
Qed.

Lemma single_value (n a b : Z) :
  1 <= n -> 1 <= a -> 1 <= b -> n * a * b = 1 -> n = 1 /\ a = 1 /\ b = 1.
Proof. intros Hn Ha Hb H. nia. Qed.

(** The feature map the four stages hand to the output layer, unless
    batch norm, in training mode, meets a single value per channel. *)
Lemma conv4_stack_shape (training : bool) (in_h in_w chans output_size n h w : Z)
    (gap : bool) :
  1 <= n -> 1 <= h -> 1 <= w ->
  conv4_stack training (Conv4 in_h in_w chans output_size gap) (List.seq 0 4)
              [n; chans; h; w]
  = (if training && (n * final_side in_h in_w h * final_side in_h in_w w =? 1)
     then Raise ValueError
     else Ok [n; 256; final_side in_h in_w h; final_side in_h in_w w]) /\
  1 <= final_side in_h in_w h /\ 1 <= final_side in_h in_w w.
Proof.
  intros Hn Hh Hw. unfold Conv4, final_side. cbv zeta.
  assert (Hs : exists s0 s1 s2 s3,
             conv4_strides in_h in_w = [s0; s1; s2; s3] /\
             1 <= s0 /\ 1 <= s1 /\ 1 <= s2 /\ 1 <= s3).
  { destruct (conv4_strides_cases in_h in_w)
      as [[_ ->]|[[_ ->]|[[_ ->]|[[_ ->]|[_ ->]]]]];
      eexists _, _, _, _; (split; [reflexivity | lia]). }
  destruct Hs as (s0 & s1 & s2 & s3 & -> & H0 & H1 & H2 & H3).
  cbn [List.seq conv4_stack fold_left].
  destruct (conv3_shape chans 32 s0 n h w false Fresh H0 Hh Hw) as (E0 & Hh0 & Hw0).
  destruct (conv3_shape 32 64 s1 n _ _ false Fresh H1 Hh0 Hw0) as (E1 & Hh1 & Hw1).
  destruct (conv3_shape 64 128 s2 n _ _ false Fresh H2 Hh1 Hw1) as (E2 & Hh2 & Hw2).
  destruct (conv3_shape 128 256 s3 n _ _ false Fresh H3 Hh2 Hw2) as (E3 & Hh3 & Hw3).
  split; [|split; assumption].
  change (getattr ("conv" +:+ pretty 0%nat) _)
    with (Ok (A := module) (Conv2d chans 32 (3, 3) (s0, s0) (1, 1) false Fresh)).
  change (getattr ("conv" +:+ pretty 1%nat) _)
    with (Ok (A := module) (Conv2d 32 64 (3, 3) (s1, s1) (1, 1) false Fresh)).
  change (getattr ("conv" +:+ pretty 2%nat) _)
    with (Ok (A := module) (Conv2d 64 128 (3, 3) (s2, s2) (1, 1) false Fresh)).
  change (getattr ("conv" +:+ pretty 3%nat) _)
    with (Ok (A := module) (Conv2d 128 256 (3, 3) (s3, s3) (1, 1) false Fresh)).
  change (getattr ("bn" +:+ pretty 0%nat) _)
    with (Ok (A := module) (Layer "BatchNorm2d" Fresh)).
  change (getattr ("bn" +:+ pretty 1%nat) _)
    with (Ok (A := module) (Layer "BatchNorm2d" Fresh)).
  change (getattr ("bn" +:+ pretty 2%nat) _)
    with (Ok (A := module) (Layer "BatchNorm2d" Fresh)).
  change (getattr ("bn" +:+ pretty 3%nat) _)
    with (Ok (A := module) (Layer "BatchNorm2d" Fresh)).
  destruct training; cycle 1.
  { rewrite !bind_Ok, E0, bind_Ok. cbn beta. cbn [batch_norm_shape andb].
    rewrite !bind_Ok, E1, bind_Ok. cbn beta. cbn [batch_norm_shape andb].
    rewrite !bind_Ok, E2, bind_Ok. cbn beta. cbn [batch_norm_shape andb].
    rewrite !bind_Ok, E3, bind_Ok. reflexivity. }
  cbn [andb].
  assert (Hone : forall a b, 1 <= a -> 1 <= b -> (n * a * b =? 1) = true ->
                             n = 1 /\ a = 1 /\ b = 1).
  { intros a b Ha Hb Hab. apply Z.eqb_eq in Hab. by apply single_value. }
  rewrite !bind_Ok, E0, bind_Ok. cbn beta. cbn [batch_norm_shape andb].
  destruct (n * stage_side s0 h * stage_side s0 w =? 1) eqn:C0.
  { destruct (Hone _ _ Hh0 Hw0 C0) as (-> & -> & ->).
    rewrite !stage_side_one by done. reflexivity. }
  rewrite !bind_Ok, E1, bind_Ok. cbn beta. cbn [batch_norm_shape andb].
  destruct (n * stage_side s1 (stage_side s0 h) * stage_side s1 (stage_side s0 w) =? 1)
    eqn:C1.
  { destruct (Hone _ _ Hh1 Hw1 C1) as (-> & -> & ->).
    rewrite !stage_side_one by done. reflexivity. }
  rewrite !bind_Ok, E2, bind_Ok. cbn beta. cbn [batch_norm_shape andb].
  destruct (n * stage_side s2 (stage_side s1 (stage_side s0 h))
            * stage_side s2 (stage_side s1 (stage_side s0 w)) =? 1) eqn:C2.
  { destruct (Hone _ _ Hh2 Hw2 C2) as (-> & -> & ->).
    rewrite !stage_side_one by done. reflexivity. }
  rewrite !bind_Ok, E3, bind_Ok. cbn beta. cbn [batch_norm_shape andb].
  match goal with |- context [if ?c then _ else _] => destruct c end;
    reflexivity.
Qed.

Lemma conv4_getattr_out (in_h in_w chans output_size : Z) (gap : bool) :
  getattr "out" (Conv4 in_h in_w chans output_size gap)
  = Ok (if gap then Linear 256 output_size Fresh
        else Linear (256 * 4 * 4) output_size Fresh).
Proof.
  unfold Conv4. cbv zeta.
  destruct (conv4_strides_cases in_h in_w)
    as [[_ ->]|[[_ ->]|[[_ ->]|[[_ ->]|[_ ->]]]]]; reflexivity.
Qed.

(** X5.  With global pooling the shallow network takes any resolution,
    whatever height and width it was built for: in evaluation mode every
    batch of at least one image of its channel count, with at least one
    pixel each way, comes out with one row per image and [output_size]
    columns.  In training mode the same holds except for a single image
    that the four stages shrink to a single pixel: there batch norm
    raises a [ValueError]. *)
Theorem conv4_gap_any_resolution (training : bool)
    (in_h in_w chans output_size n h w : Z) :
  1 <= chans -> 1 <= output_size ->
  1 <= n -> 1 <= h -> 1 <= w ->
  conv4_call training in_h in_w chans output_size true [n; chans; h; w]
  = if training && (n =? 1) && (final_side in_h in_w h =? 1)
       && (final_side in_h in_w w =? 1)
    then Raise ValueError
    else Ok [n; output_size].
Proof.
  intros _ _ Hn Hh Hw. unfold conv4_call, conv4_forward.
  destruct (conv4_stack_shape training in_h in_w chans output_size n h w true
              Hn Hh Hw) as (-> & Hfh & Hfw).
  assert (Hc : (n * final_side in_h in_w h * final_side in_h in_w w =? 1)
               = (n =? 1) && ((final_side in_h in_w h =? 1)
                              && (final_side in_h in_w w =? 1))).
  { destruct (Z.eqb_spec (n * final_side in_h in_w h * final_side in_h in_w w) 1)
      as [H1|H1].
    - destruct (single_value _ _ _ Hn Hfh Hfw H1) as (-> & -> & ->). reflexivity.
    - destruct (Z.eqb_spec n 1) as [->|]; [|done].
      destruct (Z.eqb_spec (final_side in_h in_w h) 1) as [E|]; [|done].
      destruct (Z.eqb_spec (final_side in_h in_w w) 1) as [E'|]; [|done].
      rewrite E, E' in H1. done. }
  rewrite <- !andb_assoc, <- Hc.
  destruct (training && _); [reflexivity|].
  rewrite bind_Ok, conv4_getattr_out, bind_Ok. reflexivity.
Qed.

Lemma conv4_gap_any_resolution_witness :
  conv4_call true 32 32 3 10 true [8; 3; 100; 21] = Ok [8; 10] /\
  conv4_call true 32 32 3 10 true [1; 3; 1; 1] = Raise ValueError /\
  conv4_call false 32 32 3 10 true [1; 3; 1; 1] = Ok [1; 10].
Proof.
  split; [|split].
  - apply (conv4_gap_any_resolution true 32 32 3 10 8 100 21); lia.
  - apply (conv4_gap_any_resolution true 32 32 3 10 1 1 1); lia.
  - apply (conv4_gap_any_resolution false 32 32 3 10 1 1 1); lia.
Defined.

Lemma conv4_flat_shape (training : bool) (in_h in_w chans output_size n h w : Z) :
  1 <= n -> 1 <= h -> 1 <= w ->
  conv4_call training in_h in_w chans output_size false [n; chans; h; w]
  = if training && (n * final_side in_h in_w h * final_side in_h in_w w =? 1)
    then Raise ValueError
    else if final_side in_h in_w h * final_side in_h in_w w =? 16
         then Ok [n; output_size]
         else Raise (RuntimeError size_mismatch_msg).
Proof.
  intros Hn Hh Hw. unfold conv4_call, conv4_forward.
  destruct (conv4_stack_shape training in_h in_w chans output_size n h w false
              Hn Hh Hw) as (-> & _ & _).
  destruct (training && _); [reflexivity|].
  rewrite bind_Ok, conv4_getattr_out, bind_Ok.
  unfold flat_shape. destruct (Z.eqb_spec n 0) as [|_]; [lia|].
  rewrite bind_Ok. unfold linear_shape. cbn [last removelast fold_right app].
  set (a := final_side in_h in_w h). set (b := final_side in_h in_w w).
  destruct (Z.eqb_spec (256 * (a * (b * 1))) (256 * 4 * 4)),
           (Z.eqb_spec (a * b) 16); try reflexivity; lia.
Qed.

Lemma final_side_square (side : Z) :
  1 <= side ->
  (final_side side side side = 4 <-> side ∈ [4; 8; 16; 32; 64]).
Proof.
  intros Hside. unfold final_side.
  assert (Hin : side ∈ [4; 8; 16; 32; 64]
                <-> side = 4 \/ side = 8 \/ side = 16 \/ side = 32 \/ side = 64).
  { rewrite !elem_of_cons, elem_of_nil. tauto. }
  rewrite Hin. clear Hin.
  pose proof (conv4_strides_cases side side) as Hc. cbv zeta in Hc.
  rewrite Z.min_id in Hc.
  destruct Hc as [[Hr ->]|[[Hr ->]|[[Hr ->]|[[Hr ->]|[Hr ->]]]]];
    cbn [fold_left]; unfold stage_side; Z.div_mod_to_equations; lia.
Qed.

Lemma final_side_single (side : Z) :
  1 <= side -> (final_side side side side = 1 <-> side = 1).
Proof.
  intros Hside. unfold final_side.
  pose proof (conv4_strides_cases side side) as Hc. cbv zeta in Hc.
  rewrite Z.min_id in Hc.
  destruct Hc as [[Hr ->]|[[Hr ->]|[[Hr ->]|[[Hr ->]|[Hr ->]]]]];
    cbn [fold_left]; unfold stage_side; Z.div_mod_to_equations; lia.
Qed.

(** X6.  Without global pooling the output layer is built for a 4 by 4
    feature map, so on square inputs of the size it was built for the
    shallow network works for the sides 4, 8, 16, 32 and 64 and for no
    other, in either mode.  Every other side ends in a size mismatch at
    the output layer, except that in training mode a single image of side
    1 is already refused by the first batch norm. *)
Theorem conv4_flat_square_sides (training : bool) (side chans output_size n : Z) :
  1 <= chans -> 1 <= output_size ->
  1 <= side -> 1 <= n ->
  (conv4_call training side side chans output_size false [n; chans; side; side]
   = Ok [n; output_size]
   <-> side ∈ [4; 8; 16; 32; 64]) /\
  (side ∉ [4; 8; 16; 32; 64] ->
   conv4_call training side side chans output_size false [n; chans; side; side]
   = if training && (n =? 1) && (side =? 1) then Raise ValueError
     else Raise (RuntimeError size_mismatch_msg)).
Proof.
  intros _ _ Hside Hn.
  rewrite (conv4_flat_shape training side side chans output_size n side side
             Hn Hside Hside).
  rewrite <- (final_side_square side Hside).
  destruct (conv4_stack_shape training side side chans output_size n side side
              false Hn Hside Hside) as (_ & Hpos & _).
  pose proof (final_side_single side Hside) as Hsingle.
  set (fs := final_side side side side) in *.
  assert (Hsq : fs * fs = 16 <-> fs = 4).
  { split; [nia | intros ->; reflexivity]. }
  assert (Hbn : (n * fs * fs =? 1) = (n =? 1) && (side =? 1)).
  { destruct (Z.eqb_spec (n * fs * fs) 1) as [H1|H1].
    - destruct (single_value _ _ _ Hn Hpos Hpos H1) as (-> & Hfs & _).
      apply Hsingle in Hfs. subst side. reflexivity.
    - destruct (Z.eqb_spec n 1) as [->|]; [|done].
      destruct (Z.eqb_spec side 1) as [E|]; [|done].
      apply Hsingle in E. rewrite E in H1. done. }
  rewrite <- andb_assoc, <- Hbn.
  destruct (training && (n * fs * fs =? 1)) eqn:Hcheck.
  - assert (Hfs : fs = 1).
    { apply andb_true_iff in Hcheck as [_ H1]. apply Z.eqb_eq in H1.
      by destruct (single_value _ _ _ Hn Hpos Hpos H1) as (_ & ? & _). }
    split; [|reflexivity]. split; [discriminate|]. intros H4. lia.
  - destruct (Z.eqb_spec (fs * fs) 16) as [He|He]; split.
    + split; [intros _; by apply Hsq | reflexivity].
    + intros Hne. exfalso. by apply Hne, Hsq.
    + split; [discriminate | intros H4; exfalso; by apply He, Hsq].
    + reflexivity.
Qed.

Lemma conv4_flat_square_sides_witness :
  conv4_call true 32 32 3 10 false [8; 3; 32; 32] = Ok [8; 10] /\
  conv4_call true 28 28 1 10 false [8; 1; 28; 28]
  = Raise (RuntimeError size_mismatch_msg) /\
  conv4_call true 1 1 1 10 false [1; 1; 1; 1] = Raise ValueError.
Proof.
  assert (Hout : forall side : Z, side = 28 \/ side = 1 -> side ∉ [4; 8; 16; 32; 64]).
  { intros side Hs H. rewrite !elem_of_cons, elem_of_nil in H. lia. }
  split; [|split].
  - apply (proj1 (conv4_flat_square_sides true 32 3 10 8
                    ltac:(lia) ltac:(lia) ltac:(lia) ltac:(lia))).
    rewrite !elem_of_cons. tauto.
  - apply (proj2 (conv4_flat_square_sides true 28 1 10 8
                    ltac:(lia) ltac:(lia) ltac:(lia) ltac:(lia))).
    apply Hout. by left.
  - apply (proj2 (conv4_flat_square_sides true 1 1 10 1
                    ltac:(lia) ltac:(lia) ltac:(lia) ltac:(lia))).
    apply Hout. by right.
Defined.

Lemma not_single (n a b : Z) : 2 <= a -> 1 <= b -> (n * a * b =? 1) = false.
Proof.
  intros Ha Hb. apply Z.eqb_neq. intros H.
  assert (Hab : 2 <= a * b) by nia.
  rewrite <- Z.mul_assoc in H.
  destruct (Z.le_gt_cases n 0); nia.
Qed.

(** On inputs of at least 4 by 4 of the size the network was built for,
    batch norm never meets a single value per channel. *)
Lemma conv4_stack_extent (training : bool) (h w chans output_size n : Z)
    (gap : bool) :
  4 <= h -> 4 <= w ->
  conv4_stack training (Conv4 h w chans output_size gap) (List.seq 0 4)
              [n; chans; h; w]
  = Ok [n; 256; final_side h w h; final_side h w w].
Proof.
  intros Hh Hw. unfold Conv4, final_side. cbv zeta.
  assert (Hs : exists s0 s1 s2 s3,
             conv4_strides h w = [s0; s1; s2; s3] /\
             (1 <= s0 /\ 1 <= s1 /\ 1 <= s2 /\ 1 <= s3) /\
             2 <= stage_side s0 h /\
             2 <= stage_side s1 (stage_side s0 h) /\
             2 <= stage_side s2 (stage_side s1 (stage_side s0 h)) /\
             2 <= stage_side s3 (stage_side s2 (stage_side s1 (stage_side s0 h)))).
  { pose proof (conv4_strides_cases h w) as Hc. cbv zeta in Hc.
    destruct Hc as [[Hr ->]|[[Hr ->]|[[Hr ->]|[[Hr ->]|[Hr ->]]]]];
      eexists _, _, _, _; (split; [reflexivity|]); (split; [lia|]);
      unfold stage_side; Z.div_mod_to_equations; lia. }
  destruct Hs as (s0 & s1 & s2 & s3 & -> & (H0 & H1 & H2 & H3) & G0 & G1 & G2 & G3).
  cbn [List.seq conv4_stack fold_left].
  destruct (conv3_shape chans 32 s0 n h w false Fresh H0) as (E0 & Hh0 & Hw0);
    [lia..|].
  destruct (conv3_shape 32 64 s1 n _ _ false Fresh H1 Hh0 Hw0) as (E1 & Hh1 & Hw1).
  destruct (conv3_shape 64 128 s2 n _ _ false Fresh H2 Hh1 Hw1) as (E2 & Hh2 & Hw2).
  destruct (conv3_shape 128 256 s3 n _ _ false Fresh H3 Hh2 Hw2) as (E3 & Hh3 & Hw3).
  change (getattr ("conv" +:+ pretty 0%nat) _)
    with (Ok (A := module) (Conv2d chans 32 (3, 3) (s0, s0) (1, 1) false Fresh)).
  change (getattr ("conv" +:+ pretty 1%nat) _)
    with (Ok (A := module) (Conv2d 32 64 (3, 3) (s1, s1) (1, 1) false Fresh)).
  change (getattr ("conv" +:+ pretty 2%nat) _)
    with (Ok (A := module) (Conv2d 64 128 (3, 3) (s2, s2) (1, 1) false Fresh)).
  change (getattr ("conv" +:+ pretty 3%nat) _)
    with (Ok (A := module) (Conv2d 128 256 (3, 3) (s3, s3) (1, 1) false Fresh)).
  change (getattr ("bn" +:+ pretty 0%nat) _)
    with (Ok (A := module) (Layer "BatchNorm2d" Fresh)).
  change (getattr ("bn" +:+ pretty 1%nat) _)
    with (Ok (A := module) (Layer "BatchNorm2d" Fresh)).
  change (getattr ("bn" +:+ pretty 2%nat) _)
    with (Ok (A := module) (Layer "BatchNorm2d" Fresh)).
  change (getattr ("bn" +:+ pretty 3%nat) _)
    with (Ok (A := module) (Layer "BatchNorm2d" Fresh)).
  rewrite !bind_Ok, E0, bind_Ok. cbn beta. cbn [batch_norm_shape].
  rewrite (not_single n _ _ G0 Hw0), andb_false_r.
  rewrite !bind_Ok, E1, bind_Ok. cbn beta. cbn [batch_norm_shape].
  rewrite (not_single n _ _ G1 Hw1), andb_false_r.
  rewrite !bind_Ok, E2, bind_Ok. cbn beta. cbn [batch_norm_shape].
  rewrite (not_single n _ _ G2 Hw2), andb_false_r.
  rewrite !bind_Ok, E3, bind_Ok. cbn beta. cbn [batch_norm_shape].
  rewrite (not_single n _ _ G3 Hw3), andb_false_r.
  reflexivity.
Qed.

(** X7.  The stride schedule keeps the feature map from shrinking below 4:
    for an input of the size the network was built for, with both sides at
    least 4, the four stages leave 256 channels of a map whose sides are at
    least 4, and whose smaller side is at most 8 as long as the smaller
    input side is below 128; this in training mode as in evaluation
    mode. *)
Theorem conv4_feature_map_extent (training : bool) (h w chans output_size n : Z)
    (gap : bool) :
  4 <= Z.min h w ->
  exists fh fw,
    conv4_stack training (Conv4 h w chans output_size gap) (List.seq 0 4)
                [n; chans; h; w]
    = Ok [n; 256; fh; fw] /\
    4 <= fh /\ 4 <= fw /\
    (Z.min h w < 128 -> Z.min fh fw <= 8).
Proof.
  intros Hmin.
  assert (Hsides : 4 <= final_side h w h /\ 4 <= final_side h w w /\
                   (Z.min h w < 128 ->
                    Z.min (final_side h w h) (final_side h w w) <= 8)).
  { unfold final_side.
    pose proof (conv4_strides_cases h w) as Hc. cbv zeta in Hc.
    destruct Hc as [[Hr ->]|[[Hr ->]|[[Hr ->]|[[Hr ->]|[Hr ->]]]]];
      cbn [fold_left]; unfold stage_side; Z.div_mod_to_equations; lia. }
  destruct Hsides as (Hfh & Hfw & Hsmall).
  exists (final_side h w h), (final_side h w w).
  split; [|by repeat split].
  apply (conv4_stack_extent training h w chans output_size n gap); lia.
Qed.

Lemma conv4_feature_map_extent_witness :
  exists fh fw,
    conv4_stack true (Conv4 28 40 1 10 true) (List.seq 0 4) [2; 1; 28; 40]
    = Ok [2; 256; fh; fw] /\
    4 <= fh /\ 4 <= fw /\ (Z.min 28 40 < 128 -> Z.min fh fw <= 8).
Proof. apply conv4_feature_map_extent. lia. Defined.

Lemma get_item_linears (F : nat -> module) (rest : list (string * module))
    (a k i : nat) :
  (a <= i < a + k)%nat ->
  get_item ("linear" +:+ pretty i)
           (List.map (fun j : nat => ("linear" +:+ pretty j, F j)) (List.seq a k)
            ++ rest)
  = Some (F i).
Proof.
  revert a. induction k as [|k IH]; intros a Hi; [lia|].
  cbn [List.seq List.map app get_item].
  destruct (String.eqb_spec ("linear" +:+ pretty a) ("linear" +:+ pretty i))
    as [He|Hne].
  - apply (inj _), (inj pretty) in He. by subst.
  - apply IH. destruct (decide (a = i)) as [->|]; [done | lia].
Qed.

Lemma get_item_out_linears (F : nat -> module) (out : module) (a k : nat) :
  get_item "out"
           (List.map (fun j : nat => ("linear" +:+ pretty j, F j)) (List.seq a k)
            ++ [("out", out)])
  = Some out.
Proof.
  revert a. induction k as [|k IH]; intros a; [reflexivity|].
  cbn [List.seq List.map app get_item].
  destruct (String.eqb_spec ("linear" +:+ pretty a) "out") as [He|_];
    [discriminate He | apply IH].
Qed.

Lemma linear_shape_rows (fin fout n : Z) (i : weights) :
  linear_shape (Linear fin fout i) [n; fin] = Ok [n; fout].
Proof. unfold linear_shape. cbn [last removelast app]. by rewrite Z.eqb_refl. Qed.

Lemma mlp_getattr_linear (ni no nhidden depth : Z) (i : nat) :
  (i < Z.to_nat depth)%nat ->
  getattr ("linear" +:+ pretty i) (MLP ni no nhidden depth)
  = Ok (if (i =? 0)%nat then Linear ni nhidden Fresh
        else Linear nhidden nhidden Fresh).
Proof.
  intros Hi. unfold MLP, getattr. cbv beta iota zeta.
  rewrite (get_item_linears
             (fun j => if (j =? 0)%nat then Linear ni nhidden Fresh
                       else Linear nhidden nhidden Fresh)) by lia.
  reflexivity.
Qed.

Lemma mlp_getattr_out (ni no nhidden depth : Z) :
  getattr "out" (MLP ni no nhidden depth)
  = Ok (Linear (if depth =? 0 then ni else nhidden) no Fresh).
Proof.
  unfold MLP, getattr. cbv beta iota zeta.
  rewrite (get_item_out_linears
             (fun j => if (j =? 0)%nat then Linear ni nhidden Fresh
                       else Linear nhidden nhidden Fresh)).
  reflexivity.
Qed.

Lemma mlp_stack_hidden (ni no nhidden depth n : Z) (a k : nat) :
  (1 <= a)%nat -> (a + k <= Z.to_nat depth)%nat ->
  mlp_stack (MLP ni no nhidden depth) (List.seq a k) [n; nhidden]
  = Ok [n; nhidden].
Proof.
  revert a. induction k as [|k IH]; intros a Ha Hk; [reflexivity|].
  cbn [List.seq mlp_stack].
  rewrite mlp_getattr_linear by lia. rewrite bind_Ok.
  destruct (Nat.eqb_spec a 0) as [|_]; [lia|].
  rewrite linear_shape_rows, bind_Ok. apply IH; lia.
Qed.

Lemma mlp_call_shape (ni no nhidden depth n : Z) :
  n <> 0 ->
  mlp_call ni no nhidden depth [n; ni]
  = if (0 <=? depth) || (nhidden =? ni) then Ok [n; no]
    else Raise (RuntimeError size_mismatch_msg).
Proof.
  intros Hn. unfold mlp_call, mlp_forward, flat_shape.
  destruct (Z.eqb_spec n 0) as [|_]; [done|].
  rewrite bind_Ok. cbn [fold_right]. rewrite Z.mul_1_r.
  destruct (Z.to_nat depth) as [|d] eqn:Hd.
  - cbn [List.seq mlp_stack]. rewrite bind_Ok, mlp_getattr_out, bind_Ok.
    destruct (Z.eqb_spec depth 0) as [->|Hne].
    + cbn [Z.leb orb]. apply linear_shape_rows.
    + destruct (Z.leb_spec 0 depth); [lia|]. cbn [orb].
      destruct (Z.eqb_spec nhidden ni) as [->|Hh]; [apply linear_shape_rows|].
      unfold linear_shape. cbn [last removelast app].
      destruct (Z.eqb_spec ni nhidden); [congruence | reflexivity].
  - destruct (Z.leb_spec 0 depth); [|lia]. cbn [orb].
    cbn [List.seq mlp_stack].
    rewrite mlp_getattr_linear by lia. rewrite bind_Ok.
    cbn [Nat.eqb]. rewrite linear_shape_rows, bind_Ok.
    rewrite mlp_stack_hidden by lia.
    rewrite bind_Ok, mlp_getattr_out, bind_Ok.
    destruct (Z.eqb_spec depth 0); [lia|]. apply linear_shape_rows.
Qed.

(** X8.  The dense network the factory builds for a data set accepts that
    data set's images: with positive sizes throughout, for every depth
    from 0 up (depth 0 being a single linear layer) a batch of [n] images
    of the configured channels, height and width comes out with [n] rows
    and [num_classes] columns.  With a negative depth the network is built
    all the same, but fails on every batch unless the hidden width happens
    to be the number of pixels. *)
Theorem get_backbone_mlp_forward `{N : Networks} (e : exp_dict) (hs d n : Z) :
  lower (name (backbone e)) = "mlp" ->
  hidden_size (backbone e) = Some hs ->
  depth (backbone e) = Some d ->
  1 <= hs -> 1 <= num_classes e ->
  1 <= channels (dataset e) -> 1 <= height (dataset e) ->
  1 <= ds_width (dataset e) ->
  1 <= n ->
  let x := [n; channels (dataset e); height (dataset e); ds_width (dataset e)] in
  let ni := height (dataset e) * ds_width (dataset e) * channels (dataset e) in
  exists net,
    get_backbone e = Ok net /\
    (0 <= d -> mlp_forward d net x = Ok [n; num_classes e]) /\
    (d < 0 -> hs <> ni ->
     mlp_forward d net x = Raise (RuntimeError size_mismatch_msg)).
Proof.
  intros Hname Hhs Hd _ _ _ _ _ Hn1 x ni.
  assert (Hn : n <> 0) by lia.
  exists (MLP ni (num_classes e) hs d). split.
  - unfold get_backbone. cbv zeta. rewrite Hname, Hhs, Hd. reflexivity.
  - pose proof (mlp_call_shape ni (num_classes e) hs d n Hn) as Hcall.
    unfold mlp_call, mlp_forward in Hcall.
    assert (Hflat : flat_shape x = flat_shape [n; ni]).
    { unfold x, ni, flat_shape. destruct (n =? 0); [done|].
      cbn [fold_right]. do 3 f_equal. lia. }
    unfold mlp_forward. rewrite Hflat, Hcall. split.
    + intros H0. destruct (Z.leb_spec 0 d); [reflexivity | lia].
    + intros H0 Hne. destruct (Z.leb_spec 0 d); [lia|].
      destruct (Z.eqb_spec hs ni); [done | reflexivity].
Qed.

Lemma get_backbone_mlp_forward_witness :
  exists net,
    get_backbone (N := no_networks)
      {| num_classes := 10;
         backbone := {| name := "MLP"; imagenet_pretraining := None;
                        gap := None; hidden_size := Some 256; depth := Some 3;
                        width := None |};
         dataset := {| channels := 1; height := 28; ds_width := 28 |} |}
    = Ok net /\
    mlp_forward 3 net [64; 1; 28; 28] = Ok [64; 10].
Proof.
  destruct (get_backbone_mlp_forward (N := no_networks)
              {| num_classes := 10;
                 backbone := {| name := "MLP"; imagenet_pretraining := None;
                                gap := None; hidden_size := Some 256;
                                depth := Some 3; width := None |};
                 dataset := {| channels := 1; height := 28; ds_width := 28 |} |}
              256 3 64 eq_refl eq_refl eq_refl ltac:(cbn; lia) ltac:(cbn; lia)
              ltac:(cbn; lia) ltac:(cbn; lia) ltac:(cbn; lia) ltac:(lia))
    as (net & Hrun & Hok & _).
  exists net. split; [exact Hrun|]. apply Hok. lia.
Defined.

End BackbonesFacts.

(** ** The episodic trainer *)

Module ProtoNetFacts.

Import ProtoNet.

Local Open Scope nat_scope.

Section Trainer.

Context `{T : Torch}.

(** *** Equations of the monad *)

Lemma bind_lift {A B} (r : result A) (k : A -> M B) (m : model) :
  (lift r ≫= k) m = match r with Ok a => k a m | Raise e => (Raise e, m) end.
Proof. unfold mbind, M_bind, lift. by destruct r. Qed.

Lemma bind_get {B} (k : model -> M B) (m : model) : (get ≫= k) m = k m m.
Proof. reflexivity. Qed.

Lemma bind_put {B} (m' : model) (k : unit -> M B) (m : model) :
  (put m' ≫= k) m = k tt m'.
Proof. reflexivity. Qed.

Lemma bind_set_training {B} (b : bool) (k : unit -> M B) (m : model) :
  (set_training b ≫= k) m = k tt (snd (set_training b m)).
Proof. reflexivity. Qed.

Lemma bind_run {A B} (c : M A) (k : A -> M B) (m : model) :
  (c ≫= k) m = match c m with
               | (Ok a, m') => k a m'
               | (Raise e, m') => (Raise e, m')
               end.
Proof. reflexivity. Qed.

(** *** Relative labels follow the rows of the flattened batches *)

Lemma relative_labels_unfold (C N : nat) :
  relative_labels C (S N) = arange C ++ relative_labels C N.
Proof.
  unfold relative_labels, flatten, repeat_rows, as_row. simpl.
  reflexivity.
Qed.

Lemma relative_labels_length (C N : nat) :
  List.length (relative_labels C N) = N * C.
Proof.
  induction N as [|N IH]; [reflexivity|].
  rewrite relative_labels_unfold, length_app, IH.
  unfold arange. rewrite length_seq. lia.
Qed.

Lemma relative_labels_lookup (C N s k : nat) :
  s < N -> k < C -> relative_labels C N !! (s * C + k) = Some k.
Proof.
  revert s. induction N as [|N IH]; intros s Hs Hk; [lia|].
  rewrite relative_labels_unfold.
  destruct s as [|s].
  - rewrite lookup_app_l by (unfold arange; rewrite length_seq; lia).
    unfold arange. simpl. rewrite lookup_seq_lt by lia. reflexivity.
  - rewrite lookup_app_r by (unfold arange; rewrite length_seq; lia).
    unfold arange. rewrite length_seq.
    replace (S s * C + k - C) with (s * C + k) by lia.
    apply IH; lia.
Qed.

Lemma count_occ_arange (C k : nat) :
  k < C -> count_occ Nat.eq_dec (arange C) k = 1.
Proof.
  unfold arange. intros Hk.
  assert (H : forall n lo, count_occ Nat.eq_dec (List.seq lo n) k
                           = if decide (lo <= k < lo + n) then 1 else 0).
  { induction n as [|n IH]; intros lo; simpl.
    - case_decide; [lia | reflexivity].
    - rewrite IH. destruct (Nat.eq_dec lo k); repeat case_decide; lia. }
  rewrite H. case_decide; [reflexivity | lia].
Qed.

Lemma relative_labels_count (C N k : nat) :
  k < C -> count_occ Nat.eq_dec (relative_labels C N) k = N.
Proof.
  intros Hk. induction N as [|N IH]; [reflexivity|].
  rewrite relative_labels_unfold, count_occ_app, IH, count_occ_arange by done.
  reflexivity.
Qed.

Lemma select_view (t : tensor) (N C c h w s k : nat) :
  shape t = [N; C; c; h; w] -> k < C ->
  select k (select s t)
  = select (s * C + k) {| shape := [N * C; c; h; w]; data := data t |}.
Proof.
  intros Hshape Hk. unfold select. rewrite Hshape. cbn [shape data].
  f_equal.
  set (P := prod [c; h; w]).
  replace (prod [C; c; h; w]) with (C * P) by reflexivity.
  rewrite (take_drop_commute (take (C * P) _)).
  rewrite take_take, Nat.min_l by nia.
  rewrite <- take_drop_commute, drop_drop.
  f_equal. f_equal. lia.
Qed.

(** Every class index occurs [N] times in the labels, the label at position
    [s * C + k] is [k], and row [s * C + k] of the flattened batch is the
    image of class slot [k] in group [s] of the episode tensor. *)
Lemma labels_follow_rows (t : tensor) (N C c h w : nat) :
  shape t = [N; C; c; h; w] ->
  exists b,
    view [N * C; c; h; w] t = Ok b /\
    List.length (relative_labels C N) = N * C /\
    (forall k, k < C -> count_occ Nat.eq_dec (relative_labels C N) k = N) /\
    (forall s k, s < N -> k < C ->
       relative_labels C N !! (s * C + k) = Some k /\
       select (s * C + k) b = select k (select s t)).
Proof.
  intros Hshape.
  exists {| shape := [N * C; c; h; w]; data := data t |}.
  split; [|split; [|split]].
  - unfold view, numel. rewrite Hshape. simpl.
    replace (N * (C * (c * (h * (w * 1)))) =? N * C * (c * (h * (w * 1))))
      with true; [reflexivity|].
    symmetry. apply Nat.eqb_eq. lia.
  - apply relative_labels_length.
  - intros k Hk. by apply relative_labels_count.
  - intros s k Hs Hk. split.
    + by apply relative_labels_lookup.
    + symmetry. by apply (select_view t N).
Qed.

Lemma episode_sizes_ok (ep : episode) (S1 Q1 C c h w : nat) :
  shape (support_set ep) = [S1; C; c; h; w] ->
  shape (query_set ep) = [Q1; C; c; h; w] ->
  episode_sizes ep = Ok (S1, Q1, C, c, h, w).
Proof.
  intros Hs Hq. unfold episode_sizes, size5. rewrite Hs, Hq. reflexivity.
Qed.

Lemma episode_forward_inputs (m : model) (ep : episode) (ss qs n c h w : nat)
    (out : forward_out) :
  episode_forward m ep ss qs n c h w = Ok out ->
  view [ss * n; c; h; w] (support_set ep) = Ok (support_batch out) /\
  view [qs * n; c; h; w] (query_set ep) = Ok (query_batch out) /\
  support_relative_labels out = relative_labels (nclasses ep) (support_size ep) /\
  query_relative_labels out = relative_labels (nclasses ep) (query_size ep).
Proof.
  unfold episode_forward. cbv zeta.
  destruct (view [ss * n; c; h; w] (support_set ep)) as [sb|]; [|discriminate].
  cbn.
  destruct (view_rows _ _) as [se|]; [|discriminate]. cbn.
  destruct (view [qs * n; c; h; w] (query_set ep)) as [qb|]; [|discriminate].
  cbn.
  destruct (view_rows _ _) as [qe|]; [|discriminate]. cbn.
  destruct (cross_entropy _ _) as [l|]; [|discriminate]. cbn.
  intros [= <-]. cbn. auto.
Qed.

Lemma episode_forward_classify (m : model) (ep : episode)
    (ss qs n c h w : nat) (sb qb : tensor) :
  view [ss * n; c; h; w] (support_set ep) = Ok sb ->
  view [qs * n; c; h; w] (query_set ep) = Ok qb ->
  episode_forward m ep ss qs n c h w
  = classify m sb qb (relative_labels (nclasses ep) (support_size ep))
                     (relative_labels (nclasses ep) (query_size ep)).
Proof.
  intros Hsb Hqb. unfold episode_forward, classify. cbv zeta.
  rewrite Hsb, Hqb.
  assert (Hs : hd 0 (shape sb) = ss * n).
  { unfold view in Hsb. destruct (_ =? _); [|discriminate]. by injection Hsb as <-. }
  assert (Hq : hd 0 (shape qb) = qs * n).
  { unfold view in Hqb. destruct (_ =? _); [|discriminate]. by injection Hqb as <-. }
  rewrite Hs, Hq. cbn.
  destruct (view_rows (ss * n) _) as [se|]; [|reflexivity]. cbn.
  destruct (view_rows (qs * n) _) as [qe|]; reflexivity.
Qed.

Lemma classify_fields (m : model) (sb qb : tensor) (slabels qlabels : list nat)
    (out : forward_out) :
  classify m sb qb slabels qlabels = Ok out ->
  support_batch out = sb /\ query_batch out = qb /\
  support_relative_labels out = slabels /\ query_relative_labels out = qlabels.
Proof.
  unfold classify. cbv zeta.
  destruct (view_rows (hd 0 (shape sb)) _) as [se|]; [|discriminate]. cbn.
  destruct (view_rows (hd 0 (shape qb)) _) as [qe|]; [|discriminate]. cbn.
  destruct (cross_entropy _ _) as [l|]; [|discriminate]. cbn.
  intros [= <-]. cbn. auto.
Qed.

(** C1.  For an episode with [n_classes = C], [support_size = S] and
    [query_size = Q] whose tensors have those shapes, the forward pass of
    either loop is torch's computation on the flattened support and query
    batches with the support labels [relative_labels C S] and the query
    labels [relative_labels C Q]: these are the labels the prototypes are
    formed from and the loss and the accuracy are measured against.  The
    support (resp. query) labels hold every class index of [0..C-1]
    exactly [S] (resp. [Q]) times, in the class order of the rows of the
    flattened batch: row [i] of the batch, which the backbone turns into
    row [i] of the embedding batch, is the sample of class slot [i mod C],
    and position [i] of the labels is that class index. *)
Theorem relative_labels_positional (ep : episode) (C S1 Q1 c h w : nat)
    (m : model) (rest : list episode) :
  nclasses ep = C -> support_size ep = S1 -> query_size ep = Q1 ->
  shape (support_set ep) = [S1; C; c; h; w] ->
  shape (query_set ep) = [Q1; C; c; h; w] ->
  episode_sizes ep = Ok (S1, Q1, C, c, h, w) /\
  exists sb qb,
    view [S1 * C; c; h; w] (support_set ep) = Ok sb /\
    view [Q1 * C; c; h; w] (query_set ep) = Ok qb /\
    let pass := classify m sb qb (relative_labels C S1) (relative_labels C Q1) in
    episode_forward m ep S1 Q1 C c h w = pass /\
    fst (train_episode (ep :: rest) m)
    = match pass with
      | Ok out =>
          Ok (loss out,
              mean (matches (preds_of (logits out)) (relative_labels C Q1)))
      | Raise e => Raise e
      end /\
    fst (val_episode (ep :: rest) m)
    = match pass with
      | Ok out =>
          Ok (loss out,
              sumQ (matches (preds_of (logits out)) (relative_labels C Q1)),
              Q1, C)
      | Raise e => Raise e
      end /\
    (forall out, pass = Ok out ->
       support_batch out = sb /\ query_batch out = qb /\
       support_relative_labels out = relative_labels C S1 /\
       query_relative_labels out = relative_labels C Q1) /\
    List.length (relative_labels C S1) = S1 * C /\
    List.length (relative_labels C Q1) = Q1 * C /\
    (forall k, k < C ->
       count_occ Nat.eq_dec (relative_labels C S1) k = S1 /\
       count_occ Nat.eq_dec (relative_labels C Q1) k = Q1) /\
    (forall s k, s < S1 -> k < C ->
       relative_labels C S1 !! (s * C + k) = Some k /\
       select (s * C + k) sb = select k (select s (support_set ep))) /\
    (forall q k, q < Q1 -> k < C ->
       relative_labels C Q1 !! (q * C + k) = Some k /\
       select (q * C + k) qb = select k (select q (query_set ep))).
Proof.
  intros HC HS HQ Hs Hq.
  pose proof (episode_sizes_ok _ _ _ _ _ _ _ Hs Hq) as Hsz.
  split; [exact Hsz|].
  destruct (labels_follow_rows _ _ _ _ _ _ Hs) as (sb & Hsb & Hls & Hcs & Hrs).
  destruct (labels_follow_rows _ _ _ _ _ _ Hq) as (qb & Hqb & Hlq & Hcq & Hrq).
  exists sb, qb.
  split; [done|]. split; [done|]. cbv zeta.
  pose proof (episode_forward_classify m ep S1 Q1 C c h w sb qb Hsb Hqb) as Hfw.
  rewrite HC, HS, HQ in Hfw.
  split; [exact Hfw|]. split; [|split; [|split]].
  - unfold train_episode. rewrite bind_lift. cbn [undo_collate].
    rewrite bind_lift, Hsz, bind_get, bind_lift, Hfw.
    destruct (classify m sb qb _ _) as [out|e] eqn:Hpass; [|reflexivity].
    destruct (classify_fields _ _ _ _ _ _ Hpass) as (_ & _ & _ & ->).
    cbv zeta. by destruct (optimizer_step _ _ _).
  - unfold val_episode. rewrite bind_lift. cbn [undo_collate].
    rewrite bind_lift, Hsz, bind_lift, HS, HQ, !Nat.eqb_refl. cbn [negb orb].
    rewrite bind_get, bind_lift, Hfw.
    destruct (classify m sb qb _ _) as [out|e] eqn:Hpass; [|reflexivity].
    by destruct (classify_fields _ _ _ _ _ _ Hpass) as (_ & _ & _ & ->).
  - intros out Hpass. by apply classify_fields in Hpass.
  - split; [done|]. split; [done|]. split.
    { intros k Hk. split; auto. }
    split; auto.
Qed.


(** *** The absolute labels do not reach the loss *)

Lemma same_but_targets_bodies (e1 e2 : episode) (rest1 rest2 : list episode)
    (m : model) (ss qs n c h w : nat) :
  same_but_targets e1 e2 ->
  episode_forward m e1 ss qs n c h w = episode_forward m e2 ss qs n c h w /\
  train_episode (e1 :: rest1) m = train_episode (e2 :: rest2) m /\
  val_episode (e1 :: rest1) m = val_episode (e2 :: rest2) m.
Proof.
  intros (Hs & Hq & Hn & Hss & Hqs).
  destruct e1, e2; cbn in *; subst.
  repeat split; reflexivity.
Qed.

(** C4.  Two episodes with the same tensors and size metadata but different
    [targets] give the same forward result (labels, logits and loss) and
    the same outcome and model after a training pass and after an
    evaluation pass. *)
Theorem targets_noninterference (e1 e2 : episode) (rest1 rest2 : list episode)
    (m : model) (ss qs n c h w : nat) :
  same_but_targets e1 e2 ->
  episode_forward m e1 ss qs n c h w = episode_forward m e2 ss qs n c h w /\
  train_episode (e1 :: rest1) m = train_episode (e2 :: rest2) m /\
  val_episode (e1 :: rest1) m = val_episode (e2 :: rest2) m.
Proof. apply same_but_targets_bodies. Qed.

(** The same holds for whole loaders. *)
Lemma train_loop_targets (l1 l2 : list (list episode)) (a b : Q) (t : Z) (m : model) :
  Forall2 (fun b1 b2 => match b1, b2 with
                        | e1 :: _, e2 :: _ => same_but_targets e1 e2
                        | [], [] => True
                        | _, _ => False
                        end) l1 l2 ->
  train_loop l1 a b t m = train_loop l2 a b t m.
Proof.
  intros H. revert a b t m.
  induction H as [|b1 b2 l1 l2 Hb _ IH]; intros a b t m; [reflexivity|].
  cbn [train_loop]. unfold mbind, M_bind.
  assert (Hstep : train_episode b1 m = train_episode b2 m).
  { destruct b1 as [|e1 r1], b2 as [|e2 r2]; try contradiction; [reflexivity|].
    apply (same_but_targets_bodies e1 e2 r1 r2 m 0 0 0 0 0 0 Hb). }
  rewrite Hstep.
  destruct (train_episode b2 m) as [[[l acc]|e] m']; [apply IH | reflexivity].
Qed.

(** *** The loop bodies, case by case *)

Lemma val_episode_eq (batch : list episode) (m : model) :
  val_episode batch m =
  match batch with
  | [] => (Raise IndexError, m)
  | ep :: _ =>
      match episode_sizes ep with
      | Raise e => (Raise e, m)
      | Ok (ss, qs, n, c, h, w) =>
          if negb (ss =? support_size ep) || negb (qs =? query_size ep)
          then (Raise (RuntimeError too_small_msg), m)
          else match episode_forward m ep ss qs n c h w with
               | Raise e => (Raise e, m)
               | Ok out =>
                   (Ok (loss out,
                        sumQ (matches (preds_of (logits out))
                                      (query_relative_labels out)),
                        qs, n), m)
               end
      end
  end.
Proof.
  unfold val_episode. rewrite bind_lift.
  destruct batch as [|ep rest]; [reflexivity|].
  cbn [undo_collate]. rewrite bind_lift.
  destruct (episode_sizes ep) as [[[[[[ss qs] n] c] h] w]|e]; [|reflexivity].
  rewrite bind_lift.
  destruct (negb (ss =? support_size ep) || negb (qs =? query_size ep));
    [reflexivity|].
  rewrite bind_get, bind_lift.
  by destruct (episode_forward m ep ss qs n c h w).
Qed.

Lemma train_episode_eq (batch : list episode) (m : model) :
  train_episode batch m =
  match batch with
  | [] => (Raise IndexError, m)
  | ep :: _ =>
      match episode_sizes ep with
      | Raise e => (Raise e, m)
      | Ok (ss, qs, n, c, h, w) =>
          match episode_forward m ep ss qs n c h w with
          | Raise e => (Raise e, m)
          | Ok out =>
              let g := backward (training m) (backbone_params m)
                         (support_batch out) (query_batch out)
                         (support_relative_labels out)
                         (query_relative_labels out) in
              let op := optimizer_step (optimizer m) (backbone_params m) g in
              (Ok (loss out,
                   mean (matches (preds_of (logits out))
                                 (query_relative_labels out))),
               {| backbone_params := op.2; training := training m;
                  optimizer := op.1; scheduler := scheduler m |})
          end
      end
  end.
Proof.
  unfold train_episode. rewrite bind_lift.
  destruct batch as [|ep rest]; [reflexivity|].
  cbn [undo_collate]. rewrite bind_lift.
  destruct (episode_sizes ep) as [[[[[[ss qs] n] c] h] w]|e]; [|reflexivity].
  rewrite bind_get, bind_lift.
  destruct (episode_forward m ep ss qs n c h w) as [out|e]; [|reflexivity].
  cbv zeta. by destruct (optimizer_step _ _ _) as [o p].
Qed.

Lemma torch_error_distinct (e : exn) :
  torch_error e -> e <> ZeroDivisionError /\ e <> RuntimeError too_small_msg.
Proof.
  intros [-> | [-> | [-> | ->]]]; split; discriminate.
Qed.

Lemma view_error (dims : list nat) (t : tensor) (e : exn) :
  view dims t = Raise e -> torch_error e.
Proof.
  unfold view, torch_error. destruct (_ =? _); [discriminate|].
  intros [= <-]. auto.
Qed.

Lemma view_rows_error (n : nat) (t : tensor) (e : exn) :
  view_rows n t = Raise e -> torch_error e.
Proof.
  unfold view_rows, torch_error.
  destruct (n =? 0).
  - destruct (numel t =? 0); intros [= <-]; auto.
  - destruct (_ =? 0); [discriminate|]. intros [= <-]. auto.
Qed.

Lemma view_rows_ok (n : nat) (t t' : tensor) :
  view_rows n t = Ok t' -> n <> 0.
Proof.
  unfold view_rows. destruct (Nat.eqb_spec n 0); [discriminate | done].
Qed.

Lemma episode_sizes_error (ep : episode) (e : exn) :
  episode_sizes ep = Raise e -> torch_error e.
Proof.
  unfold episode_sizes, size5, torch_error.
  destruct (shape (support_set ep)) as [|? [|? [|? [|? [|? [|]]]]]];
    try (intros [= <-]; auto).
  destruct (shape (query_set ep)) as [|? [|? [|? [|? [|? [|]]]]]];
    try (intros [= <-]; auto).
Qed.

Lemma episode_sizes_heads (ep : episode) (ss qs n c h w : nat) :
  episode_sizes ep = Ok (ss, qs, n, c, h, w) ->
  realized_support ep = ss /\ realized_query ep = qs.
Proof.
  unfold episode_sizes, size5, realized_support, realized_query.
  destruct (shape (support_set ep)) as [|? [|? [|? [|? [|? [|]]]]]];
    try discriminate.
  destruct (shape (query_set ep)) as [|? [|? [|? [|? [|? [|]]]]]];
    try discriminate.
  intros [= <- <- <- <- <- <-]. done.
Qed.

(** The forward pass fails only inside torch, and succeeds only on
    non-empty support and query batches. *)
Lemma episode_forward_result (m : model) (ep : episode) (ss qs n c h w : nat) :
  match episode_forward m ep ss qs n c h w with
  | Ok _ => ss * n <> 0 /\ qs * n <> 0
  | Raise e => torch_error e
  end.
Proof.
  unfold episode_forward. cbv zeta.
  destruct (view [ss * n; c; h; w] (support_set ep)) as [sb|e] eqn:H1;
    [|by apply view_error in H1].
  cbn.
  destruct (view_rows (ss * n) _) as [se|e] eqn:H2;
    [|by apply view_rows_error in H2].
  cbn.
  destruct (view [qs * n; c; h; w] (query_set ep)) as [qb|e] eqn:H3;
    [|by apply view_error in H3].
  cbn.
  destruct (view_rows (qs * n) _) as [qe|e] eqn:H4;
    [|by apply view_rows_error in H4].
  cbn.
  unfold cross_entropy. destruct (_ =? _); cbn.
  - split; eauto using view_rows_ok.
  - unfold torch_error. auto.
Qed.

Lemma train_episode_result (batch : list episode) (m : model) :
  match train_episode batch m with
  | (Ok _, _) => True
  | (Raise e, m') => torch_error e /\ m' = m
  end.
Proof.
  rewrite train_episode_eq.
  destruct batch as [|ep rest]; [unfold torch_error; auto|].
  destruct (episode_sizes ep) as [[[[[[ss qs] n] c] h] w]|e] eqn:Hsz;
    [|by apply episode_sizes_error in Hsz].
  pose proof (episode_forward_result m ep ss qs n c h w) as Hf.
  by destruct (episode_forward m ep ss qs n c h w).
Qed.

Lemma val_episode_result (batch : list episode) (m : model) :
  match val_episode batch m with
  | (Ok o, m') => query_count o <> 0 /\ m' = m
  | (Raise e, m') =>
      m' = m /\
      (torch_error e \/
       e = RuntimeError too_small_msg /\
       exists ep, head batch = Some ep /\ ~ sizes_as_declared ep)
  end.
Proof.
  rewrite val_episode_eq.
  destruct batch as [|ep rest]; [unfold torch_error; auto|].
  destruct (episode_sizes ep) as [[[[[[ss qs] n] c] h] w]|e] eqn:Hsz;
    [|split; [done | left; by apply episode_sizes_error in Hsz]].
  destruct (negb (ss =? support_size ep) || negb (qs =? query_size ep)) eqn:Hchk.
  - split; [done|]. right. split; [done|]. exists ep. split; [done|].
    apply episode_sizes_heads in Hsz as [Hs Hq].
    unfold sizes_as_declared. rewrite Hs, Hq. intros [-> ->].
    by rewrite !Nat.eqb_refl in Hchk.
  - pose proof (episode_forward_result m ep ss qs n c h w) as Hf.
    destruct (episode_forward m ep ss qs n c h w); cbn; tauto.
Qed.

Lemma val_episode_frame (batch : list episode) (m : model) :
  snd (val_episode batch m) = m.
Proof.
  pose proof (val_episode_result batch m) as H.
  destruct (val_episode batch m) as [[o|e] m']; cbn; tauto.
Qed.

Lemma val_loop_frame (loader : list (list episode)) (a : Q) (t : Z) (l : Q) (m : model) :
  snd (val_loop loader a t l m) = m.
Proof.
  revert a t l. induction loader as [|batch loader IH]; intros a t l; [reflexivity|].
  cbn [val_loop]. rewrite bind_run.
  pose proof (val_episode_frame batch m) as Hm.
  destruct (val_episode batch m) as [[[[[l1 k] qs] n]|e] m']; cbn in Hm; subst m'.
  - apply IH.
  - reflexivity.
Qed.

(** *** The loops in terms of the per-episode outcomes *)

Lemma episodes_result {A} (body : list episode -> M A)
    (P : exn -> Prop) (R : A -> Prop) (loader : list (list episode)) :
  Forall (fun b => forall m, match body b m with
                             | (Ok a, _) => R a
                             | (Raise e, _) => P e
                             end) loader ->
  forall m,
    match episodes body loader m with
    | (Ok outs, _) => List.length outs = List.length loader /\ Forall R outs
    | (Raise e, _) => P e
    end.
Proof.
  induction 1 as [|b loader Hb _ IH]; intros m; cbn [episodes].
  - split; [reflexivity | constructor].
  - rewrite bind_run. specialize (Hb m).
    destruct (body b m) as [[a|e] m1]; [|done].
    rewrite bind_run. specialize (IH m1).
    destruct (episodes body loader m1) as [[outs|e] m2]; [|done].
    cbn. destruct IH as [Hlen Hall]. split; [by rewrite Hlen | by constructor].
Qed.

Lemma episodes_app_raise {A} (body : list episode -> M A)
    (pre post : list (list episode)) (b : list episode)
    (m m1 m2 : model) (outs : list A) (e : exn) :
  episodes body pre m = (Ok outs, m1) ->
  body b m1 = (Raise e, m2) ->
  episodes body (pre ++ b :: post) m = (Raise e, m2).
Proof.
  revert m outs. induction pre as [|b0 pre IH]; intros m outs Hpre Hb.
  - cbn in Hpre. injection Hpre as <- <-.
    cbn [app episodes]. by rewrite bind_run, Hb.
  - cbn [app episodes] in *. rewrite bind_run in *.
    destruct (body b0 m) as [[a|e0] m0]; [|done].
    rewrite bind_run in *.
    destruct (episodes body pre m0) as [[outs0|e0] m3] eqn:Hrec; [|done].
    cbn in Hpre. injection Hpre as <- <-.
    by rewrite (IH m0 outs0).
Qed.

Lemma train_loop_episodes (loader : list (list episode)) (l a : Q) (t : Z) (m : model) :
  train_loop loader l a t m =
  match episodes train_episode loader m with
  | (Ok outs, m') =>
      (Ok (fold_left Qplus (List.map fst outs) l,
           fold_left Qplus (List.map snd outs) a,
           (t + Z.of_nat (List.length outs))%Z), m')
  | (Raise e, m') => (Raise e, m')
  end.
Proof.
  revert l a t m. induction loader as [|b loader IH]; intros l a t m;
    cbn [train_loop episodes].
  - cbn. by rewrite Z.add_0_r.
  - rewrite !bind_run.
    destruct (train_episode b m) as [[[l1 a1]|e] m1]; [|done].
    rewrite IH, bind_run.
    destruct (episodes train_episode loader m1) as [[outs|e] m2]; [|done].
    cbn. do 3 f_equal. lia.
Qed.

Lemma val_loop_episodes (loader : list (list episode)) (a : Q) (t : Z) (l : Q) (m : model) :
  val_loop loader a t l m =
  match episodes val_episode loader m with
  | (Ok outs, m') =>
      (Ok (fold_left Qplus (List.map episode_correct outs) a,
           (t + Z.of_nat (list_sum (List.map query_count outs)))%Z,
           fold_left Qplus
             (List.map (fun o => (episode_loss o * ofnat (fst o).2 * ofnat o.2)%Q) outs)
             l), m')
  | (Raise e, m') => (Raise e, m')
  end.
Proof.
  revert a t l m. induction loader as [|b loader IH]; intros a t l m;
    cbn [val_loop episodes].
  - cbn. by rewrite Z.add_0_r.
  - rewrite !bind_run.
    destruct (val_episode b m) as [[[[[l1 k] qs] n]|e] m1]; [|done].
    rewrite IH, bind_run.
    destruct (episodes val_episode loader m1) as [[outs|e] m2]; [|done].
    cbn. do 4 f_equal. rewrite Nat2Z.inj_add, Nat2Z.inj_mul.
    unfold list_sum. lia.
Qed.

Lemma fold_left_Qplus (x : list Q) (a : Q) :
  (fold_left Qplus x a == a + sumQ x)%Q.
Proof.
  revert a. induction x as [|q x IH]; intros a;
    unfold sumQ; cbn [fold_left fold_right].
  - ring.
  - fold (sumQ x). rewrite IH. ring.
Qed.


Lemma train_on_loader_eq (loader : list (list episode)) (m : model) :
  train_on_loader loader m =
  match episodes train_episode loader (in_mode true m) with
  | (Raise e, m') => (Raise e, m')
  | (Ok outs, m') =>
      let _loss := fold_left Qplus (List.map fst outs) 0%Q in
      let _accuracy := fold_left Qplus (List.map snd outs) 0%Q in
      let _total := Z.of_nat (List.length outs) in
      if (_total =? 0)%Z then (Raise ZeroDivisionError, m')
      else (Ok (<["train_accuracy" := PyFloat (100 * _accuracy / inject_Z _total)%Q]>
                  {["train_loss" := PyFloat (_loss / inject_Z _total)%Q]}), m')
  end.
Proof.
  unfold train_on_loader. rewrite bind_set_training, bind_run, train_loop_episodes.
  fold (in_mode true m).
  destruct (episodes train_episode loader (in_mode true m)) as [[outs|e] m'];
    [|reflexivity].
  cbv zeta. rewrite Z.add_0_l, bind_lift. unfold truediv.
  destruct (Z.of_nat (List.length outs) =? 0)%Z; [reflexivity|].
  rewrite bind_lift. reflexivity.
Qed.

Lemma val_on_loader_eq (loader : list (list episode)) (mode : string) (m : model) :
  val_on_loader loader mode m =
  match episodes val_episode loader (in_mode false m) with
  | (Raise e, m') => (Raise e, m')
  | (Ok outs, m') =>
      let _accuracy := fold_left Qplus (List.map episode_correct outs) 0%Q in
      let _total := Z.of_nat (list_sum (List.map query_count outs)) in
      let _loss :=
        fold_left Qplus
          (List.map (fun o => (episode_loss o * ofnat (fst o).2 * ofnat o.2)%Q) outs)
          0%Q in
      if (_total =? 0)%Z then (Raise ZeroDivisionError, m')
      else
        let so := scheduler_step (scheduler m') (optimizer m')
                                 (_loss / inject_Z _total)%Q in
        (Ok (<[mode +:+ "_accuracy" := PyFloat (100 * (_accuracy / inject_Z _total))%Q]>
               {[mode +:+ "_loss" := PyFloat (_loss / inject_Z _total)%Q]}),
         {| backbone_params := backbone_params m'; training := training m';
            optimizer := so.2; scheduler := so.1 |})
  end.
Proof.
  unfold val_on_loader. rewrite bind_set_training, bind_run, val_loop_episodes.
  fold (in_mode false m).
  destruct (episodes val_episode loader (in_mode false m)) as [[outs|e] m'];
    [|reflexivity].
  cbv zeta. rewrite Z.add_0_l, bind_lift. unfold truediv.
  destruct (Z.of_nat (list_sum (List.map query_count outs)) =? 0)%Z eqn:Hz;
    [reflexivity|].
  rewrite bind_get.
  destruct (scheduler_step _ _ _) as [s o] eqn:Hso.
  rewrite bind_put, !bind_lift. reflexivity.
Qed.

Lemma episodes_val_frame (loader : list (list episode)) (m : model) :
  snd (episodes val_episode loader m) = m.
Proof.
  induction loader as [|b loader IH]; [reflexivity|].
  cbn [episodes]. rewrite bind_run.
  pose proof (val_episode_frame b m) as Hm.
  destruct (val_episode b m) as [[o|e] m1]; cbn in Hm; subst m1; [|reflexivity].
  rewrite bind_run.
  destruct (episodes val_episode loader m) as [[outs|e] m2]; cbn in *; done.
Qed.

(** *** C9: evaluation leaves the parameters alone *)

(** C9.  An evaluation pass runs the forward computation of the training
    pass (on the same model it finds the same loss, or stops on the same
    error, or stops on its own size check) and never writes the backbone
    parameters: after [val_on_loader] they are what they were before, the
    backbone is in evaluation mode, and the scheduler and the optimizer
    have changed by one [scheduler.step] if the call returned and not at
    all if it raised. *)
Theorem val_on_loader_frame (loader : list (list episode)) (mode : string)
    (m : model) (batch : list episode) :
  (let '(r, m') := val_on_loader loader mode m in
   backbone_params m' = backbone_params m /\ training m' = false /\
   match r with
   | Ok _ => exists metric,
       (scheduler m', optimizer m')
       = scheduler_step (scheduler m) (optimizer m) metric
   | Raise _ => scheduler m' = scheduler m /\ optimizer m' = optimizer m
   end) /\
  (match val_episode batch m with
   | (Ok (l, _, _, _), m') =>
       m' = m /\ exists acc, fst (train_episode batch m) = Ok (l, acc)
   | (Raise e, m') =>
       m' = m /\
       (e = RuntimeError too_small_msg \/ train_episode batch m = (Raise e, m))
   end).
Proof.
  split.
  - rewrite val_on_loader_eq.
    pose proof (episodes_val_frame loader (in_mode false m)) as Hm.
    destruct (episodes val_episode loader (in_mode false m)) as [[outs|e] m'];
      cbn in Hm; subst m'; [|done].
    cbv zeta. destruct (_ =? _)%Z; [done|].
    cbn. repeat split. eexists. symmetry. apply surjective_pairing.
  - rewrite val_episode_eq, train_episode_eq.
    destruct batch as [|ep rest]; [auto|].
    destruct (episode_sizes ep) as [[[[[[ss qs] n] c] h] w]|e]; [|auto].
    destruct (negb (ss =? support_size ep) || negb (qs =? query_size ep)); [auto|].
    destruct (episode_forward m ep ss qs n c h w) as [out|e]; [|auto].
    split; [done|]. eexists. reflexivity.
Qed.

(** *** C10: the final division *)

(** C10.  On a loader that yields nothing both loops stop on a division by
    zero; on a loader that yields at least one episode neither does: the
    training count is the number of episodes, and the evaluation count is
    a sum of query counts of episodes that passed through [view(n, -1)],
    which torch refuses for an empty batch. *)
Theorem division_needs_an_episode :
  (forall m, fst (train_on_loader [] m) = Raise ZeroDivisionError) /\
  (forall mode m, fst (val_on_loader [] mode m) = Raise ZeroDivisionError) /\
  (forall loader m, loader <> [] ->
     fst (train_on_loader loader m) <> Raise ZeroDivisionError) /\
  (forall loader mode m, loader <> [] ->
     fst (val_on_loader loader mode m) <> Raise ZeroDivisionError).
Proof.
  split; [|split; [|split]].
  - reflexivity.
  - reflexivity.
  - intros loader m Hne. rewrite train_on_loader_eq.
    assert (Hbody : Forall (fun b => forall m,
                              match train_episode b m with
                              | (Ok _, _) => True
                              | (Raise e, _) => torch_error e
                              end) loader).
    { apply Forall_true. intros b m0.
      pose proof (train_episode_result b m0) as Hr.
      destruct (train_episode b m0) as [[?|?] ?]; tauto. }
    pose proof (episodes_result _ _ _ _ Hbody (in_mode true m)) as H.
    destruct (episodes train_episode loader (in_mode true m)) as [[outs|e] m'].
    + destruct H as [Hlen _]. cbv zeta.
      destruct (Z.eqb_spec (Z.of_nat (List.length outs)) 0) as [Hz|Hz]; [|done].
      destruct loader; [done | cbn in Hlen; lia].
    + cbn. intros [= ->]. by apply torch_error_distinct in H as [H _].
  - intros loader mode m Hne. rewrite val_on_loader_eq.
    assert (Hbody : Forall (fun b => forall m,
                              match val_episode b m with
                              | (Ok o, _) => query_count o <> 0
                              | (Raise e, _) => e <> ZeroDivisionError
                              end) loader).
    { apply Forall_true. intros b m0.
      pose proof (val_episode_result b m0) as Hr.
      destruct (val_episode b m0) as [[?|?] ?]; [tauto|].
      destruct Hr as [_ [Hr|[-> _]]]; [|discriminate].
      by apply torch_error_distinct in Hr as [Hr _]. }
    pose proof (episodes_result _ _ _ _ Hbody (in_mode false m)) as H.
    destruct (episodes val_episode loader (in_mode false m)) as [[outs|e] m'].
    + destruct H as [Hlen Hall]. cbv zeta.
      destruct (Z.eqb_spec (Z.of_nat (list_sum (List.map query_count outs))) 0)
        as [Hz|Hz]; [|done].
      destruct loader as [|b loader]; [done|].
      destruct outs as [|o outs]; [cbn in Hlen; lia|].
      apply Forall_cons in Hall as [Ho _]. cbn in Hz. lia.
    + cbn. congruence.
Qed.


(** *** C6: the size check of the evaluation pass *)

Lemma val_episode_mismatch (ep : episode) (rest : list episode) (m : model) :
  List.length (shape (support_set ep)) = 5 ->
  List.length (shape (query_set ep)) = 5 ->
  ~ sizes_as_declared ep ->
  val_episode (ep :: rest) m = (Raise (RuntimeError too_small_msg), m).
Proof.
  intros Hs Hq Hne. rewrite val_episode_eq.
  unfold sizes_as_declared, realized_support, realized_query in Hne.
  unfold episode_sizes, size5.
  destruct (shape (support_set ep)) as [|ss [|? [|? [|? [|? [|]]]]]]; try done.
  destruct (shape (query_set ep)) as [|qs [|? [|? [|? [|? [|]]]]]]; try done.
  cbn in *.
  destruct (Nat.eqb_spec ss (support_size ep)), (Nat.eqb_spec qs (query_size ep));
    cbn; tauto.
Qed.

(** C6.  [val_on_loader] stops with the size error ([RuntimeError] with the
    "too small" message) at the first episode it reaches whose support or
    query count, read from the tensor shapes, is not the declared one; it
    never raises that error on a loader whose episodes all have the declared
    counts; and [train_on_loader] never raises it at all. *)
Theorem val_checks_episode_sizes :
  (forall pre ep rest post mode m outs m1,
     episodes val_episode pre (in_mode false m) = (Ok outs, m1) ->
     List.length (shape (support_set ep)) = 5 ->
     List.length (shape (query_set ep)) = 5 ->
     ~ sizes_as_declared ep ->
     val_on_loader (pre ++ (ep :: rest) :: post) mode m
     = (Raise (RuntimeError too_small_msg), in_mode false m)) /\
  (forall loader mode m,
     Forall (fun batch => forall ep, head batch = Some ep -> sizes_as_declared ep)
            loader ->
     fst (val_on_loader loader mode m) <> Raise (RuntimeError too_small_msg)) /\
  (forall loader m,
     fst (train_on_loader loader m) <> Raise (RuntimeError too_small_msg)).
Proof.
  split; [|split].
  - intros pre ep rest post mode m outs m1 Hpre Hs Hq Hne.
    rewrite val_on_loader_eq.
    pose proof (episodes_val_frame pre (in_mode false m)) as Hm.
    rewrite Hpre in Hm. cbn in Hm. subst m1.
    by rewrite (episodes_app_raise _ _ _ _ _ _ _ _ _ Hpre
                  (val_episode_mismatch ep rest _ Hs Hq Hne)).
  - intros loader mode m Hall. rewrite val_on_loader_eq.
    assert (Hbody : Forall (fun b => forall m,
                              match val_episode b m with
                              | (Ok o, _) => True
                              | (Raise e, _) => e <> RuntimeError too_small_msg
                              end) loader).
    { eapply Forall_impl; [exact Hall|]. intros b Hb m0. cbn beta in Hb.
      pose proof (val_episode_result b m0) as Hr.
      destruct (val_episode b m0) as [[?|?] ?]; [done|].
      destruct Hr as [_ [Hr|[_ (ep & Hep & Hne)]]].
      - by apply torch_error_distinct in Hr as [_ Hr].
      - exfalso. auto. }
    pose proof (episodes_result _ _ _ _ Hbody (in_mode false m)) as H.
    destruct (episodes val_episode loader (in_mode false m)) as [[outs|e] m'].
    + cbv zeta. destruct (_ =? _)%Z; done.
    + cbn. congruence.
  - intros loader m. rewrite train_on_loader_eq.
    assert (Hbody : Forall (fun b => forall m,
                              match train_episode b m with
                              | (Ok _, _) => True
                              | (Raise e, _) => torch_error e
                              end) loader).
    { apply Forall_true. intros b m0.
      pose proof (train_episode_result b m0) as Hr.
      destruct (train_episode b m0) as [[?|?] ?]; tauto. }
    pose proof (episodes_result _ _ _ _ Hbody (in_mode true m)) as H.
    destruct (episodes train_episode loader (in_mode true m)) as [[outs|e] m'].
    + cbv zeta. destruct (_ =? _)%Z; done.
    + cbn. intros [= ->]. by apply torch_error_distinct in H as [_ H].
Qed.

(** *** C2: how the two loops aggregate *)

Lemma sumQ_scale {A} (c : Q) (f : A -> Q) (x : list A) :
  (sumQ (List.map (fun o => c * f o) x) == c * sumQ (List.map f x))%Q.
Proof.
  induction x as [|o x IH]; unfold sumQ; cbn [List.map fold_right].
  - ring.
  - fold (sumQ (List.map (fun o => (c * f o)%Q) x)).
    fold (sumQ (List.map f x)). rewrite IH. ring.
Qed.

Lemma sumQ_ext {A} (f g : A -> Q) (x : list A) :
  (forall o, f o == g o)%Q ->
  (sumQ (List.map f x) == sumQ (List.map g x))%Q.
Proof.
  intros Hfg. induction x as [|o x IH]; unfold sumQ; cbn [List.map fold_right].
  - reflexivity.
  - fold (sumQ (List.map f x)). fold (sumQ (List.map g x)).
    by rewrite IH, Hfg.
Qed.

Lemma weighted_loss (o : Q * Q * nat * nat) :
  (episode_loss o * ofnat (fst o).2 * ofnat o.2
   == episode_loss o * ofnat (query_count o))%Q.
Proof.
  destruct o as [[[l k] qs] n]. cbn [episode_loss query_count fst snd].
  unfold ofnat. rewrite Nat2Z.inj_mul, inject_Z_mult. ring.
Qed.

(** Over the per-episode outcomes of a training epoch, the reported
    loss is their plain mean and the reported accuracy is the plain mean of
    the per-episode accuracies, as a percentage: every episode counts once.
    Over the outcomes of an evaluation epoch, the reported loss is the sum
    of the per-episode losses, each times the episode's number of query
    samples, over the total number of query samples, and the reported
    accuracy is the total number of correct predictions over that total,
    as a percentage. *)
Lemma epoch_aggregation_outcomes (train_loader val_loader : list (list episode))
    (mode : string) (mt mv mt' mv' : model)
    (touts : list (Q * Q)) (vouts : list (Q * Q * nat * nat)) :
  episodes train_episode train_loader (in_mode true mt) = (Ok touts, mt') ->
  episodes val_episode val_loader (in_mode false mv) = (Ok vouts, mv') ->
  touts <> [] -> vouts <> [] ->
  (exists l a,
     train_on_loader train_loader mt
     = (Ok (<["train_accuracy" := PyFloat a]> {["train_loss" := PyFloat l]}), mt') /\
     (l == mean (List.map fst touts))%Q /\
     (a == 100 * mean (List.map snd touts))%Q /\
     (a == mean (List.map (fun o => 100 * snd o) touts))%Q) /\
  (exists l a,
     fst (val_on_loader val_loader mode mv)
     = Ok (<[mode +:+ "_accuracy" := PyFloat a]> {[mode +:+ "_loss" := PyFloat l]}) /\
     (l == sumQ (List.map (fun o => episode_loss o * ofnat (query_count o)) vouts)
           / ofnat (list_sum (List.map query_count vouts)))%Q /\
     (a == 100 * (sumQ (List.map episode_correct vouts)
                  / ofnat (list_sum (List.map query_count vouts))))%Q).
Proof.
  intros Ht Hv Htne Hvne. split.
  - rewrite train_on_loader_eq, Ht. cbv zeta.
    destruct (Z.eqb_spec (Z.of_nat (List.length touts)) 0) as [Hz|Hz].
    { destruct touts; [done | cbn in Hz; lia]. }
    eexists _, _. split; [reflexivity|].
    unfold mean. rewrite !length_map. fold (ofnat (List.length touts)).
    rewrite !fold_left_Qplus, sumQ_scale.
    repeat split; unfold Qdiv; ring.
  - rewrite val_on_loader_eq, Hv. cbv zeta.
    assert (Hpos : list_sum (List.map query_count vouts) <> 0).
    { pose proof (episodes_result val_episode (fun _ => True)
                    (fun o => query_count o <> 0) val_loader) as H.
      assert (Hbody : Forall (fun b => forall m,
                                match val_episode b m with
                                | (Ok o, _) => query_count o <> 0
                                | (Raise e, _) => True
                                end) val_loader).
      { apply Forall_true. intros b m0.
        pose proof (val_episode_result b m0) as Hr.
        destruct (val_episode b m0) as [[?|?] ?]; tauto. }
      specialize (H Hbody (in_mode false mv)). rewrite Hv in H.
      destruct H as [_ Hall].
      destruct vouts as [|o vouts]; [done|].
      apply Forall_cons in Hall as [Ho _]. cbn. lia. }
    destruct (Z.eqb_spec (Z.of_nat (list_sum (List.map query_count vouts))) 0)
      as [Hz|Hz]; [lia|].
    cbn [fst]. eexists _, _. split; [reflexivity|].
    fold (ofnat (list_sum (List.map query_count vouts))).
    rewrite !fold_left_Qplus, (sumQ_ext _ _ _ weighted_loss).
    split; unfold Qdiv; ring.
Qed.

(** *** The outcomes of the loop bodies, from the forward passes *)

Lemma forward_eq (m : model) (ep : episode) :
  forward m ep = match episode_sizes ep with
                 | Ok (ss, qs, n, c, h, w) => episode_forward m ep ss qs n c h w
                 | Raise e => Raise e
                 end.
Proof.
  unfold forward. by destruct (episode_sizes ep) as [[[[[[ss qs] n] c] h] w]|e].
Qed.

Lemma episode_sizes_query (ep : episode) (ss qs n c h w : nat) :
  episode_sizes ep = Ok (ss, qs, n, c, h, w) ->
  query_samples ep = qs * n /\
  declared_sizes ep
  = negb (negb (ss =? support_size ep) || negb (qs =? query_size ep)).
Proof.
  unfold episode_sizes, size5, query_samples, declared_sizes,
    realized_support, realized_query.
  destruct (shape (support_set ep)) as [|? [|? [|? [|? [|? [|]]]]]];
    try discriminate.
  destruct (shape (query_set ep)) as [|? [|? [|? [|? [|? [|]]]]]];
    try discriminate.
  intros [= <- <- <- <- <- <-]. cbn [hd]. split; [reflexivity|].
  by rewrite negb_orb, !negb_involutive.
Qed.

(** A pass that returns has as many rows of logits as query labels. *)
Lemma episode_forward_rows (m : model) (ep : episode) (ss qs n c h w : nat)
    (out : forward_out) :
  episode_forward m ep ss qs n c h w = Ok out ->
  List.length (preds_of (logits out)) = List.length (query_relative_labels out).
Proof.
  unfold episode_forward. cbv zeta.
  destruct (view [ss * n; c; h; w] (support_set ep)) as [sb|]; [|discriminate].
  cbn.
  destruct (view_rows (ss * n) _) as [se|]; [|discriminate]. cbn.
  destruct (view [qs * n; c; h; w] (query_set ep)) as [qb|]; [|discriminate].
  cbn.
  destruct (view_rows (qs * n) _) as [qe|]; [|discriminate]. cbn.
  unfold cross_entropy.
  destruct (Nat.eqb_spec (hd 0 (shape (prototype_distance se qe
                                          (relative_labels (nclasses ep)
                                                           (support_size ep)))))
              (List.length (relative_labels (nclasses ep) (query_size ep))))
    as [He|]; [|discriminate].
  cbn. intros [= <-]. cbn [logits query_relative_labels].
  unfold preds_of, rows. by rewrite !length_map, length_seq.
Qed.

Lemma sumQ_matches (preds labels : list nat) :
  (sumQ (matches preds labels)
   == ofnat (List.length (List.filter (fun pl => fst pl =? snd pl)
                            (List.combine preds labels))))%Q.
Proof.
  revert labels. induction preds as [|p preds IH]; intros [|l labels];
    try reflexivity.
  unfold matches. cbn [zip_with List.combine List.filter fst snd].
  fold (matches preds labels). unfold sumQ. cbn [fold_right].
  fold (sumQ (matches preds labels)). rewrite IH.
  destruct (p =? l); cbn [List.length]; unfold ofnat;
    rewrite ?Nat2Z.inj_succ, <- ?Z.add_1_l, ?inject_Z_plus; ring.
Qed.

Lemma matches_length (preds labels : list nat) :
  List.length preds = List.length labels ->
  List.length (matches preds labels) = List.length labels.
Proof.
  revert labels. induction preds as [|p preds IH]; intros [|l labels] H;
    try discriminate; [reflexivity|].
  unfold matches. cbn. f_equal. apply IH. by injection H.
Qed.

Lemma pass_accuracy (m : model) (ep : episode) (ss qs n c h w : nat)
    (out : forward_out) :
  episode_forward m ep ss qs n c h w = Ok out ->
  (mean (matches (preds_of (logits out)) (query_relative_labels out))
   == episode_accuracy out)%Q /\
  (sumQ (matches (preds_of (logits out)) (query_relative_labels out))
   == ofnat (correct_count out))%Q.
Proof.
  intros Hf. pose proof (episode_forward_rows _ _ _ _ _ _ _ _ _ Hf) as Hlen.
  unfold mean, episode_accuracy, correct_count.
  rewrite (matches_length _ _ Hlen), sumQ_matches. split; reflexivity.
Qed.

Lemma train_passes_episodes (loader : list (list episode)) (m m' : model)
    (ps : list (episode * forward_out)) :
  train_passes loader m = Some (ps, m') ->
  episodes train_episode loader m = (Ok (List.map train_outcome ps), m') /\
  Forall (fun p => (snd (train_outcome p) == episode_accuracy p.2)%Q) ps.
Proof.
  unfold train_passes.
  revert m ps. induction loader as [|[|ep rest] loader IH]; intros m ps;
    cbn [passes episodes].
  - intros [= <- <-]. split; [reflexivity|constructor].
  - discriminate.
  - rewrite forward_eq, bind_run, train_episode_eq.
    destruct (episode_sizes ep) as [[[[[[ss qs] n] c] h] w]|e]; [|discriminate].
    destruct (episode_forward m ep ss qs n c h w) as [out|e] eqn:Hf;
      [|discriminate].
    fold (trained m out).
    destruct (passes _ trained loader (trained m out)) as [[ps' m1]|] eqn:Hrest;
      [|discriminate].
    intros [= <- <-]. destruct (IH _ _ Hrest) as [Heps Hall].
    cbv beta iota zeta. fold (trained m out). rewrite bind_run, Heps.
    split; [reflexivity|].
    constructor; [|exact Hall].
    apply (pass_accuracy _ _ _ _ _ _ _ _ _ Hf).
Qed.

Lemma val_passes_episodes (loader : list (list episode)) (m m' : model)
    (ps : list (episode * forward_out)) :
  val_passes loader m = Some (ps, m') ->
  episodes val_episode loader m = (Ok (List.map val_outcome ps), m) /\
  Forall (fun p =>
            query_count (val_outcome p) = query_samples p.1 /\
            (episode_correct (val_outcome p) == ofnat (correct_count p.2))%Q) ps.
Proof.
  unfold val_passes.
  revert ps m'. induction loader as [|[|ep rest] loader IH]; intros ps m';
    cbn [passes episodes].
  - intros [= <- <-]. split; [reflexivity|constructor].
  - discriminate.
  - rewrite forward_eq, bind_run, val_episode_eq.
    destruct (episode_sizes ep) as [[[[[[ss qs] n] c] h] w]|e] eqn:Hsz;
      [|by destruct (declared_sizes ep)].
    destruct (episode_sizes_query _ _ _ _ _ _ _ Hsz) as [Hqs Hdecl].
    rewrite Hdecl.
    destruct (negb (ss =? support_size ep) || negb (qs =? query_size ep));
      [discriminate|]. cbn [negb].
    destruct (episode_forward m ep ss qs n c h w) as [out|e] eqn:Hf;
      [|discriminate].
    destruct (passes _ _ loader m) as [[ps' m1]|] eqn:Hrest; [|discriminate].
    intros [= <- <-]. destruct (IH _ _ eq_refl) as [Heps Hall].
    cbv beta iota zeta. rewrite bind_run, Heps.
    assert (Hshape : hd 0 (shape (query_set ep)) = qs /\
                     nth 1 (shape (query_set ep)) 0 = n).
    { revert Hsz. unfold episode_sizes, size5.
      destruct (shape (support_set ep)) as [|? [|? [|? [|? [|? [|]]]]]];
        try discriminate.
      destruct (shape (query_set ep)) as [|? [|? [|? [|? [|? [|]]]]]];
        try discriminate.
      by intros [= <- <- <- <- <- <-]. }
    destruct Hshape as [Hq Hn].
    split.
    + unfold val_outcome. cbn [fst snd List.map]. by rewrite Hq, Hn.
    + constructor; [|exact Hall].
      unfold val_outcome. cbn [fst snd query_count episode_correct].
      rewrite Hq, Hn. split; [by rewrite Hqs|].
      apply (pass_accuracy _ _ _ _ _ _ _ _ _ Hf).
Qed.

Lemma sumQ_Forall {A} (f g : A -> Q) (x : list A) :
  Forall (fun o => (f o == g o)%Q) x ->
  (sumQ (List.map f x) == sumQ (List.map g x))%Q.
Proof.
  induction 1 as [|o x Ho _ IH]; unfold sumQ; cbn [List.map fold_right].
  - reflexivity.
  - fold (sumQ (List.map f x)). fold (sumQ (List.map g x)).
    by rewrite IH, Ho.
Qed.

Lemma sumQ_ofnat {A} (f : A -> nat) (x : list A) :
  (sumQ (List.map (fun o => ofnat (f o)) x) == ofnat (list_sum (List.map f x)))%Q.
Proof.
  induction x as [|o x IH]; unfold sumQ; cbn [List.map fold_right list_sum].
  - reflexivity.
  - fold (sumQ (List.map (fun o => ofnat (f o)) x)). rewrite IH.
    unfold ofnat. rewrite Nat2Z.inj_add, inject_Z_plus. reflexivity.
Qed.

(** C2.  Let the forward passes of a training epoch and of an evaluation
    epoch all return.  Then [train_on_loader] reports the plain mean of the
    losses of its passes and, as a percentage, the plain mean of their
    accuracies (correct predictions over query labels, pass by pass):
    every episode counts once, whatever its size.  And [val_on_loader]
    reports the sum of the losses of its passes, each times the number of
    query samples in that episode's query tensor, over the total number of
    query samples, and, as a percentage, the total number of correct
    predictions over the same total. *)
Theorem epoch_aggregation (train_loader val_loader : list (list episode))
    (mode : string) (mt mv mt' mv' : model)
    (tps vps : list (episode * forward_out)) :
  train_passes train_loader (in_mode true mt) = Some (tps, mt') ->
  val_passes val_loader (in_mode false mv) = Some (vps, mv') ->
  tps <> [] -> vps <> [] ->
  (exists l a,
     train_on_loader train_loader mt
     = (Ok (<["train_accuracy" := PyFloat a]> {["train_loss" := PyFloat l]}), mt') /\
     (l == mean (List.map (fun p => loss p.2) tps))%Q /\
     (a == 100 * mean (List.map (fun p => episode_accuracy p.2) tps))%Q) /\
  (exists l a,
     fst (val_on_loader val_loader mode mv)
     = Ok (<[mode +:+ "_accuracy" := PyFloat a]> {[mode +:+ "_loss" := PyFloat l]}) /\
     (l == sumQ (List.map (fun p => loss p.2 * ofnat (query_samples p.1)) vps)
           / ofnat (list_sum (List.map (fun p => query_samples p.1) vps)))%Q /\
     (a == 100 * (ofnat (list_sum (List.map (fun p => correct_count p.2) vps))
                  / ofnat (list_sum (List.map (fun p => query_samples p.1) vps))))%Q).
Proof.
  intros Ht Hv Htne Hvne.
  destruct (train_passes_episodes _ _ _ _ Ht) as [Het Hacc].
  destruct (val_passes_episodes _ _ _ _ Hv) as [Hev Hval].
  assert (Htne' : List.map train_outcome tps <> [])
    by (by destruct tps).
  assert (Hvne' : List.map val_outcome vps <> [])
    by (by destruct vps).
  destruct (epoch_aggregation_outcomes train_loader val_loader mode mt mv mt'
              (in_mode false mv) _ _ Het Hev Htne' Hvne')
    as [(l & a & Hrun & Hl & Ha & _) (l' & a' & Hrun' & Hl' & Ha')].
  assert (Hn : list_sum (List.map query_count (List.map val_outcome vps))
               = list_sum (List.map (fun p => query_samples p.1) vps)).
  { rewrite List.map_map. f_equal. clear -Hval.
    induction Hval as [|p ps [Hp _] _ IH]; [reflexivity|].
    cbn [List.map]. by rewrite Hp, IH. }
  split.
  - exists l, a. split; [exact Hrun|]. split.
    + rewrite Hl, List.map_map. reflexivity.
    + rewrite Ha. unfold mean. rewrite !length_map, List.map_map.
      rewrite (sumQ_Forall _ (fun p => episode_accuracy p.2) tps Hacc).
      reflexivity.
  - exists l', a'. split; [exact Hrun'|]. split.
    + rewrite Hl', Hn, List.map_map.
      rewrite (sumQ_Forall _ (fun p => loss p.2 * ofnat (query_samples p.1))%Q vps).
      * reflexivity.
      * eapply Forall_impl; [exact Hval|]. intros p [Hp _]. cbn beta.
        rewrite Hp. reflexivity.
    + rewrite Ha', Hn, List.map_map.
      rewrite (sumQ_Forall _ (fun p => ofnat (correct_count p.2)) vps).
      * by rewrite sumQ_ofnat.
      * eapply Forall_impl; [exact Hval|]. by intros p [_ Hp].
Qed.

End Trainer.

(** On these two episodes the plain mean of the accuracies is 75 percent
    and the sample-weighted one is 5 out of 6. *)
Example small_loader_accuracies :
  (exists a, reported "train_accuracy"
               (fst (train_on_loader (T := small_torch) small_loader small_model))
             = Some (PyFloat a) /\ (a == 75)%Q) /\
  (exists a, reported "val_accuracy"
               (fst (val_on_loader (T := small_torch) small_loader "val" small_model))
             = Some (PyFloat a) /\ (a == 250 # 3)%Q).
Proof. split; eexists; split; try (vm_compute; reflexivity). Qed.

(** Two classes, three samples each: the labels run through the classes
    three times over. *)
Example relative_labels_2_3 : relative_labels 2 3 = [0; 1; 0; 1; 0; 1].
Proof. reflexivity. Qed.

Lemma relative_labels_positional_witness :
  shape (support_set easy_episode) = [1; 2; 1; 1; 1] /\
  shape (query_set easy_episode) = [2; 2; 1; 1; 1] /\
  episode_sizes easy_episode = Ok (1, 2, 2, 1, 1, 1) /\
  (exists out,
     episode_forward (T := small_torch) small_model easy_episode 1 2 2 1 1 1
     = Ok out /\
     support_relative_labels out = [0; 1] /\
     query_relative_labels out = [0; 1; 0; 1] /\
     fst (train_episode (T := small_torch) [easy_episode] small_model)
     = Ok (loss out,
           mean (matches (preds_of (T := small_torch) (logits out)) [0; 1; 0; 1]))) /\
  count_occ Nat.eq_dec (relative_labels 2 2) 1 = 2 /\
  relative_labels 2 2 !! (1 * 2 + 1) = Some 1.
Proof.
  destruct (relative_labels_positional (T := small_torch) easy_episode 2 1 2 1 1 1
              small_model [] eq_refl eq_refl eq_refl eq_refl eq_refl)
    as (Hsz & sb & qb & Hsb & Hqb & Hrest).
  cbv zeta in Hrest.
  destruct Hrest as (Hfw & Htr & _ & Hout & _ & _ & Hc & _ & Hq).
  split; [reflexivity|]. split; [reflexivity|]. split; [exact Hsz|].
  split; [|split].
  - destruct (classify (T := small_torch) small_model sb qb
                (relative_labels 2 1) (relative_labels 2 2)) as [out|e].
    + exists out. destruct (Hout out eq_refl) as (_ & _ & Hsl & Hql).
      split; [exact Hfw|]. split; [exact Hsl|]. split; [exact Hql|]. exact Htr.
    + exfalso. vm_compute in Hfw. discriminate Hfw.
  - apply (Hc 1). lia.
  - apply (Hq 1 1); lia.
Defined.

Lemma targets_noninterference_witness :
  same_but_targets easy_episode relabelled_episode /\
  targets easy_episode <> targets relabelled_episode /\
  train_episode (T := small_torch) [easy_episode] small_model
  = train_episode [relabelled_episode] small_model /\
  val_episode (T := small_torch) [easy_episode] small_model
  = val_episode [relabelled_episode] small_model.
Proof.
  assert (H : same_but_targets easy_episode relabelled_episode)
    by (repeat split; reflexivity).
  split; [exact H|]. split; [discriminate|].
  exact (proj2 (targets_noninterference (T := small_torch)
                  easy_episode relabelled_episode [] [] small_model 1 2 2 1 1 1 H)).
Defined.

Lemma epoch_aggregation_witness :
  train_passes (T := small_torch) small_loader (in_mode true small_model)
  = Some (small_train_passes, small_trained) /\
  val_passes (T := small_torch) small_loader (in_mode false small_model)
  = Some (small_val_passes, in_mode false small_model) /\
  (exists l a,
     train_on_loader small_loader small_model
     = (Ok (<["train_accuracy" := PyFloat a]> {["train_loss" := PyFloat l]}),
        small_trained) /\
     (l == mean (List.map (fun p => loss p.2) small_train_passes))%Q /\
     (a == 100 * mean (List.map (fun p => episode_accuracy (T := small_torch) p.2)
                                small_train_passes))%Q) /\
  (exists l a,
     fst (val_on_loader small_loader "val" small_model)
     = Ok (<["val_accuracy" := PyFloat a]> {["val_loss" := PyFloat l]}) /\
     (l == sumQ (List.map (fun p => loss p.2 * ofnat (query_samples p.1))
                          small_val_passes)
           / ofnat (list_sum (List.map (fun p => query_samples p.1)
                                       small_val_passes)))%Q /\
     (a == 100 * (ofnat (list_sum (List.map (fun p => correct_count (T := small_torch) p.2)
                                            small_val_passes))
                  / ofnat (list_sum (List.map (fun p => query_samples p.1)
                                              small_val_passes))))%Q).
Proof.
  assert (Ht : train_passes (T := small_torch) small_loader
                 (in_mode true small_model)
               = Some (small_train_passes, small_trained))
    by (vm_compute; reflexivity).
  assert (Hv : val_passes (T := small_torch) small_loader
                 (in_mode false small_model)
               = Some (small_val_passes, in_mode false small_model))
    by (vm_compute; reflexivity).
  split; [exact Ht|]. split; [exact Hv|].
  refine (epoch_aggregation (T := small_torch) small_loader small_loader "val"
            small_model small_model small_trained (in_mode false small_model)
            small_train_passes small_val_passes Ht Hv _ _); discriminate.
Defined.

Lemma val_checks_episode_sizes_witness :
  ~ sizes_as_declared short_episode /\
  val_on_loader (T := small_torch)
    ([[easy_episode]] ++ [short_episode] :: [[hard_episode]]) "val" small_model
  = (Raise (RuntimeError too_small_msg), in_mode false small_model) /\
  fst (val_on_loader (T := small_torch) small_loader "val" small_model)
  <> Raise (RuntimeError too_small_msg).
Proof.
  assert (Hne : ~ sizes_as_declared short_episode)
    by (intros [_ H]; discriminate H).
  split; [exact Hne|]. split.
  - eapply (proj1 (val_checks_episode_sizes (T := small_torch))
              [[easy_episode]] short_episode [] [[hard_episode]] "val" small_model).
    + vm_compute. reflexivity.
    + reflexivity.
    + reflexivity.
    + exact Hne.
  - apply (proj1 (proj2 (val_checks_episode_sizes (T := small_torch)))).
    apply Forall_cons_2; [intros ep [= <-]; split; reflexivity|].
    apply Forall_cons_2; [intros ep [= <-]; split; reflexivity|].
    apply Forall_nil_2.
Defined.

Lemma division_needs_an_episode_witness :
  small_loader <> [] /\
  fst (train_on_loader (T := small_torch) small_loader small_model)
  <> Raise ZeroDivisionError /\
  fst (val_on_loader (T := small_torch) small_loader "val" small_model)
  <> Raise ZeroDivisionError.
Proof.
  assert (Hne : small_loader <> []) by discriminate.
  split; [exact Hne|]. split.
  - exact (proj1 (proj2 (proj2 (division_needs_an_episode (T := small_torch))))
             small_loader small_model Hne).
  - exact (proj2 (proj2 (proj2 (division_needs_an_episode (T := small_torch))))
             small_loader "val" small_model Hne).
Defined.

(** ** More on the episodic trainer *)

Section TrainerMore.

Context `{T : Torch}.

(** *** Accuracies are percentages *)

Lemma ofnat_S (n : nat) : (ofnat (S n) == ofnat n + 1)%Q.
Proof.
  unfold ofnat. rewrite Nat2Z.inj_succ, <- Z.add_1_r, inject_Z_plus. reflexivity.
Qed.

Lemma ofnat_nonneg (n : nat) : (0 <= ofnat n)%Q.
Proof.
  unfold ofnat. change 0%Q with (inject_Z 0). rewrite <- Zle_Qle. lia.
Qed.

Lemma ofnat_le (a b : nat) : (a <= b)%nat -> (ofnat a <= ofnat b)%Q.
Proof. intros H. unfold ofnat. rewrite <- Zle_Qle. lia. Qed.

Lemma ofnat_add (a b : nat) : (ofnat (a + b) == ofnat a + ofnat b)%Q.
Proof. unfold ofnat. by rewrite Nat2Z.inj_add, inject_Z_plus. Qed.

Lemma sumQ_cons (x : Q) (xs : list Q) : sumQ (x :: xs) = (x + sumQ xs)%Q.
Proof. reflexivity. Qed.

Lemma matches_bounds (preds labels : list nat) :
  (0 <= sumQ (matches preds labels) <= ofnat (List.length (matches preds labels)))%Q /\
  (List.length (matches preds labels) <= List.length labels)%nat.
Proof.
  revert labels. induction preds as [|p preds IH]; intros [|l labels];
    cbn [matches zip_with List.length];
    try (split; [split; apply Qle_refl | lia]).
  destruct (IH labels) as [[H0 H1] Hlen]. fold (matches preds labels).
  split; [|lia]. rewrite sumQ_cons, ofnat_S.
  destruct (p =? l); lra.
Qed.

Lemma div_bounds (x : Q) (n : nat) :
  (0 <= x <= ofnat n)%Q -> (0 <= x / ofnat n <= 1)%Q.
Proof.
  intros [H0 H1]. destruct n as [|n].
  - unfold Qdiv. change (/ ofnat 0)%Q with 0%Q. lra.
  - assert (Hpos : (0 < ofnat (S n))%Q).
    { pose proof (ofnat_nonneg n). rewrite ofnat_S. lra. }
    split.
    + apply Qle_shift_div_l; [exact Hpos | lra].
    + apply Qle_shift_div_r; [exact Hpos | lra].
Qed.

Lemma mean_matches_bounds (preds labels : list nat) :
  (0 <= mean (matches preds labels) <= 1)%Q.
Proof. apply div_bounds, matches_bounds. Qed.

Lemma sumQ_bounds {A} (f : A -> Q) (w : A -> nat) (xs : list A) :
  Forall (fun x => (0 <= f x <= ofnat (w x))%Q) xs ->
  (0 <= sumQ (List.map f xs) <= ofnat (list_sum (List.map w xs)))%Q.
Proof.
  induction 1 as [|x xs [H0 H1] _ [IH0 IH1]]; cbn [List.map list_sum foldr].
  - split; apply Qle_refl.
  - rewrite sumQ_cons. fold (list_sum (List.map w xs)). rewrite ofnat_add. lra.
Qed.

(** Under the contract the query labels are as many as the query rows. *)
Lemma episode_forward_label_count (m : model) (ep : episode)
    (ss qs n c h w : nat) (out : forward_out) :
  one_row_per_query ->
  episode_forward m ep ss qs n c h w = Ok out ->
  List.length (query_relative_labels out) = qs * n /\
  query_relative_labels out = relative_labels (nclasses ep) (query_size ep).
Proof.
  intros Hrows. unfold episode_forward. cbv zeta.
  destruct (view [ss * n; c; h; w] (support_set ep)) as [sb|]; [|discriminate].
  cbn.
  destruct (view_rows (ss * n) _) as [se|]; [|discriminate]. cbn.
  destruct (view [qs * n; c; h; w] (query_set ep)) as [qb|]; [|discriminate].
  cbn.
  destruct (view_rows (qs * n) _) as [qe|] eqn:Hqe; [|discriminate]. cbn.
  unfold cross_entropy. rewrite Hrows.
  assert (Hq : hd 0 (shape qe) = qs * n).
  { unfold view_rows in Hqe. destruct (qs * n =? 0); [discriminate|].
    destruct (_ mod _ =? 0); [|discriminate]. by injection Hqe as <-. }
  rewrite Hq.
  destruct (Nat.eqb_spec (qs * n)
              (List.length (relative_labels (nclasses ep) (query_size ep))))
    as [He|]; [|discriminate].
  cbn. intros [= <-]. cbn. auto.
Qed.

Lemma train_episode_accuracy (batch : list episode) (m : model) :
  match train_episode batch m with
  | (Ok (_, acc), _) => (0 <= acc <= ofnat 1%nat)%Q
  | (Raise _, _) => True
  end.
Proof.
  rewrite train_episode_eq.
  destruct batch as [|ep rest]; [done|].
  destruct (episode_sizes ep) as [[[[[[ss qs] n] c] h] w]|e]; [|done].
  destruct (episode_forward m ep ss qs n c h w) as [out|e]; [|done].
  cbv zeta. apply mean_matches_bounds.
Qed.

Lemma val_episode_correct (batch : list episode) (m : model) :
  one_row_per_query ->
  match val_episode batch m with
  | (Ok o, _) => (0 <= episode_correct o <= ofnat (query_count o))%Q
  | (Raise _, _) => True
  end.
Proof.
  intros Hrows. rewrite val_episode_eq.
  destruct batch as [|ep rest]; [done|].
  destruct (episode_sizes ep) as [[[[[[ss qs] n] c] h] w]|e]; [|done].
  destruct (negb (ss =? support_size ep) || negb (qs =? query_size ep)); [done|].
  destruct (episode_forward m ep ss qs n c h w) as [out|e] eqn:Hf; [|done].
  cbn [episode_correct query_count].
  destruct (episode_forward_label_count _ _ _ _ _ _ _ _ _ Hrows Hf) as [Hlen _].
  destruct (matches_bounds (preds_of (logits out)) (query_relative_labels out))
    as [[H0 H1] Hle].
  split; [exact H0|]. eapply Qle_trans; [exact H1|]. apply ofnat_le. lia.
Qed.

(** X9.  When the classifier returns one row of logits per query sample,
    the accuracy either loop reports lies between 0 and 100. *)
Theorem reported_accuracy_is_a_percentage (loader : list (list episode))
    (mode : string) (m m' : model) (d : gmap string pyval) :
  one_row_per_query ->
  (train_on_loader loader m = (Ok d, m') ->
   exists a, d !! "train_accuracy" = Some (PyFloat a) /\ (0 <= a <= 100)%Q) /\
  (val_on_loader loader mode m = (Ok d, m') ->
   exists a, d !! (mode +:+ "_accuracy") = Some (PyFloat a) /\ (0 <= a <= 100)%Q).
Proof.
  intros Hrows. split; intros Hrun.
  - rewrite train_on_loader_eq in Hrun.
    assert (Hbody : Forall (fun b => forall m,
                              match train_episode b m with
                              | (Ok o, _) => (0 <= snd o <= ofnat ((fun _ => 1%nat) o))%Q
                              | (Raise e, _) => True
                              end) loader).
    { apply Forall_true. intros b m0.
      pose proof (train_episode_accuracy b m0) as Hr.
      by destruct (train_episode b m0) as [[[l acc]|?] ?]. }
    pose proof (episodes_result _ _ _ _ Hbody (in_mode true m)) as H.
    destruct (episodes train_episode loader (in_mode true m)) as [[outs|e] m1];
      [|discriminate].
    destruct H as [_ Hall]. cbv zeta in Hrun.
    destruct (Z.eqb_spec (Z.of_nat (List.length outs)) 0) as [|Hz]; [discriminate|].
    injection Hrun as <- _.
    eexists. split; [apply lookup_insert_eq|].
    apply (sumQ_bounds snd (fun _ => 1%nat)) in Hall.
    rewrite fold_left_Qplus.
    assert (Hn : list_sum (List.map (fun _ : Q * Q => 1%nat) outs) = List.length outs).
    { clear. induction outs as [|o outs IH]; [done|]. cbn. f_equal. apply IH. }
    rewrite Hn in Hall. fold (ofnat (List.length outs)).
    destruct (div_bounds _ _ Hall) as [D0 D1].
    unfold Qdiv in *. split; lra.
  - rewrite val_on_loader_eq in Hrun.
    assert (Hbody : Forall (fun b => forall m,
                              match val_episode b m with
                              | (Ok o, _) =>
                                  (0 <= episode_correct o <= ofnat (query_count o))%Q
                              | (Raise e, _) => True
                              end) loader).
    { apply Forall_true. intros b m0. by apply val_episode_correct. }
    pose proof (episodes_result _ _ _ _ Hbody (in_mode false m)) as H.
    destruct (episodes val_episode loader (in_mode false m)) as [[outs|e] m1];
      [|discriminate].
    destruct H as [_ Hall]. cbv zeta in Hrun.
    destruct (Z.eqb_spec (Z.of_nat (list_sum (List.map query_count outs))) 0)
      as [|Hz]; [discriminate|].
    injection Hrun as <- _.
    eexists. split; [apply lookup_insert_eq|].
    apply (sumQ_bounds episode_correct query_count) in Hall.
    rewrite fold_left_Qplus.
    fold (ofnat (list_sum (List.map query_count outs))).
    destruct (div_bounds _ _ Hall) as [D0 D1].
    unfold Qdiv in *. split; lra.
Qed.

(** *** What the training pass checks, and what it leaves behind *)

(** X10.  The training pass compares no size with the episode's metadata,
    but it cannot get through with the wrong number of labels: when the
    classifier returns one row per query sample and the declared
    [query_size * nclasses] is not the number of query rows read from the
    tensor, the pass raises from inside torch; a pass that returns had the
    two numbers equal. *)
Theorem train_episode_label_count (ep : episode) (rest : list episode)
    (m : model) (ss qs n c h w : nat) :
  one_row_per_query ->
  episode_sizes ep = Ok (ss, qs, n, c, h, w) ->
  (query_size ep * nclasses ep <> qs * n ->
   exists e, fst (train_episode (ep :: rest) m) = Raise e /\ torch_error e) /\
  (forall o, fst (train_episode (ep :: rest) m) = Ok o ->
             query_size ep * nclasses ep = qs * n).
Proof.
  intros Hrows Hsz.
  assert (Hok : forall out, episode_forward m ep ss qs n c h w = Ok out ->
                            query_size ep * nclasses ep = qs * n).
  { intros out Hf.
    destruct (episode_forward_label_count _ _ _ _ _ _ _ _ _ Hrows Hf) as [Hlen Hl].
    rewrite Hl, relative_labels_length in Hlen. exact Hlen. }
  rewrite train_episode_eq, Hsz.
  pose proof (episode_forward_result m ep ss qs n c h w) as Hres.
  destruct (episode_forward m ep ss qs n c h w) as [out|e]; split.
  - intros Hne. exfalso. by apply Hne, (Hok out).
  - intros o _. by apply (Hok out).
  - intros _. by exists e.
  - discriminate.
Qed.

(** X11.  A failing episode ends the training epoch there and then: when
    the episodes before it pass and it raises, the call raises that
    episode's error, and the episodes after it play no part. *)
Theorem train_stops_at_first_failure (pre post : list (list episode))
    (bad : list episode) (m m1 : model) (outs : list (Q * Q)) (e : exn) :
  episodes train_episode pre (in_mode true m) = (Ok outs, m1) ->
  fst (train_episode bad m1) = Raise e ->
  fst (train_on_loader (pre ++ bad :: post) m) = Raise e.
Proof.
  intros Hpre Hbad.
  destruct (train_episode bad m1) as [r m2] eqn:Hrun. cbn in Hbad. subst r.
  rewrite train_on_loader_eq.
  by rewrite (episodes_app_raise _ _ _ _ _ _ _ _ _ Hpre Hrun).
Qed.

Lemma episodes_invariant {A} (body : list episode -> M A) (I : model -> Prop) :
  (forall b m, I m -> I (snd (body b m))) ->
  forall loader m, I m -> I (snd (episodes body loader m)).
Proof.
  intros Hbody. induction loader as [|b loader IH]; intros m Hm; [exact Hm|].
  cbn [episodes]. rewrite bind_run. specialize (Hbody b m Hm).
  destruct (body b m) as [[a|e] m1]; [|exact Hbody].
  rewrite bind_run. specialize (IH m1 Hbody).
  by destruct (episodes body loader m1) as [[outs|e] m2].
Qed.

(** X12.  Training never touches the scheduler: after [train_on_loader],
    whether it returned or raised, the scheduler is in the state it was in
    and the backbone is in training mode. *)
Theorem train_on_loader_frame (loader : list (list episode)) (m : model) :
  scheduler (snd (train_on_loader loader m)) = scheduler m /\
  training (snd (train_on_loader loader m)) = true.
Proof.
  rewrite train_on_loader_eq.
  pose proof (episodes_invariant train_episode
                (fun m0 => scheduler m0 = scheduler m /\ training m0 = true)) as H.
  assert (Hbody : forall b m0,
             scheduler m0 = scheduler m /\ training m0 = true ->
             scheduler (snd (train_episode b m0)) = scheduler m /\
             training (snd (train_episode b m0)) = true).
  { intros b m0 Hm0. rewrite train_episode_eq.
    destruct b as [|ep rest]; [exact Hm0|].
    destruct (episode_sizes ep) as [[[[[[ss qs] n] c] h] w]|e]; [|exact Hm0].
    destruct (episode_forward m0 ep ss qs n c h w) as [out|e]; exact Hm0. }
  specialize (H Hbody loader (in_mode true m) (conj eq_refl eq_refl)).
  destruct (episodes train_episode loader (in_mode true m)) as [[outs|e] m1];
    [|exact H].
  cbv zeta. by destruct (_ =? _)%Z.
Qed.

(** *** What the evaluation pass tells the scheduler *)

Lemma metric_keys_differ (mode : string) :
  mode +:+ "_accuracy" <> mode +:+ "_loss".
Proof. intros H. apply (inj _) in H. discriminate H. Qed.

(** X13.  In every mode, "test" included, a call of [val_on_loader] that
    returns has stepped the scheduler once, on the very number it reports
    as [{mode}_loss]; the dictionary it returns has that key and
    [{mode}_accuracy] and no other. *)
Theorem scheduler_sees_reported_loss (loader : list (list episode))
    (mode : string) (m m' : model) (d : gmap string pyval) :
  val_on_loader loader mode m = (Ok d, m') ->
  exists l,
    d !! (mode +:+ "_loss") = Some (PyFloat l) /\
    (scheduler m', optimizer m') = scheduler_step (scheduler m) (optimizer m) l /\
    dom d = {[mode +:+ "_loss"; mode +:+ "_accuracy"]}.
Proof.
  rewrite val_on_loader_eq.
  pose proof (episodes_val_frame loader (in_mode false m)) as Hm.
  destruct (episodes val_episode loader (in_mode false m)) as [[outs|e] m1];
    cbn in Hm; subst m1; [|discriminate].
  cbv zeta. destruct (_ =? _)%Z; [discriminate|].
  intros [= <- <-]. eexists. split; [|split].
  - rewrite lookup_insert_ne by apply metric_keys_differ.
    apply lookup_singleton_eq.
  - cbn. symmetry. apply surjective_pairing.
  - rewrite dom_insert_L, dom_singleton_L. apply (comm_L union).
Qed.

(** *** Checkpoints *)

(** X15.  [set_state_dict] loads part by part and stops at the first key
    that is missing: without "model" nothing is loaded; with "model" but
    without "optimizer" the new parameters are already in place when the
    [KeyError] is raised; without "scheduler" only the scheduler is left
    as it was. *)
Theorem set_state_dict_missing_key (sd : state_dict) (m : model) :
  (sd_model sd = None ->
   set_state_dict sd m = (Raise (KeyError "model"), m)) /\
  (forall p, sd_model sd = Some p -> sd_optimizer sd = None ->
     set_state_dict sd m
     = (Raise (KeyError "optimizer"),
        {| backbone_params := p; training := training m;
           optimizer := optimizer m; scheduler := scheduler m |})) /\
  (forall p o, sd_model sd = Some p -> sd_optimizer sd = Some o ->
     sd_scheduler sd = None ->
     set_state_dict sd m
     = (Raise (KeyError "scheduler"),
        {| backbone_params := p; training := training m;
           optimizer := o; scheduler := scheduler m |})).
Proof.
  unfold set_state_dict. split; [|split].
  - intros ->. reflexivity.
  - intros p -> ->. reflexivity.
  - intros p o -> -> ->. reflexivity.
Qed.

End TrainerMore.

(** *** Construction *)

(** X16.  Once the backbone is built and the keys are there, constructing
    the trainer succeeds exactly for the optimizer names "sgd" and "adam",
    spelled so, with a learning rate that is not negative: SGD gets the
    configured rate with weight decay 0.0005, momentum 0.9 and Nesterov
    steps, Adam gets the configured rate, and the plateau scheduler
    watches that optimizer in "min" mode with factor 0.1 and the
    configured patience.  A negative rate is refused by either optimizer
    with a [ValueError]; any other name, "SGD" included, ends in an
    [AttributeError] for the optimizer that was never set, whatever the
    rate. *)
Theorem init_optimizer_names (name : string) (lr : Q) (p : Z) :
  let cfg := {| cfg_optimizer := Some name; cfg_lr := Some lr;
                cfg_patience := Some p |} in
  (name = "sgd" -> (0 <= lr)%Q ->
   init (Ok tt) cfg
   = Ok {| the_optimizer := SGD lr (5 # 10000) (9 # 10) true;
           the_scheduler :=
             ReduceLROnPlateau (SGD lr (5 # 10000) (9 # 10) true) "min" (1 # 10) p true;
           best_val := 0 |}) /\
  (name = "adam" -> (0 <= lr)%Q ->
   init (Ok tt) cfg
   = Ok {| the_optimizer := Adam lr;
           the_scheduler := ReduceLROnPlateau (Adam lr) "min" (1 # 10) p true;
           best_val := 0 |}) /\
  (name = "sgd" \/ name = "adam" -> (lr < 0)%Q ->
   init (Ok tt) cfg = Raise ValueError) /\
  (name <> "sgd" -> name <> "adam" -> init (Ok tt) cfg = Raise AttributeError).
Proof.
  cbv zeta. unfold init, torch_SGD, torch_Adam.
  cbn [cfg_optimizer cfg_lr cfg_patience getitem].
  assert (Hpos : (0 <= lr)%Q -> Qle_bool 0 lr = true)
    by (intros H; by apply Qle_bool_iff).
  assert (Hneg : (lr < 0)%Q -> Qle_bool 0 lr = false).
  { intros H. destruct (Qle_bool 0 lr) eqn:E; [|done].
    apply Qle_bool_iff in E. exfalso. by apply (Qlt_not_le _ _ H). }
  split; [|split; [|split]].
  - intros -> H. change (Ok tt ≫= ?k) with (k tt). cbn beta.
    change (Ok "sgd" ≫= ?k) with (k "sgd"). cbn beta. cbn [String.eqb Ascii.eqb Bool.eqb].
    change (Ok lr ≫= ?k) with (k lr). cbn beta. rewrite (Hpos H). reflexivity.
  - intros -> H. change (Ok tt ≫= ?k) with (k tt). cbn beta.
    change (Ok "adam" ≫= ?k) with (k "adam"). cbn beta. cbn [String.eqb Ascii.eqb Bool.eqb].
    change (Ok "adam" ≫= ?k) with (k "adam"). cbn beta. cbn [String.eqb Ascii.eqb Bool.eqb].
    change (Ok lr ≫= ?k) with (k lr). cbn beta. rewrite (Hpos H). reflexivity.
  - intros [-> | ->] H; change (Ok tt ≫= ?k) with (k tt); cbn beta.
    + change (Ok "sgd" ≫= ?k) with (k "sgd"). cbn beta. cbn [String.eqb Ascii.eqb Bool.eqb].
      change (Ok lr ≫= ?k) with (k lr). cbn beta. rewrite (Hneg H). reflexivity.
    + change (Ok "adam" ≫= ?k) with (k "adam"). cbn beta. cbn [String.eqb Ascii.eqb Bool.eqb].
      change (Ok "adam" ≫= ?k) with (k "adam"). cbn beta. cbn [String.eqb Ascii.eqb Bool.eqb].
      change (Ok lr ≫= ?k) with (k lr). cbn beta. rewrite (Hneg H). reflexivity.
  - intros H1 H2. apply String.eqb_neq in H1, H2.
    change (Ok tt ≫= ?k) with (k tt). cbn beta.
    change (Ok name ≫= ?k) with (k name). cbn beta.
    rewrite H1. change (Ok name ≫= ?k) with (k name). cbn beta.
    by rewrite H2.
Qed.

Lemma init_optimizer_names_witness :
  init (Ok tt) {| cfg_optimizer := Some "sgd"; cfg_lr := Some (1 # 100);
                  cfg_patience := Some 10%Z |}
  = Ok {| the_optimizer := SGD (1 # 100) (5 # 10000) (9 # 10) true;
          the_scheduler :=
            ReduceLROnPlateau (SGD (1 # 100) (5 # 10000) (9 # 10) true)
                              "min" (1 # 10) 10%Z true;
          best_val := 0 |} /\
  init (Ok tt) {| cfg_optimizer := Some "adam"; cfg_lr := Some (-1 # 100);
                  cfg_patience := Some 10%Z |}
  = Raise ValueError /\
  init (Ok tt) {| cfg_optimizer := Some "SGD"; cfg_lr := Some (1 # 100);
                  cfg_patience := Some 10%Z |}
  = Raise AttributeError.
Proof.
  split; [|split].
  - apply (proj1 (init_optimizer_names "sgd" (1 # 100) 10%Z)); [reflexivity|].
    discriminate.
  - apply (proj1 (proj2 (proj2 (init_optimizer_names "adam" (-1 # 100) 10%Z))));
      [by right|reflexivity].
  - apply (proj2 (proj2 (proj2 (init_optimizer_names "SGD" (1 # 100) 10%Z))));
      discriminate.
Defined.

(** The small instance returns one row of logits per query row. *)
Lemma small_torch_rows : one_row_per_query (T := small_torch).
Proof. intros s q labels. reflexivity. Qed.

Lemma reported_accuracy_is_a_percentage_witness :
  one_row_per_query (T := small_torch) /\
  (exists a, reported "train_accuracy"
               (fst (train_on_loader (T := small_torch) small_loader small_model))
             = Some (PyFloat a) /\ (0 <= a <= 100)%Q) /\
  (exists a, reported "val_accuracy"
               (fst (val_on_loader (T := small_torch) small_loader "val" small_model))
             = Some (PyFloat a) /\ (0 <= a <= 100)%Q).
Proof.
  split; [exact small_torch_rows|]. split.
  - assert (E : train_on_loader (T := small_torch) small_loader small_model
                = (Ok small_train_report.1, small_train_report.2))
      by (vm_compute; reflexivity).
    rewrite E.
    exact (proj1 (reported_accuracy_is_a_percentage (T := small_torch)
                    small_loader "val" small_model _ _ small_torch_rows) E).
  - assert (E : val_on_loader (T := small_torch) small_loader "val" small_model
                = (Ok small_val_report.1, small_val_report.2))
      by (vm_compute; reflexivity).
    rewrite E.
    exact (proj2 (reported_accuracy_is_a_percentage (T := small_torch)
                    small_loader "val" small_model _ _ small_torch_rows) E).
Defined.

Lemma train_episode_label_count_witness :
  one_row_per_query (T := small_torch) /\
  episode_sizes short_episode = Ok (1, 2, 2, 1, 1, 1) /\
  query_size short_episode * nclasses short_episode <> 2 * 2 /\
  exists e, fst (train_episode (T := small_torch) [short_episode] small_model)
            = Raise e /\ torch_error e.
Proof.
  split; [exact small_torch_rows|]. split; [reflexivity|].
  assert (Hne : query_size short_episode * nclasses short_episode <> 2 * 2)
    by (cbn; lia).
  split; [exact Hne|].
  exact (proj1 (train_episode_label_count (T := small_torch) short_episode []
                  small_model 1 2 2 1 1 1 small_torch_rows eq_refl) Hne).
Defined.

Lemma train_stops_at_first_failure_witness :
  episodes (T := small_torch) train_episode [[easy_episode]]
    (in_mode true small_model) = (Ok [hd (0%Q, 0%Q) small_touts], easy_trained) /\
  fst (train_episode (T := small_torch) [short_episode] easy_trained)
  = Raise ValueError /\
  fst (train_on_loader (T := small_torch)
         ([[easy_episode]] ++ [short_episode] :: [[hard_episode]]) small_model)
  = Raise ValueError.
Proof.
  assert (Hpre : episodes (T := small_torch) train_episode [[easy_episode]]
                   (in_mode true small_model)
                 = (Ok [hd (0%Q, 0%Q) small_touts], easy_trained))
    by (vm_compute; reflexivity).
  assert (Hbad : fst (train_episode (T := small_torch) [short_episode] easy_trained)
                 = Raise ValueError) by (vm_compute; reflexivity).
  split; [exact Hpre|]. split; [exact Hbad|].
  exact (train_stops_at_first_failure (T := small_torch) [[easy_episode]]
           [[hard_episode]] [short_episode] small_model easy_trained _ _ Hpre Hbad).
Defined.

Lemma scheduler_sees_reported_loss_witness :
  exists l,
    val_on_loader (T := small_torch) small_loader "test" small_model
    = (Ok small_test_report.1, small_test_report.2) /\
    small_test_report.1 !! "test_loss" = Some (PyFloat l) /\
    scheduler small_test_report.2 = [l] /\
    dom small_test_report.1 = {["test_loss"; "test_accuracy"]}.
Proof.
  assert (E : val_on_loader (T := small_torch) small_loader "test" small_model
              = (Ok small_test_report.1, small_test_report.2))
    by (vm_compute; reflexivity).
  destruct (scheduler_sees_reported_loss (T := small_torch) small_loader "test"
              small_model _ _ E) as (l & Hl & Hs & Hd).
  exists l. split; [exact E|]. split; [exact Hl|]. split; [|exact Hd].
  exact (f_equal fst Hs).
Defined.

End ProtoNetFacts.

(** ** The train/validate driver *)

Module TrainvalFacts.

Import Trainval.

Section Driver.

Context `{X : Experiment}.

(** *** The saves of one epoch *)

Lemma epoch_eq (e : Z) (m : model) (score_list : list (gmap string pyval)) :
  exists m' s,
    s !! "epoch" = Some (PyInt e) /\
    epoch e m score_list
    = (m', score_list ++ [s],
       [TorchSave (get_state_dict m'); SavePkl (score_list ++ [s])]).
Proof.
  unfold epoch. destruct (train_on_loader e m) as [m1 tr].
  destruct (val_on_loader e m1) as [m2 va].
  eexists _, _. split; [|reflexivity]. apply lookup_insert_eq.
Qed.

(** The saves of one epoch, file operation by file operation: what the
    next run finds of the two files, and what the temporary files hold
    when a file is removed. *)
Lemma interrupted_epoch (sd : state_dict) (sl : list (gmap string pyval))
    (d : disk) (k : nat) :
  let d' := interrupted k [TorchSave sd; SavePkl sl] d in
  checkpoint_files d'
  = match k with
    | 0%nat | 1%nat => (model_pth d, score_list_pkl d)
    | 2%nat => (None, score_list_pkl d)
    | 3%nat | 4%nat => (Some sd, score_list_pkl d)
    | 5%nat => (Some sd, None)
    | _ => (Some sd, Some sl)
    end /\
  (k = 2%nat -> model_pth_tmp d' = Some sd) /\
  (k = 5%nat -> score_list_pkl_tmp d' = Some sl).
Proof.
  cbv zeta. unfold interrupted.
  destruct k as [|[|[|[|[|[|k]]]]]]; cbn [List.map concat file_ops app take firstn];
    rewrite ?take_nil; cbn; (split; [reflexivity|split; [intros H|intros H]]);
    try reflexivity; try discriminate H.
Qed.

Lemma resume_files (d1 d2 : disk) (fresh : model) :
  checkpoint_files d1 = checkpoint_files d2 -> resume d1 fresh = resume d2 fresh.
Proof.
  unfold checkpoint_files, resume, torch_load. intros [= Hm Hs]. by rewrite Hm, Hs.
Qed.

Lemma resume_Some (sd : state_dict) (history : list (gmap string pyval))
    (final : gmap string pyval) (p : Z) (d : disk) (fresh : model) :
  checkpoint_files d = (Some sd, Some (history ++ [final])) ->
  final !! "epoch" = Some (PyInt p) ->
  resume d fresh = Ok (load_state_dict fresh sd, history ++ [final], PyInt (p + 1)).
Proof.
  unfold checkpoint_files, resume, torch_load, last_item, getitem.
  intros [= -> ->] He. cbn. rewrite last_snoc. cbn. by rewrite He.
Qed.

(** C3, as the code has it.  Saving epoch [e] after a committed epoch
    [e - 1] is two saves, the model first and the score list second, and
    each save dumps its payload into a temporary file, removes the file
    it replaces and renames the temporary one.  Of the two files a later
    run reads, an interruption after [k] of the six file operations leaves:
    the old pair; no model file beside the old score list, on which the
    next run fails; the model of epoch [e] beside the score list of epoch
    [e - 1], from which the next run restores the new weights and runs
    epoch [e] again; the model of epoch [e] and no score list, from which
    the next run starts over at epoch 0 with its fresh model; or the new
    pair.  A file is removed only when its replacement is complete in the
    temporary file, and the score list of epoch [e] is never on disk
    beside weights older than epoch [e]. *)
Theorem save_is_two_writes (e : Z) (m fresh : model) (old : state_dict)
    (history : list (gmap string pyval)) (final : gmap string pyval)
    (d : disk) (k : nat) :
  model_pth d = Some old ->
  score_list_pkl d = Some (history ++ [final]) ->
  final !! "epoch" = Some (PyInt (e - 1)) ->
  let '(m', score_list', ws) := epoch e m (history ++ [final]) in
  let new := get_state_dict m' in
  let d' := interrupted k ws d in
  ws = [TorchSave new; SavePkl score_list'] /\
  (last score_list' ≫= (fun s => s !! "epoch")) = Some (PyInt e) /\
  checkpoint_files d'
  = match k with
    | 0%nat | 1%nat => (Some old, Some (history ++ [final]))
    | 2%nat => (None, Some (history ++ [final]))
    | 3%nat | 4%nat => (Some new, Some (history ++ [final]))
    | 5%nat => (Some new, None)
    | _ => (Some new, Some score_list')
    end /\
  resume d' fresh
  = match k with
    | 0%nat | 1%nat => Ok (load_state_dict fresh old, history ++ [final], PyInt e)
    | 2%nat => Raise FileNotFoundError
    | 3%nat | 4%nat => Ok (load_state_dict fresh new, history ++ [final], PyInt e)
    | 5%nat => Ok (fresh, [], PyInt 0)
    | _ => Ok (load_state_dict fresh new, score_list', PyInt (e + 1))
    end /\
  (k = 2%nat -> model_pth_tmp d' = Some new) /\
  (k = 5%nat -> score_list_pkl_tmp d' = Some score_list') /\
  (score_list_pkl d' = Some score_list' -> model_pth d' = Some new).
Proof.
  intros Hm Hs He.
  destruct (epoch_eq e m (history ++ [final])) as (m' & s & Hse & ->).
  cbv zeta.
  destruct (interrupted_epoch (get_state_dict m') ((history ++ [final]) ++ [s]) d k)
    as (Hfiles & Htm & Hts).
  rewrite Hm, Hs in Hfiles.
  split; [reflexivity|]. split; [by rewrite last_snoc|].
  split; [exact Hfiles|].
  assert (Hold : PyInt (e - 1 + 1) = PyInt e) by (f_equal; lia).
  pose proof (f_equal fst Hfiles) as Hfm. pose proof (f_equal snd Hfiles) as Hfs.
  unfold checkpoint_files in Hfm, Hfs. cbn [fst snd] in Hfm, Hfs.
  split; [|split; [exact Htm|split; [exact Hts|]]].
  - destruct k as [|[|[|[|[|[|k]]]]]].
    1,2: rewrite <- Hold; by apply resume_Some.
    + unfold resume, torch_load. by rewrite Hfm, Hfs.
    + rewrite <- Hold; by apply resume_Some.
    + rewrite <- Hold; by apply resume_Some.
    + unfold resume. by rewrite Hfs.
    + by apply resume_Some.
  - intros Hnew.
    assert (Hlen : history ++ [final] <> (history ++ [final]) ++ [s]).
    { intros H. apply (f_equal List.length) in H. rewrite !length_app in H.
      cbn in H. lia. }
    rewrite Hfs in Hnew.
    destruct k as [|[|[|[|[|[|k]]]]]]; cbn [fst snd] in Hfm, Hnew;
      try (by injection Hnew); try discriminate Hnew; exact Hfm.
Qed.

(** *** Where a run starts *)





End Driver.

(** C3 fails on the code: with epoch 0 saved, an interruption of the saves
    of epoch 1 once the model file is renamed leaves neither the old pair
    of files nor the new one, and the next run restores the weights of
    epoch 1 (two epochs of training) next to a history that ends at epoch
    0, and runs epoch 1 again.  The same disk arises in a run from scratch
    interrupted after nine file operations.  One operation earlier the
    model file is gone and the next run fails; two operations later the
    history is gone and the next run starts over. *)
Lemma torn_save_observed :
  ~ saves_atomically (X := counting) 1 1%nat history0 disk0 /\
  model_pth torn_disk = Some 2%nat /\
  recorded_epochs <$> score_list_pkl torn_disk = Some [Some (PyInt 0)] /\
  resume (X := counting) torn_disk 0%nat = Ok (2%nat, history0, PyInt 1) /\
  (exists m sl ws,
     trainval (X := counting) empty_disk 0%nat 2 = Ok (m, sl, ws) /\
     interrupted 9 ws empty_disk = torn_disk) /\
  resume (X := counting) headless_disk 0%nat = Raise FileNotFoundError /\
  resume (X := counting) amnesic_disk 0%nat = Ok (0%nat, [], PyInt 0).
Proof.
  split; [|split; [|split; [|split; [|split; [|split]]]]].
  - intros H. destruct (H 3%nat) as [Hk|Hk].
    + apply (f_equal fst) in Hk. vm_compute in Hk. discriminate.
    + apply (f_equal (fun p => List.length <$> snd p)) in Hk.
      vm_compute in Hk. discriminate.
  - reflexivity.
  - vm_compute. reflexivity.
  - vm_compute. reflexivity.
  - eexists _, _, _. split; vm_compute; reflexivity.
  - vm_compute. reflexivity.
  - vm_compute. reflexivity.
Qed.

Lemma save_is_two_writes_witness :
  model_pth disk0 = Some 1%nat /\
  score_list_pkl disk0 = Some ([] ++ [hd ∅ history0]) /\
  hd ∅ history0 !! "epoch" = Some (PyInt (1 - 1)) /\
  checkpoint_files torn_disk = (Some 2%nat, Some ([] ++ [hd ∅ history0])) /\
  resume (X := counting) torn_disk 0%nat
  = Ok (2%nat, [] ++ [hd ∅ history0], PyInt 1).
Proof.
  assert (He : hd ∅ history0 !! "epoch" = Some (PyInt (1 - 1)))
    by (vm_compute; reflexivity).
  split; [reflexivity|]. split; [reflexivity|]. split; [exact He|].
  pose proof (save_is_two_writes (X := counting) 1 1%nat 0%nat 1%nat []
                (hd ∅ history0) disk0 3 eq_refl eq_refl He) as H.
  change (epoch (X := counting) 1 1%nat ([] ++ [hd ∅ history0]))
    with (epoch (X := counting) 1 1%nat history0) in H.
  destruct (epoch (X := counting) 1 1%nat history0) as [[m' sl'] ws] eqn:E.
  cbv zeta in H. destruct H as (Hws & _ & Hfiles & Hres & _).
  assert (Hm' : m' = 2%nat) by exact (eq_sym (f_equal (fun x => x.1.1) E)).
  assert (Hd : interrupted 3 ws disk0 = torn_disk).
  { unfold torn_disk, saves1. by rewrite E. }
  rewrite Hd, Hm' in Hfiles, Hres. split; [exact Hfiles|exact Hres].
Defined.


End TrainvalFacts.
